(** * UserService of the auth microservice: a shallow embedding

    The service (class [UserService]) is embedded as functions in a small
    state-and-exception monad over the four Mongoose collections it uses
    (users, vaults, change-primary-data requests, forgot-password requests),
    its one instance field ([counter]), the clock and the entropy source.

    Conventions:
    - an [ObjectId] is a natural number; a string [userId] that Mongoose
      casts to an ObjectId is that number;
    - times are integers (milliseconds); [ms(process.env.X)] is the integer
      the environment holds for X;
    - every [Date.now()] of one call reads the same clock value, and every
    [save()] completes in program order (awaited or not);
    - [argon2.hash] returns the encoded digest (options, salt, raw hash);
      the source gives it no salt, so the library draws one from the entropy
      source, and [argon2.verify(digest, plain)] recomputes the raw hash from
      what the digest records. *)

From Stdlib Require Import ZArith List String Bool Lia.
Import ListNotations.

Local Open Scope string_scope.
Local Open Scope Z_scope.

(** ** Values *)

Definition ObjectId := nat.

Inductive Argon2Type := argon2d | argon2i | argon2id.

Record Argon2Options := {
  hashLength : Z;
  memoryCost : Z;
  timeCost : Z;
  type : Argon2Type
}.

(** The encoded digest [argon2.hash] resolves to. *)
Record Digest := {
  d_options : Argon2Options;
  d_salt : string;
  d_raw : string
}.

Definition Argon2Type_eqb (a b : Argon2Type) : bool :=
  match a, b with
  | argon2d, argon2d | argon2i, argon2i | argon2id, argon2id => true
  | _, _ => false
  end.

Definition Argon2Options_eqb (a b : Argon2Options) : bool :=
  (hashLength a =? hashLength b) && (memoryCost a =? memoryCost b)
  && (timeCost a =? timeCost b) && Argon2Type_eqb (type a) (type b).

Definition Digest_eqb (a b : Digest) : bool :=
  Argon2Options_eqb (d_options a) (d_options b)
  && String.eqb (d_salt a) (d_salt b) && String.eqb (d_raw a) (d_raw b).

Inductive DataType := dt_email | dt_password | dt_username | dt_phone.

Definition DataType_eqb (a b : DataType) : bool :=
  match a, b with
  | dt_email, dt_email | dt_password, dt_password
  | dt_username, dt_username | dt_phone, dt_phone => true
  | _, _ => false
  end.

(** JavaScript truthiness of a string. *)
Definition truthy (s : string) : bool := negb (String.eqb s "").

(** ** Documents *)

Module User.
Record t := {
  _id : ObjectId;
  email : string;
  username : string;
  phoneNumber : string;
  password : Digest;
  isActive : bool;
  isBlocked : bool;
  blockExpires : Z;
  loginAttempts : Z;
  verification : string;
  verificationExpires : Z;
  firstName : string;
  lastName : string;
  birthday : string;
  photo : string
  }.

(** One assignment [path: value] of an update document, or of
    [user.path = value] on a loaded document. *)
Inductive assignment :=
  | set_email (s : string)
  | set_username (s : string)
  | set_phoneNumber (s : string)
  | set_password (d : Digest)
  | set_isBlocked (b : bool)
  | set_blockExpires (z : Z)
  | set_loginAttempts (z : Z)
  | set_verification (s : string)
  | set_verificationExpires (z : Z).

Definition assign (a : assignment) (u : t) : t :=
  let mk e n p pw bl be la v ve :=
      {| _id := _id u; email := e; username := n; phoneNumber := p;
         password := pw; isActive := isActive u; isBlocked := bl;
         blockExpires := be; loginAttempts := la; verification := v;
         verificationExpires := ve; firstName := firstName u;
         lastName := lastName u; birthday := birthday u; photo := photo u |} in
  let e := email u in let n := username u in let p := phoneNumber u in
  let pw := password u in let bl := isBlocked u in
  let be := blockExpires u in let la := loginAttempts u in
  let v := verification u in let ve := verificationExpires u in
  match a with
  | set_email x => mk x n p pw bl be la v ve
  | set_username x => mk e x p pw bl be la v ve
  | set_phoneNumber x => mk e n x pw bl be la v ve
  | set_password x => mk e n p x bl be la v ve
  | set_isBlocked x => mk e n p pw x be la v ve
  | set_blockExpires x => mk e n p pw bl x la v ve
  | set_loginAttempts x => mk e n p pw bl be x v ve
  | set_verification x => mk e n p pw bl be la x ve
  | set_verificationExpires x => mk e n p pw bl be la v x
  end.

(** The update document [{ a1, a2, ... }], applied left to right. *)
Definition update (l : list assignment) (u : t) : t :=
  fold_left (fun acc a => assign a acc) l u.

(** One condition [path: value] of a filter.  [no_path p] is a condition
    on a path [p] that no user document carries. *)
Inductive cond :=
  | by_id (i : ObjectId)
  | by_email (s : string)
  | by_username (s : string)
  | by_phoneNumber (s : string)
  | by_password (d : Digest)
  | by_isActive (b : bool)
  | no_path (p : string).
End User.

Module Vault.
Record t := { user : ObjectId; salt : string }.

Inductive cond :=
  | by_user (i : ObjectId)
  | no_path (p : string).
End Vault.

Module ChangePrimaryData.
(** The schema class [ChangePrimaryData]: every path is required. *)
Record t := {
  user : ObjectId;
  verification : string;
  expires : Z;
  ipOfRequest : string;
  browserOfRequest : string;
  fingerprintOfRequest : string;
  dataType : DataType;
  verified : bool
  }.

Definition set_verified (b : bool) (c : t) : t :=
  {| user := user c; verification := verification c; expires := expires c;
       ipOfRequest := ipOfRequest c; browserOfRequest := browserOfRequest c;
       fingerprintOfRequest := fingerprintOfRequest c;
       dataType := dataType c; verified := b |}.

Inductive cond :=
  | by_user (i : ObjectId)
  | by_verification (s : string)
  | by_dataType (d : DataType)
  | by_verified (b : bool)
  | no_path (p : string).

(** [required: true] on a string path refuses the empty string. *)
Definition valid (c : t) : bool :=
  truthy (verification c) && truthy (ipOfRequest c)
  && truthy (browserOfRequest c) && truthy (fingerprintOfRequest c).
End ChangePrimaryData.

Module ForgotPassword.
Record t := {
  email : string;
  verification : string;
  expires : Z;
  ipOfRequest : string;
  browserOfRequest : string;
  fingerprintOfRequest : string
  }.

Inductive cond :=
  | by_verification (s : string).
End ForgotPassword.

(** The public view of an account the service returns. *)
Record UserData := {
  ud_id : ObjectId;
  ud_email : string;
  ud_username : string;
  ud_phoneNumber : string;
  ud_firstName : string;
  ud_lastName : string;
  ud_birthday : string;
  ud_photo : string
}.

Definition userData (u : User.t) : UserData :=
  {| ud_id := User._id u; ud_email := User.email u;
     ud_username := User.username u; ud_phoneNumber := User.phoneNumber u;
     ud_firstName := User.firstName u; ud_lastName := User.lastName u;
     ud_birthday := User.birthday u; ud_photo := User.photo u |}.

(** ** A Mongoose model over a collection kept as a list, oldest first *)

Section Model.
Variables Doc Cond : Type.
Variable sat : Cond -> Doc -> bool.

Definition matches (q : list Cond) (d : Doc) : bool :=
  forallb (fun c => sat c d) q.

Definition findOne (q : list Cond) (l : list Doc) : option Doc :=
  find (matches q) l.

Definition exists_ (q : list Cond) (l : list Doc) : bool :=
  existsb (matches q) l.

Definition countDocuments (q : list Cond) (l : list Doc) : Z :=
  Z.of_nat (List.length (filter (matches q) l)).

(** [updateOne] changes the first document that matches, if any. *)
Fixpoint updateOne (q : list Cond) (f : Doc -> Doc) (l : list Doc) : list Doc :=
  match l with
  | [] => []
  | d :: l' => if matches q d then f d :: l' else d :: updateOne q f l'
  end.

Definition insert (d : Doc) (l : list Doc) : list Doc := l ++ [d].
End Model.

Arguments matches {Doc Cond} sat q d.
Arguments findOne {Doc Cond} sat q l.
Arguments exists_ {Doc Cond} sat q l.
Arguments countDocuments {Doc Cond} sat q l.
Arguments updateOne {Doc Cond} sat q f l.
Arguments insert {Doc} d l.

(** ** What the service returns *)

Inductive HttpStatus := OK | BAD_REQUEST.

(** The constants of [ValidationErrorCodes], [UserErrorCodes] and
    [GlobalErrorCodes] the service uses, by name. *)
Inductive ErrorCode :=
| INVALID_USERNAME | INVALID_TEL_NUM | INVALID_EMAIL | INVALID_PASSWORD
| NOT_ACTIVE | USER_HAS_BEEN_BLOCKED | PASSWORDS_DOES_NOT_MATCH
| OLD_EMAIL_DOES_NOT_MATCH | EMAIL_ALREADY_EXISTS
| OLD_USERNAME_DOES_NOT_MATCH | USERNAME_ALREADY_EXISTS
| OLD_TEL_NUM_DOES_NOT_MATCH | TEL_NUM_ALREADY_EXISTS
| OLD_PASSWORD_DOES_NOT_MATCH.

(** The [message] of a keyed RpcException: the constant's value, the
    constant's value followed by "You must verify previous data change.
    Check your email.", or "You are blocked for <HOURS_TO_BLOCK>.". *)
Inductive Message :=
| value_of (c : ErrorCode)
| verify_previous_data_change (c : ErrorCode)
| blocked_for_HOURS_TO_BLOCK.

(** The [error] object a call fills field by field. *)
Definition ErrorFields := list (string * ErrorCode).

Fixpoint set_field (k : string) (v : ErrorCode) (e : ErrorFields) : ErrorFields :=
  match e with
  | [] => [(k, v)]
  | (k', v') :: e' =>
      if String.eqb k k' then (k, v) :: e' else (k', v') :: set_field k v e'
  end.

(** [_isEmpty] on an [error] object: no own keys. *)
Definition _isEmpty (obj : ErrorFields) : bool :=
  match obj with [] => true | _ => false end.

Inductive Response :=
| RpcException_fields (error : ErrorFields)
| RpcException_key (key : ErrorCode) (message : Message)
| Status (s : HttpStatus)
| Session (user : UserData) (accessToken refreshToken : string)
| Data (user : UserData)
| Sent (cmd verificationCode email mailType : string)
| undefined.

(** What [_validatePasswordUniqueness] resolves to. *)
Inductive Verdict := js_true | js_false | js_undefined | js_RpcException.

Definition Verdict_truthy (v : Verdict) : bool :=
  match v with js_true | js_RpcException => true | _ => false end.

Record SessionData := {
  s_ip : string;
  s_userAgent : string;
  s_fingerprint : string;
  s_expiresIn : Z;
  s_createdAt : Z
}.

Record LoginDto := {
  rememberMe : bool;
  dto_username : string;
  dto_phoneNumber : string;
  dto_email : string;
  dto_password : string
}.

(** ** The environment and the state *)

(** [process.env], the schema option [strictQuery] (whether Mongoose drops
    from a filter the paths the schema lacks), the Argon2 function, the
    entropy source and the token service. *)
Record Env := {
  strictQuery : bool;
  LOGIN_ATTEMPTS_TO_BLOCK : Z;
  HOURS_TO_BLOCK : Z;
  HOURS_TO_VERIFY : Z;
  MAXIMUM_PASSWORD_VALIDATIONS : Z;
  JWT_EXPIRATION_TIME : Z;
  JWT_EXPIRATION_TIME_LONG : Z;
  argon2_raw : Argon2Options -> string -> string -> string;
  entropy : nat -> string;
  generateJWT : ObjectId -> SessionData -> option (string * string)
}.

Record World := {
  users : list User.t;
  vaults : list Vault.t;
  changes : list ChangePrimaryData.t;
  forgots : list ForgotPassword.t;
  counter : Z;
  clock : Z;
  drawn : nat
}.

Definition with_users (f : list User.t -> list User.t) (w : World) : World :=
  {| users := f (users w); vaults := vaults w; changes := changes w;
     forgots := forgots w; counter := counter w; clock := clock w;
     drawn := drawn w |}.

Definition with_vaults (f : list Vault.t -> list Vault.t) (w : World) : World :=
  {| users := users w; vaults := f (vaults w); changes := changes w;
     forgots := forgots w; counter := counter w; clock := clock w;
     drawn := drawn w |}.

Definition with_changes
  (f : list ChangePrimaryData.t -> list ChangePrimaryData.t) (w : World) : World :=
  {| users := users w; vaults := vaults w; changes := f (changes w);
     forgots := forgots w; counter := counter w; clock := clock w;
     drawn := drawn w |}.

Definition with_forgots
  (f : list ForgotPassword.t -> list ForgotPassword.t) (w : World) : World :=
  {| users := users w; vaults := vaults w; changes := changes w;
     forgots := f (forgots w); counter := counter w; clock := clock w;
     drawn := drawn w |}.

Definition with_counter (c : Z) (w : World) : World :=
  {| users := users w; vaults := vaults w; changes := changes w;
     forgots := forgots w; counter := c; clock := clock w; drawn := drawn w |}.

Definition with_drawn (n : nat) (w : World) : World :=
  {| users := users w; vaults := vaults w; changes := changes w;
     forgots := forgots w; counter := counter w; clock := clock w; drawn := n |}.

(** ** The monad: state, exceptions, and running out of fuel *)

Inductive Exn := TypeError | ValidationError.

Inductive Outcome (A : Type) :=
| Return (a : A)
| Throw (e : Exn)
| OutOfFuel.

Arguments Return {A} a.
Arguments Throw {A} e.
Arguments OutOfFuel {A}.

Definition M (A : Type) : Type := World -> Outcome A * World.

Definition ret {A} (a : A) : M A := fun w => (Return a, w).

Definition bind {A B} (m : M A) (k : A -> M B) : M B :=
  fun w =>
    match m w with
    | (Return a, w') => k a w'
    | (Throw e, w') => (Throw e, w')
    | (OutOfFuel, w') => (OutOfFuel, w')
    end.

Definition throw {A} (e : Exn) : M A := fun w => (Throw e, w).

Definition out_of_fuel {A} : M A := fun w => (OutOfFuel, w).

Definition try_catch {A} (m : M A) (h : Exn -> M A) : M A :=
  fun w =>
    match m w with
    | (Throw e, w') => h e w'
    | r => r
    end.

Definition gets {A} (f : World -> A) : M A := fun w => (Return (f w), w).

Definition modify (f : World -> World) : M unit := fun w => (Return tt, f w).

Declare Scope service_scope.
Delimit Scope service_scope with service.

Notation "x <- m ;; k" := (bind m (fun x => k))
  (at level 61, m at next level, right associativity) : service_scope.
Notation "m ;; k" := (bind m (fun _ => k))
  (at level 61, right associativity) : service_scope.

Local Open Scope service_scope.

(** Reading a property of [null] throws. *)
Definition deref {A} (o : option A) : M A :=
  match o with
  | Some a => ret a
  | None => throw TypeError
  end.

(** The handler every public method ends with: log, return a new
    RpcException when one was thrown, else fall off the end.  Nothing the
    service calls throws an RpcException. *)
Definition log_and_drop (e : Exn) : M Response := ret undefined.

Definition Date_now : M Z := gets clock.

(** The next value of the entropy source: [crypto.randomBytes(10)] in hex,
    [v4()], and the salt [argon2.hash] draws. *)
Definition draw (E : Env) : M string :=
  fun w => (Return (entropy E (drawn w)), with_drawn (S (drawn w)) w).

(** ** The service *)

Section UserService.
Variable E : Env.

(** *** Filters against the four schemas *)

Definition sat_user (c : User.cond) (u : User.t) : bool :=
  match c with
  | User.by_id i => Nat.eqb (User._id u) i
  | User.by_email s => String.eqb (User.email u) s
  | User.by_username s => String.eqb (User.username u) s
  | User.by_phoneNumber s => String.eqb (User.phoneNumber u) s
  | User.by_password d => Digest_eqb (User.password u) d
  | User.by_isActive b => Bool.eqb (User.isActive u) b
  | User.no_path _ => strictQuery E
  end.

Definition sat_vault (c : Vault.cond) (v : Vault.t) : bool :=
  match c with
  | Vault.by_user i => Nat.eqb (Vault.user v) i
  | Vault.no_path _ => strictQuery E
  end.

Definition sat_change (c : ChangePrimaryData.cond) (d : ChangePrimaryData.t) : bool :=
  match c with
  | ChangePrimaryData.by_user i => Nat.eqb (ChangePrimaryData.user d) i
  | ChangePrimaryData.by_verification s =>
      String.eqb (ChangePrimaryData.verification d) s
  | ChangePrimaryData.by_dataType t =>
      DataType_eqb (ChangePrimaryData.dataType d) t
  | ChangePrimaryData.by_verified b => Bool.eqb (ChangePrimaryData.verified d) b
  | ChangePrimaryData.no_path _ => strictQuery E
  end.

Definition sat_forgot (c : ForgotPassword.cond) (d : ForgotPassword.t) : bool :=
  match c with
  | ForgotPassword.by_verification s =>
      String.eqb (ForgotPassword.verification d) s
  end.

(** *** The injected models *)

Definition userModel_findOne (q : list User.cond) : M (option User.t) :=
  gets (fun w => findOne sat_user q (users w)).

Definition userModel_exists (q : list User.cond) : M bool :=
  gets (fun w => exists_ sat_user q (users w)).

Definition userModel_updateOne (q : list User.cond) (u : list User.assignment)
  : M unit :=
  modify (with_users (updateOne sat_user q (User.update u))).

(** [user.save()] on a loaded document writes it back under its [_id]. *)
Definition user_save (user : User.t) : M unit :=
  modify (with_users
            (updateOne sat_user [User.by_id (User._id user)] (fun _ => user))).

Definition vaultModel_findOne (q : list Vault.cond) : M (option Vault.t) :=
  gets (fun w => findOne sat_vault q (vaults w)).

Definition vaultModel_updateOne (q : list Vault.cond) (salt : string) : M unit :=
  modify (with_vaults
            (updateOne sat_vault q
               (fun v => {| Vault.user := Vault.user v; Vault.salt := salt |}))).

Definition changeModel_exists (q : list ChangePrimaryData.cond) : M bool :=
  gets (fun w => exists_ sat_change q (changes w)).

Definition changeModel_countDocuments (q : list ChangePrimaryData.cond) : M Z :=
  gets (fun w => countDocuments sat_change q (changes w)).

Definition changeModel_updateOne (q : list ChangePrimaryData.cond)
  (f : ChangePrimaryData.t -> ChangePrimaryData.t) : M unit :=
  modify (with_changes (updateOne sat_change q f)).

(** [save()] of a new request validates it against the schema first. *)
Definition change_save (d : ChangePrimaryData.t) : M unit :=
  if ChangePrimaryData.valid d then modify (with_changes (insert d))
  else throw ValidationError.

Definition forgotModel_exists (q : list ForgotPassword.cond) : M bool :=
  gets (fun w => exists_ sat_forgot q (forgots w)).

Definition forgotModel_create (d : ForgotPassword.t) : M ForgotPassword.t :=
  modify (with_forgots (insert d)) ;; ret d.

(** [this.client.send({ cmd }, { verificationCode, email, mailType })]. *)
Definition client_send (cmd verificationCode email mailType : string) : M Response :=
  ret (Sent cmd verificationCode email mailType).

(** *** argon2 *)

(** [argon2.hash(plain, options)]: the service passes no [salt] option, so
    the library draws the salt, and the digest it resolves to records it. *)
Definition argon2_hash (plain : string) (o : Argon2Options) : M Digest :=
  salt <- draw E ;;
  ret {| d_options := o; d_salt := salt; d_raw := argon2_raw E o salt plain |}.

(** [argon2.verify(digest, plain)]: options and salt are the digest's. *)
Definition argon2_verify (digest : Digest) (plain : string) : bool :=
  String.eqb (argon2_raw E (d_options digest) (d_salt digest) plain) (d_raw digest).

(** *** Private helpers *)

Definition _isExistingEmail (email : string) : M bool :=
  userModel_exists [User.by_email email].

Definition _isExistingUsername (username : string) : M bool :=
  userModel_exists [User.by_username username].

Definition _isExistingPhone (phoneNumber : string) : M bool :=
  userModel_exists [User.by_phoneNumber phoneNumber].

Definition _isExistingPassword (password : Digest) : M bool :=
  userModel_exists [User.by_password password].

(** The [catch] of the source has nothing to catch here: [argon2.hash]
    accepts these options and any plain text. *)
Definition _generatePassword (password salt : string) : M Digest :=
  let password := salt ++ password in
  argon2_hash password
    {| hashLength := 40; memoryCost := 8192; timeCost := 4; type := argon2id |}.

(** The recursion of the source is on nothing that decreases, so the
    embedding takes fuel: one unit per call. *)
Fixpoint _validatePasswordUniqueness (fuel : nat) (password : string) : M Verdict :=
  match fuel with
  | O => out_of_fuel
  | S fuel' =>
      try_catch
        (salt <- draw E ;;
         saltedPassword <- _generatePassword password salt ;;
         c <- gets counter ;;
         if c <=? MAXIMUM_PASSWORD_VALIDATIONS E then
           existing <- _isExistingPassword saltedPassword ;;
           if existing then
             _validatePasswordUniqueness fuel' password ;;
             ret js_undefined
           else
             modify (with_counter 0) ;;
             ret js_true
         else
           modify (with_counter 0) ;;
           ret js_false)
        (fun e => ret js_RpcException)
  end.

(** *** login *)

(** Lines 170-176. *)
Definition session_data (now : Z) (ip userAgent fingerprint : string)
  (loginUserDto : LoginDto) : SessionData :=
  {| s_ip := ip; s_userAgent := userAgent; s_fingerprint := fingerprint;
     s_expiresIn :=
       now + (if rememberMe loginUserDto then JWT_EXPIRATION_TIME_LONG E
              else JWT_EXPIRATION_TIME E);
     s_createdAt := now |}.

(** The test of line 212. *)
Definition stale_block (user : User.t) (now : Z) : bool :=
  User.isActive user && negb (User.blockExpires user =? 0)
  && (User.blockExpires user <? now).

(** Lines 178-193: the account the identifier names, and the [error] field
    set when there is none. *)
Definition login_resolve (dto : LoginDto) : M (option User.t * ErrorFields) :=
  if truthy (dto_username dto) then
    user <- userModel_findOne [User.by_username (dto_username dto)] ;;
    ret (user, match user with
               | None => set_field "username" INVALID_USERNAME []
               | Some _ => []
               end)
  else if truthy (dto_phoneNumber dto) then
    user <- userModel_findOne [User.by_phoneNumber (dto_phoneNumber dto)] ;;
    ret (user, match user with
               | None => set_field "username" INVALID_TEL_NUM []
               | Some _ => []
               end)
  else if truthy (dto_email dto) then
    user <- userModel_findOne [User.by_email (dto_email dto)] ;;
    ret (user, match user with
               | None => set_field "email" INVALID_EMAIL []
               | Some _ => []
               end)
  else ret (None, []).

(** Lines 212-216: the stale block of an active account is cleared. *)
Definition login_unblock (user : User.t) : M User.t :=
  now <- Date_now ;;
  if stale_block user now then
    let user := User.update [User.set_isBlocked false; User.set_blockExpires 0] user in
    user_save user ;;
    ret user
  else ret user.

(** Lines 220-235: a secret that does not verify.  [inl] is the value the
    method returns at once, [inr] the document and the [error] object it
    goes on with. *)
Definition login_secret (user : User.t) (error : ErrorFields) (salt : string)
  (dto : LoginDto) : M (Response + User.t * ErrorFields) :=
  if negb (argon2_verify (User.password user) (salt ++ dto_password dto)) then
    let user := User.assign (User.set_loginAttempts (User.loginAttempts user + 1)) user in
    user_save user ;;
    if LOGIN_ATTEMPTS_TO_BLOCK E <=? User.loginAttempts user then
      now <- Date_now ;;
      let user :=
        User.update [User.set_blockExpires (now + HOURS_TO_BLOCK E);
                     User.set_isBlocked true;
                     User.set_loginAttempts 0] user in
      user_save user ;;
      ret (inl (RpcException_key USER_HAS_BEEN_BLOCKED blocked_for_HOURS_TO_BLOCK))
    else ret (inr (user, set_field "password" INVALID_PASSWORD error))
  else ret (inr (user, error)).

(** Lines 241-265: the tokens, and the reset of the attempts once both are
    there. *)
Definition login_session (user : User.t) (sessionData : SessionData) : M Response :=
  tokens <- deref (generateJWT E (User._id user) sessionData) ;;
  let '(accessToken, refreshToken) := tokens in
  if truthy accessToken && truthy refreshToken then
    let user := User.assign (User.set_loginAttempts 0) user in
    user_save user ;;
    ret (Session (userData user) accessToken refreshToken)
  else ret (Status BAD_REQUEST).

(** Lines 199-266: the account is there. *)
Definition login_account (user : User.t) (error : ErrorFields)
  (sessionData : SessionData) (loginUserDto : LoginDto) : M Response :=
  let error :=
    if negb (User.isActive user)
    then set_field "internalFailure" NOT_ACTIVE error else error in
  if User.isActive user && User.isBlocked user then
    ret (RpcException_key USER_HAS_BEEN_BLOCKED (value_of USER_HAS_BEEN_BLOCKED))
  else
    user <- login_unblock user ;;
    vault <- vaultModel_findOne [Vault.by_user (User._id user)] ;;
    vault <- deref vault ;;
    checked <- login_secret user error (Vault.salt vault) loginUserDto ;;
    match checked with
    | inl response => ret response
    | inr (user, error) =>
        if negb (_isEmpty error) then ret (RpcException_fields error)
        else login_session user sessionData
    end.

Definition login (ip userAgent fingerprint : string) (loginUserDto : LoginDto)
  : M Response :=
  try_catch
    (now <- Date_now ;;
     let sessionData := session_data now ip userAgent fingerprint loginUserDto in
     found <- login_resolve loginUserDto ;;
     let '(user, error) := found in
     if negb (_isEmpty error) then ret (RpcException_fields error) else
     match user with
     | Some user => login_account user error sessionData loginUserDto
     | None => ret (Status BAD_REQUEST)
     end)
    log_and_drop.

(** *** Changes of primary data *)

(** The update all four methods send: the new value, the block and the
    verification, both expiring [HOURS_TO_VERIFY] from now. *)
Definition pending_update (a : User.assignment) (now : Z) (verification : string)
  : list User.assignment :=
  [a; User.set_isBlocked true;
   User.set_verificationExpires (now + HOURS_TO_VERIFY E);
   User.set_blockExpires (now + HOURS_TO_VERIFY E);
   User.set_verification verification].

(** The request all four methods save. *)
Definition pending_request (user : ObjectId) (verification ip userAgent fingerprint : string)
  (dataType : DataType) : ChangePrimaryData.t :=
  {| ChangePrimaryData.user := user;
     ChangePrimaryData.verification := verification;
     ChangePrimaryData.expires := HOURS_TO_VERIFY E;
     ChangePrimaryData.ipOfRequest := ip;
     ChangePrimaryData.browserOfRequest := userAgent;
     ChangePrimaryData.fingerprintOfRequest := fingerprint;
     ChangePrimaryData.dataType := dataType;
     ChangePrimaryData.verified := false |}.

Definition must_verify_previous : Response :=
  RpcException_key USER_HAS_BEEN_BLOCKED
    (verify_previous_data_change USER_HAS_BEEN_BLOCKED).

Definition changeEmail (userId : ObjectId) (oldEmail newEmail : string)
  (ip userAgent fingerprint : string) : M Response :=
  try_catch
    (emailMatches <- _isExistingEmail oldEmail ;;
     let error :=
       if negb emailMatches
       then set_field "oldEmail" OLD_EMAIL_DOES_NOT_MATCH [] else [] in
     taken <- _isExistingEmail newEmail ;;
     let error :=
       if taken then set_field "newEmail" EMAIL_ALREADY_EXISTS error else error in
     if negb (_isEmpty error) then ret (RpcException_fields error) else
     userRecord <- userModel_findOne [User.by_id userId; User.by_isActive true] ;;
     userChangeRequests <-
       changeModel_countDocuments
         [ChangePrimaryData.by_user userId; ChangePrimaryData.by_verified false] ;;
     userRecord <- deref userRecord ;;
     if User.isBlocked userRecord || negb (userChangeRequests =? 0)
     then ret must_verify_previous else
     verification <- draw E ;;
     now <- Date_now ;;
     userModel_updateOne
       [User.by_id userId; User.by_email oldEmail; User.by_isActive true]
       (pending_update (User.set_email newEmail) now verification) ;;
     change_save (pending_request userId verification ip userAgent fingerprint dt_email) ;;
     client_send "verify" verification newEmail "VERIFY_EMAIL_CHANGE")
    log_and_drop.

Definition changeUsername (userId : ObjectId) (oldUsername newUsername : string)
  (ip userAgent fingerprint : string) : M Response :=
  try_catch
    (usernameMatches <- _isExistingUsername oldUsername ;;
     let error :=
       if negb usernameMatches
       then set_field "oldUsername" OLD_USERNAME_DOES_NOT_MATCH [] else [] in
     taken <- _isExistingUsername newUsername ;;
     let error :=
       if taken then set_field "newUsername" USERNAME_ALREADY_EXISTS error else error in
     if negb (_isEmpty error) then ret (RpcException_fields error) else
     user <- userModel_findOne [User.by_id userId; User.by_isActive true] ;;
     userChangeRequests <-
       changeModel_countDocuments
         [ChangePrimaryData.by_user userId; ChangePrimaryData.by_verified false] ;;
     user <- deref user ;;
     if User.isBlocked user || negb (userChangeRequests =? 0)
     then ret must_verify_previous else
     verification <- draw E ;;
     change_save (pending_request userId verification ip userAgent fingerprint dt_username) ;;
     now <- Date_now ;;
     userModel_updateOne
       [User.by_id userId; User.by_username oldUsername; User.by_isActive true]
       (pending_update (User.set_username newUsername) now verification) ;;
     client_send "verify" verification (User.email user) "VERIFY_USERNAME_CHANGE")
    log_and_drop.

Definition changePhoneNumber (userId : ObjectId) (oldPhoneNumber newPhoneNumber : string)
  (ip userAgent fingerprint : string) : M Response :=
  try_catch
    (phoneMatches <- _isExistingPhone oldPhoneNumber ;;
     let error :=
       if negb phoneMatches
       then set_field "oldPhoneNumber" OLD_TEL_NUM_DOES_NOT_MATCH [] else [] in
     taken <- _isExistingEmail newPhoneNumber ;;
     let error :=
       if taken then set_field "newPhoneNumber" TEL_NUM_ALREADY_EXISTS error else error in
     if negb (_isEmpty error) then ret (RpcException_fields error) else
     user <- userModel_findOne [User.by_id userId; User.by_isActive true] ;;
     userChangeRequests <-
       changeModel_countDocuments
         [ChangePrimaryData.no_path "userId"; ChangePrimaryData.by_verified false] ;;
     user <- deref user ;;
     if User.isBlocked user || negb (userChangeRequests =? 0)
     then ret must_verify_previous else
     verification <- draw E ;;
     now <- Date_now ;;
     userModel_updateOne
       [User.by_id userId; User.by_phoneNumber oldPhoneNumber; User.by_isActive true]
       (pending_update (User.set_phoneNumber newPhoneNumber) now verification) ;;
     change_save (pending_request userId verification ip userAgent fingerprint dt_phone) ;;
     client_send "verify" verification (User.email user) "VERIFY_PHONE_CHANGE")
    log_and_drop.

Definition changePassword (fuel : nat) (userId : ObjectId)
  (oldPassword newPassword : string) (ip userAgent fingerprint : string)
  : M Response :=
  try_catch
    (user <- userModel_findOne [User.by_id userId; User.by_isActive true] ;;
     vault <- vaultModel_findOne [Vault.no_path "userId"] ;;
     vault <- deref vault ;;
     let oldSalt := Vault.salt vault in
     user <- deref user ;;
     error <-
       (if negb (argon2_verify (User.password user) (oldSalt ++ oldPassword)) then
          ret (set_field "oldPassword" OLD_PASSWORD_DOES_NOT_MATCH [])
        else
          unique <- _validatePasswordUniqueness fuel newPassword ;;
          if negb (Verdict_truthy unique)
          then ret (set_field "newPassword" INVALID_PASSWORD [])
          else ret []) ;;
     if negb (_isEmpty error) then ret (RpcException_fields error) else
     userChangeRequests <-
       changeModel_countDocuments
         [ChangePrimaryData.no_path "userId"; ChangePrimaryData.by_verified false] ;;
     if User.isBlocked user || negb (userChangeRequests =? 0)
     then ret must_verify_previous else
     salt <- draw E ;;
     verification <- draw E ;;
     newPassword <- _generatePassword newPassword salt ;;
     now <- Date_now ;;
     userModel_updateOne [User.by_id userId]
       (pending_update (User.set_password newPassword) now verification) ;;
     vaultModel_updateOne [Vault.no_path "userId"] salt ;;
     change_save (pending_request userId verification ip userAgent fingerprint dt_password) ;;
     client_send "verify" verification (User.email user) "VERIFY_PASSWORD_CHANGE")
    log_and_drop.

Definition verifyPrimaryDataChange (userId : ObjectId) (verification : string)
  (dataType : DataType) : M Response :=
  try_catch
    (primaryDataChangeRequestExists <-
       changeModel_exists
         [ChangePrimaryData.no_path "userId";
          ChangePrimaryData.by_verification verification;
          ChangePrimaryData.by_dataType dataType;
          ChangePrimaryData.by_verified false] ;;
     if primaryDataChangeRequestExists then
       userModel_updateOne [User.no_path "userId"]
         [User.set_isBlocked false; User.set_verification "";
          User.set_verificationExpires 0; User.set_blockExpires 0] ;;
       changeModel_updateOne
         [ChangePrimaryData.no_path "userId";
          ChangePrimaryData.by_verification verification;
          ChangePrimaryData.by_dataType dataType]
         (ChangePrimaryData.set_verified true) ;;
       user <- userModel_findOne [User.by_id userId; User.by_isActive true] ;;
       user <- deref user ;;
       ret (Data (userData user))
     else ret (Status BAD_REQUEST))
    log_and_drop.

(** *** Forgotten passwords *)

(** [create] saves the request; the [save()] after it writes nothing new. *)
Definition restPassword (ip userAgent fingerprint email : string) : M Response :=
  userExists <- userModel_exists [User.by_email email; User.by_isActive true] ;;
  try_catch
    (if userExists then
       verification <- draw E ;;
       now <- Date_now ;;
       forgotPassword <-
         forgotModel_create
           {| ForgotPassword.email := email;
              ForgotPassword.verification := verification;
              ForgotPassword.expires := now + HOURS_TO_VERIFY E;
              ForgotPassword.ipOfRequest := ip;
              ForgotPassword.browserOfRequest := userAgent;
              ForgotPassword.fingerprintOfRequest := fingerprint |} ;;
       client_send "reset-password" (ForgotPassword.verification forgotPassword)
         (ForgotPassword.email forgotPassword) "RESET_PASSWORD"
     else ret (Status BAD_REQUEST))
    log_and_drop.

Definition verifyPasswordReset (email verification newPassword newPasswordVerification : string)
  : M Response :=
  try_catch
    (forgotPassword <-
       forgotModel_exists [ForgotPassword.by_verification verification] ;;
     if forgotPassword then
       if String.eqb newPassword newPasswordVerification then
         user <- userModel_findOne [User.by_email email] ;;
         salt <- draw E ;;
         newPassword <- _generatePassword newPassword salt ;;
         user <- deref user ;;
         userModel_updateOne [User.by_id (User._id user)]
           [User.set_password newPassword] ;;
         vaultModel_updateOne [Vault.by_user (User._id user)] salt ;;
         ret (Status OK)
       else
         ret (RpcException_key PASSWORDS_DOES_NOT_MATCH
                (value_of PASSWORDS_DOES_NOT_MATCH))
     else ret (Status BAD_REQUEST))
    log_and_drop.

End UserService.

(** ** Vocabulary of the statements *)

(** The document [login] goes on with after lines 212-216. *)
Definition after_unblock (now : Z) (user : User.t) : User.t :=
  if stale_block user now
  then User.update [User.set_isBlocked false; User.set_blockExpires 0] user
  else user.

(** The account with a given [_id], as [_findById] reads it. *)
Definition account (E : Env) (i : ObjectId) (w : World) : option User.t :=
  findOne (sat_user E) [User.by_id i] (users w).

(** The vault of an account, as [login] reads it. *)
Definition vault_of (E : Env) (i : ObjectId) (w : World) : option Vault.t :=
  findOne (sat_vault E) [Vault.by_user i] (vaults w).

(** The unverified requests of an account. *)
Definition unverified_requests (i : ObjectId) (w : World) : list ChangePrimaryData.t :=
  filter (fun d => Nat.eqb (ChangePrimaryData.user d) i
                   && negb (ChangePrimaryData.verified d)) (changes w).

(** What a method that changed nothing may have answered: a validation
    error, nothing at all (no active account under [userId]), or the demand
    to verify the previous change. *)
Definition turned_away (r : Outcome Response) : Prop :=
  r = Return must_verify_previous
  \/ r = Return undefined
  \/ exists error, error <> [] /\ r = Return (RpcException_fields error).

(** ** Sample data for the worked scenarios *)

Definition password_options : Argon2Options :=
  {| hashLength := 40; memoryCost := 8192; timeCost := 4; type := argon2id |}.

(** A stand-in for the Argon2 function: it keeps salt and plain text apart. *)
Definition sample_raw (o : Argon2Options) (salt plain : string) : string :=
  salt ++ "|" ++ plain.

(** An entropy source that never repeats within the scenarios: "0", "1", ... *)
Definition sample_entropy (n : nat) : string :=
  String (Ascii.ascii_of_nat (48 + n)) "".

Definition sample_env (strict : bool) (tokens : option (string * string)) : Env :=
  {| strictQuery := strict;
     LOGIN_ATTEMPTS_TO_BLOCK := 5;
     HOURS_TO_BLOCK := 86400000;
     HOURS_TO_VERIFY := 3600000;
     MAXIMUM_PASSWORD_VALIDATIONS := 1;
     JWT_EXPIRATION_TIME := 900000;
     JWT_EXPIRATION_TIME_LONG := 2592000000;
     argon2_raw := sample_raw;
     entropy := sample_entropy;
     generateJWT := fun _ _ => tokens |}.

Definition both_tokens : option (string * string) := Some ("access", "refresh").

Definition sample_digest (argonSalt salt secret : string) : Digest :=
  {| d_options := password_options; d_salt := argonSalt;
     d_raw := sample_raw password_options argonSalt (salt ++ secret) |}.

Definition alice : User.t :=
  {| User._id := 1%nat; User.email := "alice@example.org";
     User.username := "alice"; User.phoneNumber := "111";
     User.password := sample_digest "a" "salt-a" "alice-secret";
     User.isActive := true; User.isBlocked := false; User.blockExpires := 0;
     User.loginAttempts := 0; User.verification := "";
     User.verificationExpires := 0; User.firstName := "Alice";
     User.lastName := "A"; User.birthday := ""; User.photo := "" |}.

Definition bob : User.t :=
  {| User._id := 2%nat; User.email := "bob@example.org";
     User.username := "bob"; User.phoneNumber := "222";
     User.password := sample_digest "b" "salt-b" "bob-secret";
     User.isActive := true; User.isBlocked := false; User.blockExpires := 0;
     User.loginAttempts := 0; User.verification := "";
     User.verificationExpires := 0; User.firstName := "Bob";
     User.lastName := "B"; User.birthday := ""; User.photo := "" |}.

Definition sample_world (us : list User.t) (now : Z) : World :=
  {| users := us;
     vaults := [ {| Vault.user := 1%nat; Vault.salt := "salt-a" |};
                 {| Vault.user := 2%nat; Vault.salt := "salt-b" |} ];
     changes := []; forgots := []; counter := 0; clock := now; drawn := 0 |}.

Definition login_by_username (username password : string) : LoginDto :=
  {| rememberMe := false; dto_username := username; dto_phoneNumber := "";
     dto_email := ""; dto_password := password |}.

(** The state a call leaves, whatever it returned. *)
Definition after {A} (m : M A) (w : World) : World := snd (m w).

(** The clock moves between calls, not within one. *)
Definition at_time (now : Z) (w : World) : World :=
  {| users := users w; vaults := vaults w; changes := changes w;
     forgots := forgots w; counter := counter w; clock := now; drawn := drawn w |}.

(** An entropy source whose first [k] values are all "s". *)
Definition stuck_entropy (k n : nat) : string :=
  if Nat.ltb n k then "s" else sample_entropy n.

Definition retry_env (k : nat) : Env :=
  {| strictQuery := false;
     LOGIN_ATTEMPTS_TO_BLOCK := 5;
     HOURS_TO_BLOCK := 86400000;
     HOURS_TO_VERIFY := 3600000;
     MAXIMUM_PASSWORD_VALIDATIONS := 1;
     JWT_EXPIRATION_TIME := 900000;
     JWT_EXPIRATION_TIME_LONG := 2592000000;
     argon2_raw := sample_raw;
     entropy := stuck_entropy k;
     generateJWT := fun _ _ => both_tokens |}.

(** The same with an entropy source that is "s" for ever. *)
Definition stuck_env : Env :=
  {| strictQuery := false;
     LOGIN_ATTEMPTS_TO_BLOCK := 5;
     HOURS_TO_BLOCK := 86400000;
     HOURS_TO_VERIFY := 3600000;
     MAXIMUM_PASSWORD_VALIDATIONS := 1;
     JWT_EXPIRATION_TIME := 900000;
     JWT_EXPIRATION_TIME_LONG := 2592000000;
     argon2_raw := sample_raw;
     entropy := fun _ => "s";
     generateJWT := fun _ _ => both_tokens |}.

(** An account whose stored digest is the one "pw" derives to under the
    salts "s" and "s". *)
Definition carol : User.t :=
  {| User._id := 3%nat; User.email := "carol@example.org";
     User.username := "carol"; User.phoneNumber := "333";
     User.password := sample_digest "s" "s" "pw";
     User.isActive := true; User.isBlocked := false; User.blockExpires := 0;
     User.loginAttempts := 0; User.verification := "";
     User.verificationExpires := 0; User.firstName := "Carol";
     User.lastName := "C"; User.birthday := ""; User.photo := "" |}.

(** An account that never verified its registration. *)
Definition dave : User.t :=
  {| User._id := 2%nat; User.email := "dave@example.org";
     User.username := "dave"; User.phoneNumber := "444";
     User.password := sample_digest "d" "salt-b" "dave-secret";
     User.isActive := false; User.isBlocked := false; User.blockExpires := 0;
     User.loginAttempts := 2; User.verification := "token";
     User.verificationExpires := 0; User.firstName := "Dave";
     User.lastName := "D"; User.birthday := ""; User.photo := "" |}.

(** alice after [n] failed attempts. *)
Definition alice_after (n : Z) : User.t :=
  User.assign (User.set_loginAttempts n) alice.

(** alice with [n] failed attempts counted, blocked until [expires]. *)
Definition alice_blocked (n expires : Z) : User.t :=
  User.update [User.set_isBlocked true; User.set_blockExpires expires] (alice_after n).

(** ** The rest of the service *)

(** What [register] and [verifyRegistration] may answer beyond [Response]:
    the keyed exception USER_NOT_FOUND, and [new RpcException(e)] around
    whatever was caught. *)
Inductive Answer :=
| plain (r : Response)
| RpcException_USER_NOT_FOUND
| RpcException_caught (e : Exn).

Record SignUpDto := {
  su_email : string;
  su_username : string;
  su_password : string;
  su_passwordVerification : string;
  su_phoneNumber : string
}.

(** An own property of the DTO, or its absence. *)
Record AddOrUpdateOptionalDataDto := {
  od_firstName : option string;
  od_lastName : option string;
  od_birthday : option string
}.

Definition set_isActive (b : bool) (u : User.t) : User.t :=
  {| User._id := User._id u; User.email := User.email u;
     User.username := User.username u; User.phoneNumber := User.phoneNumber u;
     User.password := User.password u; User.isActive := b;
     User.isBlocked := User.isBlocked u; User.blockExpires := User.blockExpires u;
     User.loginAttempts := User.loginAttempts u;
     User.verification := User.verification u;
     User.verificationExpires := User.verificationExpires u;
     User.firstName := User.firstName u; User.lastName := User.lastName u;
     User.birthday := User.birthday u; User.photo := User.photo u |}.

Definition set_optional (firstName lastName birthday : string) (u : User.t) : User.t :=
  {| User._id := User._id u; User.email := User.email u;
     User.username := User.username u; User.phoneNumber := User.phoneNumber u;
     User.password := User.password u; User.isActive := User.isActive u;
     User.isBlocked := User.isBlocked u; User.blockExpires := User.blockExpires u;
     User.loginAttempts := User.loginAttempts u;
     User.verification := User.verification u;
     User.verificationExpires := User.verificationExpires u;
     User.firstName := firstName; User.lastName := lastName;
     User.birthday := birthday; User.photo := User.photo u |}.

Definition set_photo (photo : string) (u : User.t) : User.t :=
  {| User._id := User._id u; User.email := User.email u;
     User.username := User.username u; User.phoneNumber := User.phoneNumber u;
     User.password := User.password u; User.isActive := User.isActive u;
     User.isBlocked := User.isBlocked u; User.blockExpires := User.blockExpires u;
     User.loginAttempts := User.loginAttempts u;
     User.verification := User.verification u;
     User.verificationExpires := User.verificationExpires u;
     User.firstName := User.firstName u; User.lastName := User.lastName u;
     User.birthday := User.birthday u; User.photo := photo |}.

(** The filter [{ email, isActive: false, verification }] of
    [verifyRegistration]. *)
Definition registration_pending (email verification : string) (u : User.t) : bool :=
  String.eqb (User.email u) email && Bool.eqb (User.isActive u) false
  && String.eqb (User.verification u) verification.

(** Its update [{ isActive: true, verification: "", verificationExpires: 0 }]. *)
Definition activate (u : User.t) : User.t :=
  User.update [User.set_verification ""; User.set_verificationExpires 0]
    (set_isActive true u).

(** A filter given by the test it stands for. *)
Definition holds (p : User.t -> bool) (u : User.t) : bool := p u.

(** [this.client.send({ cmd }, { user })]; what it resolves to is dropped. *)
Definition client_send_user (cmd : string) (user : ObjectId) : M unit := ret tt.

Section Registration.
Variable E : Env.

(** [register].  [blank] is the document the user schema makes of an empty
    input: a fresh [_id] and the defaults of the paths; the schema is not
    part of the sources.  [user.save(callback)] is taken to store the
    document.  The handler is [return new RpcException(e)]. *)
Definition register (fuel : nat) (blank : User.t) (userSignUpDto : SignUpDto)
  : M Answer :=
  try_catch
    (emailExists <- _isExistingEmail E (su_email userSignUpDto) ;;
     let error :=
       if emailExists then set_field "email" EMAIL_ALREADY_EXISTS [] else [] in
     usernameExists <- _isExistingUsername E (su_username userSignUpDto) ;;
     let error :=
       if usernameExists
       then set_field "username" USERNAME_ALREADY_EXISTS error else error in
     unique <- _validatePasswordUniqueness E fuel (su_password userSignUpDto) ;;
     let error :=
       if negb (Verdict_truthy unique)
       then set_field "password" INVALID_PASSWORD error else error in
     phoneExists <- _isExistingPhone E (su_phoneNumber userSignUpDto) ;;
     let error :=
       if phoneExists
       then set_field "phoneNumber" TEL_NUM_ALREADY_EXISTS error else error in
     if negb (_isEmpty error) then ret (plain (RpcException_fields error)) else
     if String.eqb (su_password userSignUpDto) (su_passwordVerification userSignUpDto)
     then
       salt <- draw E ;;
       password <- _generatePassword E (su_password userSignUpDto) salt ;;
       let user :=
         User.update [User.set_email (su_email userSignUpDto);
                      User.set_username (su_username userSignUpDto);
                      User.set_phoneNumber (su_phoneNumber userSignUpDto);
                      User.set_password password] blank in
       let vault := {| Vault.user := User._id user; Vault.salt := salt |} in
       verification <- draw E ;;
       let user := User.assign (User.set_verification verification) user in
       modify (with_users (insert user)) ;;
       modify (with_vaults (insert vault)) ;;
       client_send_user "add-welcome-chat" (User._id user) ;;
       sent <- client_send "verify" (User.verification user) (User.email user)
                 "VERIFY_EMAIL" ;;
       ret (plain sent)
     else ret (plain undefined))
    (fun e => ret (RpcException_caught e)).

Definition verifyRegistration (email verification : string) : M Answer :=
  try_catch
    (user <- gets (fun w => exists_ holds [registration_pending email verification]
                              (users w)) ;;
     if user then
       modify (with_users
                 (updateOne holds [registration_pending email verification] activate)) ;;
       ret (plain undefined)
     else ret RpcException_USER_NOT_FOUND)
    (fun e => ret (plain undefined)).

(** The value of [optionalDataDto.hasOwnProperty(p) ? optionalDataDto.p :
    user.p]: [user] is read only when the property is absent. *)
Definition own_or (own : option string) (user : option User.t)
  (path : User.t -> string) : M string :=
  match own with
  | Some value => ret value
  | None => user <- deref user ;; ret (path user)
  end.

Definition addOrChangeOptionalData (userId : ObjectId)
  (optionalDataDto : AddOrUpdateOptionalDataDto) : M Response :=
  try_catch
    (user <- userModel_findOne E [User.by_id userId; User.by_isActive true] ;;
     firstName <- own_or (od_firstName optionalDataDto) user User.firstName ;;
     lastName <- own_or (od_lastName optionalDataDto) user User.lastName ;;
     birthday <- own_or (od_birthday optionalDataDto) user User.birthday ;;
     modify (with_users
               (updateOne (sat_user E) [User.by_id userId]
                  (set_optional firstName lastName birthday))) ;;
     userData_ <- userModel_findOne E [User.by_id userId] ;;
     userData_ <- deref userData_ ;;
     ret (Data (userData userData_)))
    log_and_drop.

(** [changePhoto].  [upload] is what [cloudinary.uploader.upload] does with
    the photo: reject ([None], an error the handler drops like any other),
    resolve to nothing ([Some None]), or resolve to a result with its
    [secure_url]. *)
Definition changePhoto (upload : option (option string)) (userId : ObjectId)
  : M Response :=
  try_catch
    (user <- userModel_findOne E [User.by_id userId; User.by_isActive true] ;;
     user <- deref user ;;
     result <- (match upload with
                | Some result => ret result
                | None => throw TypeError
                end) ;;
     let photo := match result with
                  | Some secure_url => secure_url
                  | None => User.photo user
                  end in
     modify (with_users (updateOne (sat_user E) [User.by_id userId] (set_photo photo))) ;;
     ret (Data (userData (set_photo photo user))))
    log_and_drop.

End Registration.

(** ** [_isEmpty] on any value *)

(** The values [_isEmpty] may be given.  The primitives are themselves.  An
    object is what the method can read of it:
    - [js_object own]: a plain object (a literal, or [new Object()]) with its
      own enumerable properties; its prototype is [Object.prototype], so
      [constructor] and [length] are read from [own] or not at all;
    - [js_array n] and [js_function n]: an array of length [n], a function
      of [n] parameters;
    - [js_String s] and [js_Number z]: the wrappers [new String(s)] and
      [new Number(z)] that [instanceof] tests for;
    - [js_instance keys length]: an object of any other class (a Date, a
      Map, a Buffer, an instance of a class of the program), with the number
      of its own enumerable keys and what reading its [length] gives. *)
Inductive JsValue :=
| js_undefined_value
| js_null
| js_boolean (b : bool)
| js_number (z : Z)
| js_NaN
| js_bigint (z : Z)
| js_string (s : string)
| js_symbol
| js_object (own : JsProperties)
| js_array (length : nat)
| js_function (length : nat)
| js_String (s : string)
| js_Number (z : Z)
| js_instance (keys : nat) (length : JsValue)
with JsProperties :=
| no_property
| property (k : string) (v : JsValue) (rest : JsProperties).

(** [boolean | string]: the string is "type is undefined or null". *)
Inductive IsEmpty := is_empty (b : bool) | type_is_undefined_or_null.

Definition JsValue_truthy (obj : JsValue) : bool :=
  match obj with
  | js_undefined_value | js_null | js_NaN => false
  | js_boolean b => b
  | js_number z | js_bigint z => negb (z =? 0)
  | js_string s => truthy s
  | _ => true
  end.

Definition typeof_string (obj : JsValue) : bool :=
  match obj with js_string _ => true | _ => false end.

Definition instanceof_String (obj : JsValue) : bool :=
  match obj with js_String _ => true | _ => false end.

Definition typeof_number (obj : JsValue) : bool :=
  match obj with js_number _ | js_NaN => true | _ => false end.

Definition instanceof_Number (obj : JsValue) : bool :=
  match obj with js_Number _ => true | _ => false end.

(** [v === 0] and [v === ""]: no wrapper and no other type is equal to a
    primitive. *)
Definition is_0 (v : JsValue) : bool :=
  match v with js_number z => z =? 0 | _ => false end.

Definition is_empty_string (v : JsValue) : bool :=
  match v with js_string s => String.eqb s "" | _ => false end.

(** The own property [k] of a plain object. *)
Fixpoint own_property (k : string) (own : JsProperties) : option JsValue :=
  match own with
  | no_property => None
  | property k' v rest => if String.eqb k' k then Some v else own_property k rest
  end.

Fixpoint own_keys (own : JsProperties) : list string :=
  match own with
  | no_property => []
  | property k _ rest => k :: own_keys rest
  end.

(** [Object.keys(obj).length]: the characters of a string count as keys. *)
Definition Object_keys_length (obj : JsValue) : nat :=
  match obj with
  | js_string s | js_String s => String.length s
  | js_object own => List.length (own_keys own)
  | js_array n => n
  | js_instance keys _ => keys
  | _ => 0%nat
  end.

(** [obj.constructor === Object]. *)
Definition constructor_is_Object (obj : JsValue) : bool :=
  match obj with
  | js_object own =>
      match own_property "constructor" own with None => true | Some _ => false end
  | _ => false
  end.

(** [obj.length]. *)
Definition length_of (obj : JsValue) : JsValue :=
  match obj with
  | js_string s | js_String s => js_number (Z.of_nat (String.length s))
  | js_array n | js_function n => js_number (Z.of_nat n)
  | js_object own =>
      match own_property "length" own with
      | Some v => v
      | None => js_undefined_value
      end
  | js_instance _ length => length
  | _ => js_undefined_value
  end.

(** The characters of a string or of a wrapped one, for [obj.trim()]. *)
Definition text_of (obj : JsValue) : string :=
  match obj with js_string s | js_String s => s | _ => "" end.

(** Lines 922-938.  [trim] is [String.prototype.trim]; it is called on a
    string only. *)
Definition _isEmpty_value (trim : string -> string) (obj : JsValue) : IsEmpty :=
  if JsValue_truthy obj then
    let isString := typeof_string obj || instanceof_String obj in
    if (typeof_number obj || instanceof_Number obj) && negb (is_0 obj)
    then is_empty false
    else
      is_empty
        (is_empty_string obj
         || is_0 obj
         || (Nat.eqb (Object_keys_length obj) 0 && constructor_is_Object obj)
         || is_0 (length_of obj)
         || (isString && Nat.eqb (String.length (trim (text_of obj))) 0))
  else type_is_undefined_or_null.

(** The [error] object of a method as a value: [value] gives what the
    [.value] of a constant holds; the constants are not part of the
    sources. *)
Definition error_object (value : ErrorCode -> JsValue) (error : ErrorFields) : JsValue :=
  js_object (fold_right (fun f => property (fst f) (value (snd f))) no_property error).

(** ** Vocabulary of the further statements *)

(** The [error] object [register] has built when it tests it: one field
    per check that failed, in the order the checks run. *)
Definition register_error (E : Env) (dto : SignUpDto) (unique : Verdict) (w : World)
  : ErrorFields :=
  ((if exists_ (sat_user E) [User.by_email (su_email dto)] (users w)
    then [("email", EMAIL_ALREADY_EXISTS)] else [])
   ++ (if exists_ (sat_user E) [User.by_username (su_username dto)] (users w)
       then [("username", USERNAME_ALREADY_EXISTS)] else [])
   ++ (if negb (Verdict_truthy unique) then [("password", INVALID_PASSWORD)] else [])
   ++ (if exists_ (sat_user E) [User.by_phoneNumber (su_phoneNumber dto)] (users w)
       then [("phoneNumber", TEL_NUM_ALREADY_EXISTS)] else []))%list.

(** The value of an own property, or else the stored one. *)
Definition given (own : option string) (stored : string) : string :=
  match own with Some value => value | None => stored end.

(** Nothing but the accounts was written, and no account was added,
    removed or moved. *)
Definition accounts_only (w w' : World) : Prop :=
  map User._id (users w') = map User._id (users w)
  /\ vaults w' = vaults w /\ changes w' = changes w /\ forgots w' = forgots w
  /\ counter w' = counter w /\ clock w' = clock w /\ drawn w' = drawn w.

(** The same request to log in, with another password. *)
Definition with_password (password : string) (dto : LoginDto) : LoginDto :=
  {| rememberMe := rememberMe dto; dto_username := dto_username dto;
     dto_phoneNumber := dto_phoneNumber dto; dto_email := dto_email dto;
     dto_password := password |}.

(** What [login] answers when the look-up finds no account. *)
Definition no_account (dto : LoginDto) : Response :=
  if truthy (dto_username dto)
  then RpcException_fields [("username", INVALID_USERNAME)]
  else if truthy (dto_phoneNumber dto)
       then RpcException_fields [("username", INVALID_TEL_NUM)]
  else if truthy (dto_email dto)
       then RpcException_fields [("email", INVALID_EMAIL)]
  else Status BAD_REQUEST.

(** The test the look-up of lines 178-193 applies to an account. *)
Definition identifies (dto : LoginDto) (u : User.t) : bool :=
  if truthy (dto_username dto) then String.eqb (User.username u) (dto_username dto)
  else if truthy (dto_phoneNumber dto)
       then String.eqb (User.phoneNumber u) (dto_phoneNumber dto)
  else if truthy (dto_email dto) then String.eqb (User.email u) (dto_email dto)
  else false.

(** The state after one [login] with the same input at each of the times. *)
Fixpoint logins (E : Env) (ip userAgent fingerprint : string) (dto : LoginDto)
  (times : list Z) (w : World) : World :=
  match times with
  | [] => w
  | t :: times' =>
      logins E ip userAgent fingerprint dto times'
        (after (login E ip userAgent fingerprint dto) (at_time t w))
  end.

(** No account before the first one with this [_id] passes the test [p]. *)
Fixpoint first_by_id (p : User.t -> bool) (u : User.t) (l : list User.t) : Prop :=
  match l with
  | [] => False
  | d :: l' =>
      (d = u /\ p u = true)
      \/ (Nat.eqb (User._id d) (User._id u) = false /\ p d = false
          /\ first_by_id p u l')
  end.

(** ** Sample data for the rest of the service *)

(** The document a schema with no defaults but the flags makes for erin. *)
Definition erin_blank : User.t :=
  {| User._id := 5%nat; User.email := ""; User.username := "";
     User.phoneNumber := "";
     User.password := {| d_options := password_options; d_salt := ""; d_raw := "" |};
     User.isActive := false; User.isBlocked := false; User.blockExpires := 0;
     User.loginAttempts := 0; User.verification := "";
     User.verificationExpires := 0; User.firstName := "";
     User.lastName := ""; User.birthday := ""; User.photo := "" |}.

(** erin signs up under [email], confirming her password as [confirmation]. *)
Definition erin_as (email confirmation : string) : SignUpDto :=
  {| su_email := email; su_username := "erin"; su_password := "erin-secret";
     su_passwordVerification := confirmation; su_phoneNumber := "555" |}.

Definition erin : SignUpDto := erin_as "erin@example.org" "erin-secret".

Definition login_by_email (email password : string) : LoginDto :=
  {| rememberMe := false; dto_username := ""; dto_phoneNumber := "";
     dto_email := email; dto_password := password |}.

(** The state after the password probe [register] runs first. *)
Definition probed (E : Env) (dto : SignUpDto) (w : World) : World :=
  after (_validatePasswordUniqueness E 1 (su_password dto)) w.

(** * Properties *)

(** ** Credential derivation *)

Lemma generatePassword_run (E : Env) (password salt : string) (w : World) :
  _generatePassword E password salt w =
    (Return {| d_options := password_options;
               d_salt := entropy E (drawn w);
               d_raw := argon2_raw E password_options (entropy E (drawn w))
                          (salt ++ password) |},
     with_drawn (S (drawn w)) w).
Proof. reflexivity. Qed.

Lemma String_eqb_refl (s : string) : String.eqb s s = true.
Proof. apply String.eqb_eq. reflexivity. Qed.

(** C6, as the code has it: the value [_generatePassword] derives is fixed by
    the secret, the salt and the salt the library draws for the call.  It
    carries the options (40, 8192, 4, argon2id), the drawn salt and the raw
    hash of the salt prepended to the secret, it verifies against that text,
    and two calls that draw the same library salt derive the same value. *)
Theorem generatePassword_fixed_by_drawn_salt
  (E : Env) (secret salt : string) (w1 w2 : World) :
  entropy E (drawn w1) = entropy E (drawn w2) ->
  fst (_generatePassword E secret salt w1) = fst (_generatePassword E secret salt w2)
  /\ (exists d, fst (_generatePassword E secret salt w1) = Return d
        /\ d_options d =
             {| hashLength := 40; memoryCost := 8192; timeCost := 4; type := argon2id |}
        /\ d_salt d = entropy E (drawn w1)
        /\ d_raw d = argon2_raw E (d_options d) (d_salt d) (salt ++ secret)
        /\ argon2_verify E d (salt ++ secret) = true).
Proof.
  intros Hsame. rewrite !generatePassword_run. cbn [fst]. split.
  - rewrite Hsame. reflexivity.
  - eexists. split; [reflexivity|].
    unfold argon2_verify. cbn. rewrite String_eqb_refl. auto.
Qed.

Lemma generatePassword_fixed_by_drawn_salt_witness :
  entropy (sample_env false both_tokens) (drawn (sample_world [alice] 0)) =
  entropy (sample_env false both_tokens) (drawn (at_time 5 (sample_world [alice] 0)))
  /\ fst (_generatePassword (sample_env false both_tokens) "secret" "salt"
            (sample_world [alice] 0)) =
     fst (_generatePassword (sample_env false both_tokens) "secret" "salt"
            (at_time 5 (sample_world [alice] 0))).
Proof.
  split; [reflexivity|].
  apply (generatePassword_fixed_by_drawn_salt
           (sample_env false both_tokens) "secret" "salt"
           (sample_world [alice] 0) (at_time 5 (sample_world [alice] 0))).
  reflexivity.
Defined.

(** Two calls in a row with the same secret and the same salt: the first
    draws "0", the second "1", and the digests differ. *)
Lemma generatePassword_twice_differs :
  fst (_generatePassword (sample_env false both_tokens) "secret" "salt"
         (sample_world [alice] 0))
  = Return (sample_digest "0" "salt" "secret")
  /\ fst (_generatePassword (sample_env false both_tokens) "secret" "salt"
            (after (_generatePassword (sample_env false both_tokens) "secret" "salt")
               (sample_world [alice] 0)))
     = Return (sample_digest "1" "salt" "secret")
  /\ sample_digest "0" "salt" "secret" <> sample_digest "1" "salt" "secret".
Proof. repeat split. discriminate. Qed.

(** ** The uniqueness probe *)

(** The digest one round of the probe derives in state [w]. *)
Lemma validatePasswordUniqueness_unroll (E : Env) (fuel : nat) (password : string)
  (w : World) :
  _validatePasswordUniqueness E (S fuel) password w =
    let saltedPassword :=
      {| d_options := password_options;
         d_salt := entropy E (S (drawn w));
         d_raw := argon2_raw E password_options (entropy E (S (drawn w)))
                    (entropy E (drawn w) ++ password) |} in
    let w2 := with_drawn (S (S (drawn w))) w in
    if counter w <=? MAXIMUM_PASSWORD_VALIDATIONS E then
      if exists_ (sat_user E) [User.by_password saltedPassword] (users w) then
        match _validatePasswordUniqueness E fuel password w2 with
        | (Return _, w') => (Return js_undefined, w')
        | (Throw _, w') => (Return js_RpcException, w')
        | (OutOfFuel, w') => (OutOfFuel, w')
        end
      else (Return js_true, with_counter 0 w2)
    else (Return js_false, with_counter 0 w2).
Proof.
  cbn [_validatePasswordUniqueness].
  unfold try_catch, bind, draw, _generatePassword, argon2_hash, bind, draw, ret,
    gets, modify, _isExistingPassword, userModel_exists, gets, password_options.
  cbv zeta. cbn [counter with_drawn drawn].
  destruct (counter w <=? MAXIMUM_PASSWORD_VALIDATIONS E); [|reflexivity].
  cbv beta iota delta
    [with_drawn with_counter users vaults changes forgots counter clock drawn].
  match goal with |- context [exists_ ?s ?q ?l] => destruct (exists_ s q l) end;
    [|reflexivity].
  match goal with
  | |- context [_validatePasswordUniqueness E fuel password ?w'] =>
      destruct (_validatePasswordUniqueness E fuel password w') as [[v|e|] w'']
  end; reflexivity.
Qed.

(** The instance field is only ever written with 0. *)
Lemma validatePasswordUniqueness_counter (E : Env) (fuel : nat) (password : string) :
  forall w, counter (snd (_validatePasswordUniqueness E fuel password w)) = counter w
            \/ counter (snd (_validatePasswordUniqueness E fuel password w)) = 0.
Proof.
  induction fuel as [|fuel IH]; intros w; [left; reflexivity|].
  rewrite validatePasswordUniqueness_unroll. cbv zeta.
  destruct (counter w <=? MAXIMUM_PASSWORD_VALIDATIONS E); [|right; reflexivity].
  destruct (exists_ _ _ (users w)); [|right; reflexivity].
  specialize (IH (with_drawn (S (S (drawn w))) w)).
  destruct (_validatePasswordUniqueness E fuel password _) as [[v|e|] w''];
    exact IH.
Qed.

(** With no collision the probe accepts at its first derivation. *)
Lemma validatePasswordUniqueness_fresh (E : Env) (fuel : nat) (password : string)
  (w : World) :
  counter w <= MAXIMUM_PASSWORD_VALIDATIONS E ->
  exists_ (sat_user E)
    [User.by_password
       {| d_options := password_options;
          d_salt := entropy E (S (drawn w));
          d_raw := argon2_raw E password_options (entropy E (S (drawn w)))
                     (entropy E (drawn w) ++ password) |}] (users w) = false ->
  _validatePasswordUniqueness E (S fuel) password w
    = (Return js_true, with_counter 0 (with_drawn (S (S (drawn w))) w)).
Proof.
  intros Hc Hfresh. rewrite validatePasswordUniqueness_unroll. cbv zeta.
  apply Z.leb_le in Hc. rewrite Hc, Hfresh. reflexivity.
Qed.

(** X21: under a budget the counter does not exceed the probe never answers
    [false]: a round that collides answers [undefined], whatever the round
    it started answered. *)
Lemma validatePasswordUniqueness_never_false (E : Env) (fuel : nat)
  (password : string) (w : World) :
  counter w <= MAXIMUM_PASSWORD_VALIDATIONS E ->
  fst (_validatePasswordUniqueness E fuel password w) <> Return js_false.
Proof.
  intros Hc. destruct fuel as [|fuel]; [discriminate|].
  rewrite validatePasswordUniqueness_unroll. cbv zeta.
  apply Z.leb_le in Hc. rewrite Hc.
  destruct (exists_ _ _ (users w)); [|discriminate].
  destruct (_validatePasswordUniqueness E fuel password _) as [[v|e|] w''];
    discriminate.
Qed.

Lemma validatePasswordUniqueness_never_false_witness :
  counter (sample_world [carol] 0) <= MAXIMUM_PASSWORD_VALIDATIONS (retry_env 8)
  /\ fst (_validatePasswordUniqueness (retry_env 8) 5 "pw" (sample_world [carol] 0))
     <> Return js_false.
Proof.
  split; [vm_compute; discriminate|].
  apply (validatePasswordUniqueness_never_false (retry_env 8) 5 "pw"
           (sample_world [carol] 0)).
  vm_compute. discriminate.
Defined.

(** While every derived digest is stored the probe starts over, whatever
    the budget: no amount of fuel lets it return. *)
Lemma validatePasswordUniqueness_diverges (fuel : nat) :
  forall w, users w = [carol] -> counter w = 0 ->
    fst (_validatePasswordUniqueness stuck_env fuel "pw" w) = OutOfFuel.
Proof.
  induction fuel as [|fuel IH]; intros w Hu Hc; [reflexivity|].
  rewrite validatePasswordUniqueness_unroll. cbv zeta. rewrite Hc, Hu.
  replace (0 <=? MAXIMUM_PASSWORD_VALIDATIONS stuck_env) with true by reflexivity.
  replace (exists_ _ _ [carol]) with true by (vm_compute; reflexivity).
  specialize (IH (with_drawn (S (S (drawn w))) w) Hu Hc).
  destruct (_validatePasswordUniqueness stuck_env fuel "pw" _) as [[v|e|] w''];
    cbn in *; try discriminate IH; reflexivity.
Qed.

(** C5: with a budget of 1 and four collisions in a row, the probe derives
    five digests (ten values drawn), then resolves to [undefined], neither
    [false] nor [true]; the counter is 0 throughout. *)
Theorem validatePasswordUniqueness_outruns_budget :
  MAXIMUM_PASSWORD_VALIDATIONS (retry_env 8) = 1
  /\ _validatePasswordUniqueness (retry_env 8) 5 "pw" (sample_world [carol] 0)
       = (Return js_undefined, with_drawn 10 (sample_world [carol] 0))
  /\ (forall fuel, (fuel < 5)%nat ->
        fst (_validatePasswordUniqueness (retry_env 8) fuel "pw"
               (sample_world [carol] 0)) = OutOfFuel).
Proof.
  split; [reflexivity|]. split; [vm_compute; reflexivity|].
  intros fuel Hlt.
  do 5 (destruct fuel as [|fuel]; [vm_compute; reflexivity|]). lia.
Qed.

(** ** Collections *)

Lemma findOne_In {Doc Cond : Type} (sat : Cond -> Doc -> bool) (q : list Cond)
  (l : list Doc) (d : Doc) :
  findOne sat q l = Some d -> In d l /\ matches sat q d = true.
Proof. unfold findOne. apply find_some. Qed.

Lemma matches_by_id (E : Env) (i : ObjectId) (u : User.t) :
  matches (sat_user E) [User.by_id i] u = Nat.eqb (User._id u) i.
Proof. unfold matches. cbn. apply andb_true_r. Qed.

(** Once a document is saved under its [_id], that is the document a look-up
    by the [_id] finds. *)
Lemma save_then_find (E : Env) (u : User.t) (l : list User.t) :
  (exists d, In d l /\ User._id d = User._id u) ->
  findOne (sat_user E) [User.by_id (User._id u)]
    (updateOne (sat_user E) [User.by_id (User._id u)] (fun _ => u) l) = Some u.
Proof.
  induction l as [|x l IH]; intros [d [Hin Hid]]; [destruct Hin|].
  cbn [updateOne]. rewrite matches_by_id.
  destruct (Nat.eqb (User._id x) (User._id u)) eqn:Hx.
  - unfold findOne. cbn [find]. rewrite matches_by_id, Nat.eqb_refl. reflexivity.
  - unfold findOne. cbn [find]. rewrite matches_by_id, Hx.
    apply IH. destruct Hin as [->|Hin].
    + apply Nat.eqb_neq in Hx. contradiction.
    + exists d. auto.
Qed.

Lemma save_keeps_id (E : Env) (u : User.t) (l : list User.t) :
  (exists d, In d l /\ User._id d = User._id u) ->
  exists d, In d (updateOne (sat_user E) [User.by_id (User._id u)] (fun _ => u) l)
            /\ User._id d = User._id u.
Proof.
  intros H. apply (save_then_find E) in H. apply findOne_In in H.
  exists u. split; [apply H | reflexivity].
Qed.

Lemma assign_keeps_id (a : User.assignment) (u : User.t) :
  User._id (User.assign a u) = User._id u.
Proof. destruct a; reflexivity. Qed.

Lemma update_keeps_id (l : list User.assignment) (u : User.t) :
  User._id (User.update l u) = User._id u.
Proof.
  unfold User.update. revert u.
  induction l as [|a l IH]; intros u; [reflexivity|].
  cbn [fold_left]. rewrite IH. apply assign_keeps_id.
Qed.

Lemma after_unblock_keeps_id (now : Z) (u : User.t) :
  User._id (after_unblock now u) = User._id u.
Proof.
  unfold after_unblock. destruct (stale_block u now); [|reflexivity].
  apply update_keeps_id.
Qed.

(** ** Running the monad *)

Lemma bind_run {A B : Type} (m : M A) (k : A -> M B) (w w' : World) (a : A) :
  m w = (Return a, w') -> bind m k w = k a w'.
Proof. intros H. unfold bind. rewrite H. reflexivity. Qed.

Lemma bind_throw {A B : Type} (m : M A) (k : A -> M B) (w w' : World) (e : Exn) :
  m w = (Throw e, w') -> bind m k w = (Throw e, w').
Proof. intros H. unfold bind. rewrite H. reflexivity. Qed.

Lemma try_catch_return {A : Type} (m : M A) (h : Exn -> M A) (w w' : World) (a : A) :
  m w = (Return a, w') -> try_catch m h w = (Return a, w').
Proof. intros H. unfold try_catch. rewrite H. reflexivity. Qed.

Lemma try_catch_throw {A : Type} (m : M A) (h : Exn -> M A) (w w' : World) (e : Exn) :
  m w = (Throw e, w') -> try_catch m h w = h e w'.
Proof. intros H. unfold try_catch. rewrite H. reflexivity. Qed.

(** ** login *)

Lemma login_unblock_run (E : Env) (user : User.t) (w : World) :
  login_unblock E user w =
    (Return (after_unblock (clock w) user),
     if stale_block user (clock w)
     then with_users
            (updateOne (sat_user E) [User.by_id (User._id user)]
               (fun _ => after_unblock (clock w) user)) w
     else w).
Proof.
  unfold login_unblock, after_unblock, bind, Date_now, gets.
  destruct (stale_block user (clock w)); [|reflexivity].
  unfold user_save, modify, ret. rewrite update_keeps_id. reflexivity.
Qed.

Lemma login_unblock_keeps (E : Env) (user : User.t) (w : World) :
  vaults (snd (login_unblock E user w)) = vaults w
  /\ clock (snd (login_unblock E user w)) = clock w
  /\ ((exists d, In d (users w) /\ User._id d = User._id user) ->
      exists d, In d (users (snd (login_unblock E user w)))
                /\ User._id d = User._id user).
Proof.
  rewrite login_unblock_run. cbn [snd].
  destruct (stale_block user (clock w)) eqn:Hs; [|auto].
  cbn [with_users vaults clock users]. repeat split.
  intros H. rewrite <- (after_unblock_keeps_id (clock w) user) in *.
  apply save_keeps_id. exact H.
Qed.

Lemma login_resolve_found (E : Env) (dto : LoginDto) (w w' : World)
  (user : User.t) (error : ErrorFields) :
  login_resolve E dto w = (Return (Some user, error), w') ->
  w' = w /\ error = [] /\ In user (users w).
Proof.
  unfold login_resolve. intros Hres.
  destruct (truthy (dto_username dto));
    [|destruct (truthy (dto_phoneNumber dto));
      [|destruct (truthy (dto_email dto)); [|discriminate Hres]]];
    unfold bind, userModel_findOne, gets, ret in Hres;
    match type of Hres with
    | context [findOne ?s ?q ?l] => destruct (findOne s q l) eqn:Hf
    end; try discriminate Hres;
    inversion Hres; subst; apply findOne_In in Hf; intuition.
Qed.

(** When the identifier names an account, [login] is [login_account] on it
    under the handler. *)
Lemma login_found (E : Env) (ip userAgent fingerprint : string) (dto : LoginDto)
  (w : World) (user : User.t) :
  login_resolve E dto w = (Return (Some user, []), w) ->
  login E ip userAgent fingerprint dto w =
    try_catch
      (login_account E user []
         (session_data E (clock w) ip userAgent fingerprint dto) dto)
      log_and_drop w.
Proof.
  intros Hres. unfold login, try_catch.
  rewrite (bind_run _ _ w w (clock w)) by reflexivity.
  rewrite (bind_run _ _ _ _ _ Hres). reflexivity.
Qed.

Lemma login_secret_wrong (E : Env) (user : User.t) (error : ErrorFields)
  (salt : string) (dto : LoginDto) (w : World) :
  argon2_verify E (User.password user) (salt ++ dto_password dto) = false ->
  let counted := User.assign (User.set_loginAttempts (User.loginAttempts user + 1)) user in
  let blocked :=
    User.update [User.set_blockExpires (clock w + HOURS_TO_BLOCK E);
                 User.set_isBlocked true; User.set_loginAttempts 0] counted in
  let save u := with_users (updateOne (sat_user E) [User.by_id (User._id user)] (fun _ => u)) in
  login_secret E user error salt dto w =
    if LOGIN_ATTEMPTS_TO_BLOCK E <=? User.loginAttempts user + 1
    then (Return (inl (RpcException_key USER_HAS_BEEN_BLOCKED blocked_for_HOURS_TO_BLOCK)),
          save blocked (save counted w))
    else (Return (inr (counted, set_field "password" INVALID_PASSWORD error)),
          save counted w).
Proof.
  intros Hver counted blocked save. unfold login_secret. rewrite Hver. cbn [negb].
  unfold bind at 1, user_save at 1, modify at 1.
  cbn [User.loginAttempts User.assign].
  destruct (LOGIN_ATTEMPTS_TO_BLOCK E <=? User.loginAttempts user + 1); reflexivity.
Qed.

Lemma login_secret_right (E : Env) (user : User.t) (error : ErrorFields)
  (salt : string) (dto : LoginDto) (w : World) :
  argon2_verify E (User.password user) (salt ++ dto_password dto) = true ->
  login_secret E user error salt dto w = (Return (inr (user, error)), w).
Proof. intros Hver. unfold login_secret. rewrite Hver. reflexivity. Qed.

Lemma after_unblock_keeps (now : Z) (u : User.t) :
  User._id (after_unblock now u) = User._id u
  /\ User.password (after_unblock now u) = User.password u
  /\ User.loginAttempts (after_unblock now u) = User.loginAttempts u
  /\ User.isActive (after_unblock now u) = User.isActive u.
Proof.
  unfold after_unblock. destruct (stale_block u now); repeat split; reflexivity.
Qed.

(** The steps of [login_account] up to the check of the secret. *)
Lemma login_account_checks (E : Env) (user : User.t) (sd : SessionData)
  (dto : LoginDto) (w : World) (vault : Vault.t) :
  User.isActive user && User.isBlocked user = false ->
  vault_of E (User._id user) w = Some vault ->
  login_account E user [] sd dto w =
    (checked <- login_secret E (after_unblock (clock w) user)
                  (if User.isActive user then [] else [("internalFailure", NOT_ACTIVE)])
                  (Vault.salt vault) dto ;;
     match checked with
     | inl response => ret response
     | inr (user, error) =>
         if negb (_isEmpty error) then ret (RpcException_fields error)
         else login_session E user sd
     end) (snd (login_unblock E user w)).
Proof.
  intros Hnb Hvault. unfold login_account. rewrite Hnb.
  assert (Hrun : login_unblock E user w =
                 (Return (after_unblock (clock w) user), snd (login_unblock E user w)))
    by (rewrite login_unblock_run; reflexivity).
  destruct (login_unblock_keeps E user w) as [Hv [_ _]].
  destruct (after_unblock_keeps (clock w) user) as [Hid _].
  rewrite (bind_run _ _ _ _ _ Hrun).
  rewrite (bind_run _ _ _ (snd (login_unblock E user w)) (Some vault)).
  2:{ unfold vaultModel_findOne, gets. rewrite Hid, Hv. unfold vault_of in Hvault.
      rewrite Hvault. reflexivity. }
  rewrite (bind_run _ _ _ (snd (login_unblock E user w)) vault) by reflexivity.
  destruct (User.isActive user); reflexivity.
Qed.

(** C3: on an account that is not both active and blocked, a login that
    reaches the check of the secret and fails it counts one
    more attempt on the account; when the count reaches
    LOGIN_ATTEMPTS_TO_BLOCK the account is stored blocked until
    now + HOURS_TO_BLOCK with the count back at 0 and the caller gets
    USER_HAS_BEEN_BLOCKED; below it the count is the only thing changed and
    the caller gets INVALID_PASSWORD. *)
Theorem login_wrong_secret (E : Env) (ip userAgent fingerprint : string)
  (dto : LoginDto) (w : World) (user : User.t) (vault : Vault.t) :
  login_resolve E dto w = (Return (Some user, []), w) ->
  User.isActive user && User.isBlocked user = false ->
  vault_of E (User._id user) w = Some vault ->
  argon2_verify E (User.password user) (Vault.salt vault ++ dto_password dto) = false ->
  let attempts := User.loginAttempts user + 1 in
  let counted :=
    User.assign (User.set_loginAttempts attempts) (after_unblock (clock w) user) in
  let result := login E ip userAgent fingerprint dto w in
  (LOGIN_ATTEMPTS_TO_BLOCK E <= attempts ->
     fst result = Return (RpcException_key USER_HAS_BEEN_BLOCKED blocked_for_HOURS_TO_BLOCK)
     /\ exists stored,
          account E (User._id user) (snd result) = Some stored
          /\ User.isBlocked stored = true
          /\ User.blockExpires stored = clock w + HOURS_TO_BLOCK E
          /\ User.loginAttempts stored = 0
          /\ stored = User.update [User.set_blockExpires (clock w + HOURS_TO_BLOCK E);
                                   User.set_isBlocked true;
                                   User.set_loginAttempts 0] counted)
  /\ (attempts < LOGIN_ATTEMPTS_TO_BLOCK E ->
        fst result =
          Return (RpcException_fields
                    (set_field "password" INVALID_PASSWORD
                       (if User.isActive user then []
                        else [("internalFailure", NOT_ACTIVE)])))
        /\ account E (User._id user) (snd result) = Some counted).
Proof.
  intros Hres Hnb Hvault Hver attempts counted result.
  destruct (login_resolve_found _ _ _ _ _ _ Hres) as [_ [_ Hin]].
  destruct (login_unblock_keeps E user w) as [_ [Hclock Hin1]].
  destruct (after_unblock_keeps (clock w) user) as [Hid [Hpw [Hatt _]]].
  assert (Hin2 : exists d, In d (users (snd (login_unblock E user w)))
                           /\ User._id d = User._id (after_unblock (clock w) user)).
  { rewrite Hid. apply Hin1. exists user. auto. }
  subst result. rewrite (login_found _ _ _ _ _ _ _ Hres).
  unfold try_catch. rewrite (login_account_checks _ _ _ _ _ _ Hnb Hvault).
  unfold bind.
  rewrite login_secret_wrong by (rewrite Hpw; exact Hver).
  cbv zeta. rewrite Hatt, Hclock, Hid. fold attempts. fold counted.
  split; intros Hth.
  - apply Z.leb_le in Hth. rewrite Hth. cbn [fst snd]. split; [reflexivity|].
    exists (User.update [User.set_blockExpires (clock w + HOURS_TO_BLOCK E);
                         User.set_isBlocked true; User.set_loginAttempts 0] counted).
    split; [|repeat split; reflexivity].
    unfold account. cbn [users with_users].
    set (blocked := User.update _ counted).
    replace (User._id user) with (User._id blocked)
      by (subst blocked counted; rewrite update_keeps_id, assign_keeps_id; exact Hid).
    apply save_then_find.
    replace (User._id blocked) with (User._id counted)
      by (subst blocked; rewrite update_keeps_id; reflexivity).
    apply save_keeps_id.
    subst counted. rewrite assign_keeps_id. exact Hin2.
  - apply Z.leb_gt in Hth. rewrite Hth.
    assert (Hne : forall e, negb (_isEmpty (set_field "password" INVALID_PASSWORD e)) = true).
    { intros [|[k v] e]; cbn [set_field]; [reflexivity|].
      destruct (String.eqb "password" k); reflexivity. }
    rewrite Hne. cbn [fst snd ret]. split; [reflexivity|].
    unfold account. cbn [users with_users].
    replace (User._id user) with (User._id counted)
      by (subst counted; rewrite assign_keeps_id; exact Hid).
    apply save_then_find. subst counted. rewrite assign_keeps_id. exact Hin2.
Qed.

Lemma login_wrong_secret_witness :
  login_resolve (sample_env false both_tokens) (login_by_username "alice" "guess")
    (sample_world [alice_after 4; bob] 1000)
  = (Return (Some (alice_after 4), []), sample_world [alice_after 4; bob] 1000)
  /\ User.isActive (alice_after 4) && User.isBlocked (alice_after 4) = false
  /\ 5 <= User.loginAttempts (alice_after 4) + 1
  /\ fst (login (sample_env false both_tokens) "ip" "ua" "fp"
            (login_by_username "alice" "guess")
            (sample_world [alice_after 4; bob] 1000))
     = Return (RpcException_key USER_HAS_BEEN_BLOCKED blocked_for_HOURS_TO_BLOCK)
  /\ exists stored,
       account (sample_env false both_tokens) (User._id (alice_after 4))
         (snd (login (sample_env false both_tokens) "ip" "ua" "fp"
                 (login_by_username "alice" "guess")
                 (sample_world [alice_after 4; bob] 1000))) = Some stored
       /\ User.isBlocked stored = true
       /\ User.blockExpires stored = 1000 + 86400000
       /\ User.loginAttempts stored = 0.
Proof.
  split; [reflexivity|]. split; [reflexivity|]. split; [vm_compute; discriminate|].
  destruct (login_wrong_secret (sample_env false both_tokens) "ip" "ua" "fp"
              (login_by_username "alice" "guess")
              (sample_world [alice_after 4; bob] 1000)
              (alice_after 4) {| Vault.user := 1%nat; Vault.salt := "salt-a" |}
              eq_refl eq_refl eq_refl eq_refl) as [Hblock _].
  destruct Hblock as [Hresp [stored [Hacc [Hblk [Hexp [Hatt _]]]]]].
  - vm_compute. discriminate.
  - split; [exact Hresp|]. exists stored. auto.
Defined.

(** alice is active and blocked, the block lapsed at 500 or standing until
    5000, and fails a login at time 1000.  With two attempts counted the
    count is not incremented and the answer is not the invalid secret; with
    four counted, one short of the threshold, the count is not reset and the
    expiry is not moved to 1000 + HOURS_TO_BLOCK.  Nothing is written. *)
Lemma login_wrong_secret_on_blocked_account :
  let E := sample_env false both_tokens in
  let w n expires := sample_world [alice_blocked n expires; bob] 1000 in
  let failed := login E "ip" "ua" "fp" (login_by_username "alice" "guess") in
  let turned_back w :=
    failed w
    = (Return (RpcException_key USER_HAS_BEEN_BLOCKED (value_of USER_HAS_BEEN_BLOCKED)),
       w) in
  argon2_verify E (User.password alice) ("salt-a" ++ "guess") = false
  /\ (User.loginAttempts (alice_blocked 2 500) + 1 < LOGIN_ATTEMPTS_TO_BLOCK E
      /\ turned_back (w 2 500) /\ turned_back (w 2 5000)
      /\ option_map User.loginAttempts (account E 1%nat (after failed (w 2 500)))
         = Some 2)
  /\ (LOGIN_ATTEMPTS_TO_BLOCK E <= User.loginAttempts (alice_blocked 4 500) + 1
      /\ turned_back (w 4 500) /\ turned_back (w 4 5000)
      /\ option_map User.loginAttempts (account E 1%nat (after failed (w 4 500)))
         = Some 4
      /\ option_map User.blockExpires (account E 1%nat (after failed (w 4 500)))
         = Some 500).
Proof. cbv zeta. repeat split; vm_compute; congruence. Qed.

(** An active account that is blocked is turned away before anything else
    is looked at, and nothing is written. *)
Lemma login_blocked_account (E : Env) (ip userAgent fingerprint : string)
  (dto : LoginDto) (w : World) (user : User.t) :
  login_resolve E dto w = (Return (Some user, []), w) ->
  User.isActive user && User.isBlocked user = true ->
  login E ip userAgent fingerprint dto w =
    (Return (RpcException_key USER_HAS_BEEN_BLOCKED (value_of USER_HAS_BEEN_BLOCKED)), w).
Proof.
  intros Hres Hb. rewrite (login_found _ _ _ _ _ _ _ Hres).
  unfold try_catch, login_account. rewrite Hb. reflexivity.
Qed.

(** C2: after four failed attempts alice fails a fifth at time 1000 and is
    blocked until 86401000.  At time 90000000, past that, she logs in with
    the right secret: the answer is USER_HAS_BEEN_BLOCKED, nothing is
    written, and the account is still blocked. *)
Theorem login_expired_block_stays :
  let E := sample_env false both_tokens in
  let w0 := sample_world [alice_after 4; bob] 1000 in
  let failed := login E "ip" "ua" "fp" (login_by_username "alice" "guess") in
  let w1 := at_time 90000000 (after failed w0) in
  let retry := login E "ip" "ua" "fp" (login_by_username "alice" "alice-secret") in
  fst (failed w0)
  = Return (RpcException_key USER_HAS_BEEN_BLOCKED blocked_for_HOURS_TO_BLOCK)
  /\ option_map User.blockExpires (account E 1%nat w1) = Some 86401000
  /\ 86401000 < clock w1
  /\ option_map (fun u => argon2_verify E (User.password u) ("salt-a" ++ "alice-secret"))
       (account E 1%nat w1) = Some true
  /\ retry w1
     = (Return (RpcException_key USER_HAS_BEEN_BLOCKED (value_of USER_HAS_BEEN_BLOCKED)),
        w1)
  /\ option_map User.isBlocked (account E 1%nat (after retry w1)) = Some true.
Proof. cbv zeta. repeat split. Qed.

Lemma login_session_run (E : Env) (user : User.t) (sd : SessionData) (w : World) :
  try_catch (login_session E user sd) log_and_drop w =
    match generateJWT E (User._id user) sd with
    | Some (accessToken, refreshToken) =>
        if truthy accessToken && truthy refreshToken
        then (Return (Session (userData user) accessToken refreshToken),
              with_users
                (updateOne (sat_user E) [User.by_id (User._id user)]
                   (fun _ => User.assign (User.set_loginAttempts 0) user)) w)
        else (Return (Status BAD_REQUEST), w)
    | None => (Return undefined, w)
    end.
Proof.
  unfold try_catch, login_session, bind, deref.
  destruct (generateJWT E (User._id user) sd) as [[a r]|]; [|reflexivity].
  cbn [ret throw]. destruct (truthy a && truthy r); reflexivity.
Qed.

(** C7, as the code has it: on an active, unblocked account a login whose
    secret verifies stores loginAttempts = 0, whatever it was, when the token
    service returns both tokens; when it returns one of them empty or
    fails, the call answers BAD_REQUEST or nothing and the count is stored as
    it was. *)
Theorem login_right_secret (E : Env) (ip userAgent fingerprint : string)
  (dto : LoginDto) (w : World) (user : User.t) (vault : Vault.t) :
  login_resolve E dto w = (Return (Some user, []), w) ->
  account E (User._id user) w = Some user ->
  User.isActive user = true ->
  User.isBlocked user = false ->
  vault_of E (User._id user) w = Some vault ->
  argon2_verify E (User.password user) (Vault.salt vault ++ dto_password dto) = true ->
  let minted :=
    generateJWT E (User._id user)
      (session_data E (clock w) ip userAgent fingerprint dto) in
  let result := login E ip userAgent fingerprint dto w in
  (forall accessToken refreshToken,
     minted = Some (accessToken, refreshToken) ->
     truthy accessToken && truthy refreshToken = true ->
     fst result =
       Return (Session (userData (after_unblock (clock w) user)) accessToken refreshToken)
     /\ exists stored,
          account E (User._id user) (snd result) = Some stored
          /\ User.loginAttempts stored = 0)
  /\ (forall accessToken refreshToken,
        minted = Some (accessToken, refreshToken) ->
        truthy accessToken && truthy refreshToken = false ->
        fst result = Return (Status BAD_REQUEST)
        /\ exists stored,
             account E (User._id user) (snd result) = Some stored
             /\ User.loginAttempts stored = User.loginAttempts user)
  /\ (minted = None ->
        fst result = Return undefined
        /\ exists stored,
             account E (User._id user) (snd result) = Some stored
             /\ User.loginAttempts stored = User.loginAttempts user).
Proof.
  intros Hres Hacc Hact Hblk Hvault Hver minted result.
  destruct (login_resolve_found _ _ _ _ _ _ Hres) as [_ [_ Hin]].
  destruct (after_unblock_keeps (clock w) user) as [Hid [Hpw [Hatt _]]].
  assert (Hnb : User.isActive user && User.isBlocked user = false)
    by (rewrite Hact, Hblk; reflexivity).
  assert (Hstored : account E (User._id user) (snd (login_unblock E user w))
                    = Some (after_unblock (clock w) user)).
  { rewrite login_unblock_run. cbn [snd]. unfold after_unblock.
    destruct (stale_block user (clock w)) eqn:Hs; [|exact Hacc].
    unfold account. cbn [users with_users].
    set (cleared := User.update _ user).
    replace (User._id user) with (User._id cleared)
      by (subst cleared; apply update_keeps_id).
    apply save_then_find. exists user. split; [exact Hin|].
    subst cleared. symmetry. apply update_keeps_id. }
  assert (Hrun : result =
    try_catch (login_session E (after_unblock (clock w) user)
                 (session_data E (clock w) ip userAgent fingerprint dto))
      log_and_drop (snd (login_unblock E user w))).
  { subst result. rewrite (login_found _ _ _ _ _ _ _ Hres).
    unfold try_catch at 1. rewrite (login_account_checks _ _ _ _ _ _ Hnb Hvault).
    rewrite (bind_run _ _ _ _ _
               (login_secret_right E _ _ _ _ _ ltac:(rewrite Hpw; exact Hver))).
    rewrite Hact. cbn [_isEmpty negb]. unfold try_catch.
    destruct (login_session E _ _ _) as [[r|e|] w2]; reflexivity. }
  rewrite Hrun, login_session_run, Hid. fold minted.
  repeat split.
  - rewrite H. rewrite H0. reflexivity.
  - rewrite H, H0. cbn [snd].
    exists (User.assign (User.set_loginAttempts 0) (after_unblock (clock w) user)).
    split; [|reflexivity].
    unfold account. cbn [users with_users].
    set (reset := User.assign _ _).
    replace (User._id user) with (User._id reset)
      by (subst reset; rewrite assign_keeps_id; exact Hid).
    apply save_then_find.
    apply findOne_In in Hstored. destruct Hstored as [Hin' _].
    exists (after_unblock (clock w) user). split; [exact Hin'|].
    subst reset. rewrite assign_keeps_id. reflexivity.
  - rewrite H, H0. reflexivity.
  - rewrite H, H0. cbn [snd]. eexists. split; [exact Hstored|exact Hatt].
  - rewrite H. reflexivity.
  - rewrite H. cbn [snd]. eexists. split; [exact Hstored|exact Hatt].
Qed.

Lemma login_right_secret_witness :
  login_resolve (sample_env false both_tokens) (login_by_username "alice" "alice-secret")
    (sample_world [alice_after 3; bob] 1000)
  = (Return (Some (alice_after 3), []), sample_world [alice_after 3; bob] 1000)
  /\ User.loginAttempts (alice_after 3) = 3
  /\ exists stored,
       account (sample_env false both_tokens) (User._id (alice_after 3))
         (snd (login (sample_env false both_tokens) "ip" "ua" "fp"
                 (login_by_username "alice" "alice-secret")
                 (sample_world [alice_after 3; bob] 1000))) = Some stored
       /\ User.loginAttempts stored = 0.
Proof.
  split; [reflexivity|]. split; [reflexivity|].
  destruct (login_right_secret (sample_env false both_tokens) "ip" "ua" "fp"
              (login_by_username "alice" "alice-secret")
              (sample_world [alice_after 3; bob] 1000)
              (alice_after 3) {| Vault.user := 1%nat; Vault.salt := "salt-a" |}
              eq_refl eq_refl eq_refl eq_refl eq_refl eq_refl) as [Hok _].
  destruct (Hok "access" "refresh" eq_refl eq_refl) as [_ Hstored].
  exact Hstored.
Defined.

(** On an account that is not active a secret that verifies changes
    nothing: the answer is NOT_ACTIVE. *)
Lemma login_inactive_right_secret (E : Env) (ip userAgent fingerprint : string)
  (dto : LoginDto) (w : World) (user : User.t) (vault : Vault.t) :
  login_resolve E dto w = (Return (Some user, []), w) ->
  User.isActive user = false ->
  vault_of E (User._id user) w = Some vault ->
  argon2_verify E (User.password user) (Vault.salt vault ++ dto_password dto) = true ->
  login E ip userAgent fingerprint dto w
  = (Return (RpcException_fields [("internalFailure", NOT_ACTIVE)]), w).
Proof.
  intros Hres Hact Hvault Hver.
  assert (Hnb : User.isActive user && User.isBlocked user = false)
    by (rewrite Hact; reflexivity).
  assert (Hstale : stale_block user (clock w) = false)
    by (unfold stale_block; rewrite Hact; reflexivity).
  rewrite (login_found _ _ _ _ _ _ _ Hres). apply try_catch_return.
  rewrite (login_account_checks _ _ _ _ _ _ Hnb Hvault).
  rewrite login_unblock_run. unfold after_unblock. rewrite Hstale. cbn [snd].
  rewrite (bind_run _ _ _ _ _ (login_secret_right E _ _ _ _ _ Hver)).
  rewrite Hact. reflexivity.
Qed.


(** The secret verifies and the count is kept: on alice when the token
    service returns no refresh token (3 before, 3 after), on dave, who is
    not active (2 before, 2 after). *)
Lemma login_count_survives_failed_minting :
  (argon2_verify (sample_env false (Some ("access", "")))
     (User.password (alice_after 3)) ("salt-a" ++ "alice-secret") = true
   /\ fst (login (sample_env false (Some ("access", ""))) "ip" "ua" "fp"
             (login_by_username "alice" "alice-secret")
             (sample_world [alice_after 3; bob] 1000))
      = Return (Status BAD_REQUEST)
   /\ option_map User.loginAttempts
        (account (sample_env false (Some ("access", ""))) 1%nat
           (snd (login (sample_env false (Some ("access", ""))) "ip" "ua" "fp"
                   (login_by_username "alice" "alice-secret")
                   (sample_world [alice_after 3; bob] 1000))))
      = Some 3)
  /\
  (argon2_verify (sample_env false both_tokens)
     (User.password dave) ("salt-b" ++ "dave-secret") = true
   /\ fst (login (sample_env false both_tokens) "ip" "ua" "fp"
             (login_by_username "dave" "dave-secret")
             (sample_world [alice; dave] 1000))
      = Return (RpcException_fields [("internalFailure", NOT_ACTIVE)])
   /\ option_map User.loginAttempts
        (account (sample_env false both_tokens) 2%nat
           (snd (login (sample_env false both_tokens) "ip" "ua" "fp"
                   (login_by_username "dave" "dave-secret")
                   (sample_world [alice; dave] 1000))))
      = Some 2)
  /\ 3 <> 0 /\ 2 <> 0.
Proof. repeat split; discriminate. Qed.

(** ** Filters on a path the schema lacks *)

Lemma no_path_change_lax (E : Env) (p : string) (q : list ChangePrimaryData.cond)
  (l : list ChangePrimaryData.t) :
  strictQuery E = false ->
  filter (matches (sat_change E) (ChangePrimaryData.no_path p :: q)) l = []
  /\ exists_ (sat_change E) (ChangePrimaryData.no_path p :: q) l = false.
Proof.
  intros Hlax. unfold exists_, matches. cbn [forallb sat_change]. rewrite Hlax.
  induction l as [|d l [IHf IHe]]; [split; reflexivity|].
  cbn [filter existsb andb]. auto.
Qed.

Lemma no_path_vault_lax (E : Env) (p : string) (l : list Vault.t) :
  strictQuery E = false ->
  findOne (sat_vault E) [Vault.no_path p] l = None.
Proof.
  intros Hlax. unfold findOne, matches. cbn [forallb sat_vault]. rewrite Hlax.
  induction l as [|d l IH]; [reflexivity|exact IH].
Qed.

(** Without [strictQuery] the count of [changePhoneNumber] and
    [changePassword] is 0 whatever the collection holds. *)
Lemma count_by_userId_lax (E : Env) (w : World) :
  strictQuery E = false ->
  countDocuments (sat_change E)
    [ChangePrimaryData.no_path "userId"; ChangePrimaryData.by_verified false]
    (changes w) = 0.
Proof.
  intros Hlax. unfold countDocuments.
  destruct (no_path_change_lax E "userId" [ChangePrimaryData.by_verified false]
              (changes w) Hlax) as [-> _].
  reflexivity.
Qed.

(** Without [strictQuery] no redeem finds its request. *)
Lemma verifyPrimaryDataChange_lax (E : Env) (userId : ObjectId)
  (verification : string) (dataType : DataType) (w : World) :
  strictQuery E = false ->
  verifyPrimaryDataChange E userId verification dataType w
  = (Return (Status BAD_REQUEST), w).
Proof.
  intros Hlax. unfold verifyPrimaryDataChange. apply try_catch_return.
  rewrite (bind_run _ _ w w false); [reflexivity|].
  unfold changeModel_exists, gets.
  destruct (no_path_change_lax E "userId"
              [ChangePrimaryData.by_verification verification;
               ChangePrimaryData.by_dataType dataType;
               ChangePrimaryData.by_verified false] (changes w) Hlax) as [_ ->].
  reflexivity.
Qed.

(** X22: without [strictQuery] [changePassword] finds no vault, throws on its
    salt and answers nothing. *)
Lemma changePassword_lax (E : Env) (fuel : nat) (userId : ObjectId)
  (oldPassword newPassword ip userAgent fingerprint : string) (w : World) :
  strictQuery E = false ->
  changePassword E fuel userId oldPassword newPassword ip userAgent fingerprint w
  = (Return undefined, w).
Proof.
  intros Hlax. unfold changePassword.
  rewrite (try_catch_throw _ _ w w TypeError); [reflexivity|].
  erewrite bind_run by reflexivity.
  rewrite (bind_run _ _ w w None)
    by (unfold vaultModel_findOne, gets; rewrite no_path_vault_lax by exact Hlax;
        reflexivity).
  apply bind_throw. reflexivity.
Qed.

Lemma changePassword_lax_witness :
  changePassword (sample_env false both_tokens) 1 1%nat "alice-secret" "new-secret"
    "ip" "ua" "fp" (sample_world [alice; bob] 1000)
  = (Return undefined, sample_world [alice; bob] 1000).
Proof.
  exact (changePassword_lax (sample_env false both_tokens) 1 1%nat "alice-secret"
           "new-secret" "ip" "ua" "fp" (sample_world [alice; bob] 1000) eq_refl).
Defined.

(** ** Changes of primary data *)

Lemma count_unverified (E : Env) (i : ObjectId) (w : World) :
  countDocuments (sat_change E)
    [ChangePrimaryData.by_user i; ChangePrimaryData.by_verified false] (changes w)
  = Z.of_nat (List.length (unverified_requests i w)).
Proof.
  unfold countDocuments, unverified_requests. do 2 f_equal.
  apply filter_ext. intros d. unfold matches. cbn.
  destruct (ChangePrimaryData.verified d); rewrite ?andb_true_r; reflexivity.
Qed.

Lemma pending_count_nonzero (E : Env) (i : ObjectId) (w : World) :
  unverified_requests i w <> [] ->
  negb (countDocuments (sat_change E)
          [ChangePrimaryData.by_user i; ChangePrimaryData.by_verified false]
          (changes w) =? 0) = true.
Proof.
  intros Hne. rewrite count_unverified.
  destruct (unverified_requests i w) as [|d l]; [contradiction|].
  reflexivity.
Qed.

(** The goal is closed by a call that returned its non-empty [error]. *)
Ltac answers_validation_error :=
  eexists; split;
  [reflexivity | right; right; eexists; split; [|reflexivity]; discriminate].

(** X23: while the account has an unverified request, [changeEmail] creates
    none and writes nothing. *)
Lemma changeEmail_pending (E : Env) (userId : ObjectId)
  (oldEmail newEmail ip userAgent fingerprint : string) (w : World) :
  unverified_requests userId w <> [] ->
  exists r, changeEmail E userId oldEmail newEmail ip userAgent fingerprint w = (r, w)
            /\ turned_away r.
Proof.
  intros Hne. unfold changeEmail, try_catch.
  unfold bind at 1, _isExistingEmail at 1, userModel_exists at 1, gets at 1.
  unfold bind at 1, _isExistingEmail at 1, userModel_exists at 1, gets at 1.
  destruct (exists_ (sat_user E) [User.by_email oldEmail] (users w));
    destruct (exists_ (sat_user E) [User.by_email newEmail] (users w));
    cbn [negb set_field _isEmpty String.eqb Ascii.eqb Bool.eqb];
    try answers_validation_error.
  unfold bind at 1, userModel_findOne at 1, gets at 1.
  unfold bind at 1, changeModel_countDocuments at 1, gets at 1.
  destruct (findOne (sat_user E) _ (users w)) as [u|];
    [|eexists; split; [reflexivity|right; left; reflexivity]].
  unfold bind at 1, deref, ret at 1.
  rewrite (pending_count_nonzero E userId w Hne), orb_true_r.
  eexists. split; [reflexivity|left; reflexivity].
Qed.

Lemma changeEmail_pending_witness :
  let E := sample_env false both_tokens in
  let w := after (changeUsername E 1%nat "alice" "alicia" "ip" "ua" "fp")
             (sample_world [alice; bob] 1000) in
  unverified_requests 1%nat w <> []
  /\ exists r,
       changeEmail E 1%nat "alice@example.org" "alice@example.com" "ip" "ua" "fp" w
       = (r, w)
       /\ turned_away r.
Proof.
  cbv zeta. split; [vm_compute; discriminate|].
  apply (changeEmail_pending (sample_env false both_tokens) 1%nat "alice@example.org"
           "alice@example.com" "ip" "ua" "fp").
  vm_compute. discriminate.
Defined.

(** X24: while the account has an unverified request, [changeUsername]
    creates none and writes nothing. *)
Lemma changeUsername_pending (E : Env) (userId : ObjectId)
  (oldUsername newUsername ip userAgent fingerprint : string) (w : World) :
  unverified_requests userId w <> [] ->
  exists r, changeUsername E userId oldUsername newUsername ip userAgent fingerprint w = (r, w)
            /\ turned_away r.
Proof.
  intros Hne. unfold changeUsername, try_catch.
  unfold bind at 1, _isExistingUsername at 1, userModel_exists at 1, gets at 1.
  unfold bind at 1, _isExistingUsername at 1, userModel_exists at 1, gets at 1.
  destruct (exists_ (sat_user E) [User.by_username oldUsername] (users w));
    destruct (exists_ (sat_user E) [User.by_username newUsername] (users w));
    cbn [negb set_field _isEmpty String.eqb Ascii.eqb Bool.eqb];
    try answers_validation_error.
  unfold bind at 1, userModel_findOne at 1, gets at 1.
  unfold bind at 1, changeModel_countDocuments at 1, gets at 1.
  destruct (findOne (sat_user E) _ (users w)) as [u|];
    [|eexists; split; [reflexivity|right; left; reflexivity]].
  unfold bind at 1, deref, ret at 1.
  rewrite (pending_count_nonzero E userId w Hne), orb_true_r.
  eexists. split; [reflexivity|left; reflexivity].
Qed.

Lemma changeUsername_pending_witness :
  let E := sample_env false both_tokens in
  let w := after (changeEmail E 1%nat "alice@example.org" "alice@example.com"
                    "ip" "ua" "fp")
             (sample_world [alice; bob] 1000) in
  unverified_requests 1%nat w <> []
  /\ exists r,
       changeUsername E 1%nat "alice" "alicia" "ip" "ua" "fp" w = (r, w)
       /\ turned_away r.
Proof.
  cbv zeta. split; [vm_compute; discriminate|].
  apply (changeUsername_pending (sample_env false both_tokens) 1%nat "alice" "alicia"
           "ip" "ua" "fp").
  vm_compute. discriminate.
Defined.

(** Without [strictQuery], [changePhoneNumber] saves its request on an
    unblocked account however many unverified requests the account has. *)
Lemma changePhoneNumber_lax (E : Env) (userId : ObjectId)
  (oldPhoneNumber newPhoneNumber ip userAgent fingerprint : string)
  (w : World) (user : User.t) :
  strictQuery E = false ->
  exists_ (sat_user E) [User.by_phoneNumber oldPhoneNumber] (users w) = true ->
  exists_ (sat_user E) [User.by_email newPhoneNumber] (users w) = false ->
  findOne (sat_user E) [User.by_id userId; User.by_isActive true] (users w) = Some user ->
  User.isBlocked user = false ->
  ChangePrimaryData.valid
    (pending_request E userId (entropy E (drawn w)) ip userAgent fingerprint dt_phone)
  = true ->
  changes (snd (changePhoneNumber E userId oldPhoneNumber newPhoneNumber
                  ip userAgent fingerprint w))
  = insert
      (pending_request E userId (entropy E (drawn w)) ip userAgent fingerprint dt_phone)
      (changes w).
Proof.
  intros Hlax Hold Hnew Hfind Hblk Hvalid.
  unfold changePhoneNumber, try_catch.
  rewrite (bind_run _ _ w w true)
    by (unfold _isExistingPhone, userModel_exists, gets; rewrite Hold; reflexivity).
  rewrite (bind_run _ _ w w false)
    by (unfold _isExistingEmail, userModel_exists, gets; rewrite Hnew; reflexivity).
  cbn [negb _isEmpty].
  rewrite (bind_run _ _ w w (Some user))
    by (unfold userModel_findOne, gets; rewrite Hfind; reflexivity).
  rewrite (bind_run _ _ w w 0)
    by (unfold changeModel_countDocuments, gets;
        rewrite (count_by_userId_lax E w Hlax); reflexivity).
  rewrite (bind_run _ _ w w user) by reflexivity.
  rewrite Hblk. cbn [orb negb Z.eqb].
  rewrite (bind_run _ _ w (with_drawn (S (drawn w)) w) (entropy E (drawn w)))
    by reflexivity.
  unfold bind, Date_now, gets, userModel_updateOne, modify, change_save.
  rewrite Hvalid. reflexivity.
Qed.

(** The request a method saves holds the length of the window, whatever
    the clock reads. *)
Lemma pending_request_expires (E : Env) (user : ObjectId)
  (verification ip userAgent fingerprint : string) (dataType : DataType) :
  ChangePrimaryData.expires
    (pending_request E user verification ip userAgent fingerprint dataType)
  = HOURS_TO_VERIFY E
  /\ ChangePrimaryData.verified
       (pending_request E user verification ip userAgent fingerprint dataType)
     = false.
Proof. split; reflexivity. Qed.

(** C1: alice (account 1) asks for a change of email, giving bob's address
    as the old one: the request is saved and her account is not blocked.
    Her request to change the phone number is then accepted and saved as
    well, so account 1 holds two unverified requests. *)
Theorem changePhoneNumber_second_request :
  let E := sample_env false both_tokens in
  let w0 := sample_world [alice; bob] 1000 in
  let first := changeEmail E 1%nat "bob@example.org" "new@example.org" "ip" "ua" "fp" in
  let second := changePhoneNumber E 1%nat "111" "999" "ip" "ua" "fp" in
  fst (first w0) = Return (Sent "verify" "0" "new@example.org" "VERIFY_EMAIL_CHANGE")
  /\ List.length (unverified_requests 1%nat (after first w0)) = 1%nat
  /\ fst (second (after first w0))
     = Return (Sent "verify" "1" "alice@example.org" "VERIFY_PHONE_CHANGE")
  /\ map ChangePrimaryData.dataType (unverified_requests 1%nat (after second (after first w0)))
     = [dt_email; dt_phone].
Proof. cbv zeta. repeat split. Qed.

(** With [strictQuery] on, the same second request is turned away. *)
Lemma changePhoneNumber_second_request_strict :
  let E := sample_env true both_tokens in
  let w0 := sample_world [alice; bob] 1000 in
  let first := changeEmail E 1%nat "bob@example.org" "new@example.org" "ip" "ua" "fp" in
  changePhoneNumber E 1%nat "111" "999" "ip" "ua" "fp" (after first w0)
  = (Return must_verify_previous, after first w0).
Proof. reflexivity. Qed.

(** C4: bob (account 2) changes his email and redeems the token "0" he was
    sent.  Without [strictQuery] no request matches the filter on [userId]:
    the answer is BAD_REQUEST and nothing is written.  With [strictQuery]
    the request is marked verified and the answer is his public view, but
    the update of the account lands on the first account of the collection,
    alice, and bob stays blocked. *)
Theorem verifyPrimaryDataChange_misses_account :
  let request E := changeEmail E 2%nat "bob@example.org" "bob@example.net" "ip" "ua" "fp" in
  let w0 := sample_world [alice; bob] 1000 in
  let redeem E := verifyPrimaryDataChange E 2%nat "0" dt_email in
  let lax := sample_env false both_tokens in
  let strict := sample_env true both_tokens in
  (fst (request lax w0) = Return (Sent "verify" "0" "bob@example.net" "VERIFY_EMAIL_CHANGE")
   /\ map ChangePrimaryData.verification (unverified_requests 2%nat (after (request lax) w0)) = ["0"]
   /\ redeem lax (after (request lax) w0)
      = (Return (Status BAD_REQUEST), after (request lax) w0)
   /\ option_map User.isBlocked (account lax 2%nat (after (request lax) w0)) = Some true)
  /\
  (fst (redeem strict (after (request strict) w0))
   = Return (Data (userData (User.assign (User.set_email "bob@example.net") bob)))
   /\ unverified_requests 2%nat (after (redeem strict) (after (request strict) w0)) = []
   /\ option_map User.isBlocked
        (account strict 2%nat (after (redeem strict) (after (request strict) w0)))
      = Some true
   /\ option_map User.verification
        (account strict 2%nat (after (redeem strict) (after (request strict) w0)))
      = Some "0"
   /\ fst (redeem strict (after (redeem strict) (after (request strict) w0)))
      = Return (Status BAD_REQUEST)).
Proof. cbv zeta. repeat split. Qed.

(** C8: alice changes her email at time 1000 with a window of 3600000.  The
    request is saved unverified with [expires] = 3600000, the length of
    the window, not 3601000; the account gets blockExpires =
    verificationExpires = 3601000. *)
Theorem changeEmail_request_expires :
  let E := sample_env false both_tokens in
  let w0 := sample_world [alice; bob] 1000 in
  let call := changeEmail E 1%nat "alice@example.org" "alice@example.net" "ip" "ua" "fp" in
  clock w0 + HOURS_TO_VERIFY E = 3601000
  /\ map ChangePrimaryData.expires (changes (after call w0)) = [3600000]
  /\ map ChangePrimaryData.verified (changes (after call w0)) = [false]
  /\ option_map User.blockExpires (account E 1%nat (after call w0)) = Some 3601000
  /\ option_map User.verificationExpires (account E 1%nat (after call w0)) = Some 3601000.
Proof. cbv zeta. repeat split. Qed.

(** ** Forgotten passwords *)

Lemma String_eqb_neq (a b : string) : a <> b -> String.eqb a b = false.
Proof. intros H. apply String.eqb_neq. exact H. Qed.

(** C9, as the code has it: a redeem whose two secrets differ writes
    nothing, so the account's credential and the vault's salt stay as they
    are; it answers PASSWORDS_DOES_NOT_MATCH when a request carries the token
    and BAD_REQUEST when none does. *)
Theorem verifyPasswordReset_mismatch (E : Env)
  (email verification newPassword newPasswordVerification : string) (w : World) :
  newPassword <> newPasswordVerification ->
  verifyPasswordReset E email verification newPassword newPasswordVerification w
  = (Return
       (if exists_ sat_forgot [ForgotPassword.by_verification verification]
             (forgots w)
        then RpcException_key PASSWORDS_DOES_NOT_MATCH (value_of PASSWORDS_DOES_NOT_MATCH)
        else Status BAD_REQUEST),
     w).
Proof.
  intros Hne. unfold verifyPasswordReset, try_catch, bind, forgotModel_exists, gets.
  destruct (exists_ sat_forgot _ (forgots w)); [|reflexivity].
  rewrite (String_eqb_neq _ _ Hne). reflexivity.
Qed.

Lemma verifyPasswordReset_mismatch_witness :
  "new-secret" <> "new-secert"
  /\ verifyPasswordReset (sample_env false both_tokens) "alice@example.org" "0"
       "new-secret" "new-secert"
       (after (restPassword (sample_env false both_tokens) "ip" "ua" "fp"
                 "alice@example.org")
          (sample_world [alice; bob] 1000))
     = (Return (RpcException_key PASSWORDS_DOES_NOT_MATCH
                  (value_of PASSWORDS_DOES_NOT_MATCH)),
        after (restPassword (sample_env false both_tokens) "ip" "ua" "fp"
                 "alice@example.org")
          (sample_world [alice; bob] 1000)).
Proof.
  split; [discriminate|].
  apply (verifyPasswordReset_mismatch (sample_env false both_tokens)
           "alice@example.org" "0" "new-secret" "new-secert").
  discriminate.
Defined.

(** No request carries the token: the two secrets differ and the answer is
    BAD_REQUEST, not PASSWORDS_DOES_NOT_MATCH. *)
Lemma verifyPasswordReset_mismatch_unknown_token :
  "new-secret" <> "new-secert"
  /\ fst (verifyPasswordReset (sample_env false both_tokens) "alice@example.org"
            "no-such-token" "new-secret" "new-secert"
            (sample_world [alice; bob] 1000))
     = Return (Status BAD_REQUEST)
  /\ Status BAD_REQUEST
     <> RpcException_key PASSWORDS_DOES_NOT_MATCH (value_of PASSWORDS_DOES_NOT_MATCH).
Proof. repeat split; discriminate. Qed.

(** C10: the existence check of a redeem reads the token and nothing
    else.  With a token no request carries the answer is BAD_REQUEST and
    nothing is written, whatever the email and the secrets.  With a token
    some request carries, whatever the email the request was made for, and
    the two secrets agreeing, the redeem succeeds; the account written is
    the one the [email] of the call names, and the email of the request is
    never read. *)
Theorem verifyPasswordReset_account_by_email (E : Env)
  (email verification newPassword : string) (w : World) :
  (~ In verification (map ForgotPassword.verification (forgots w)) ->
   forall newPasswordVerification,
     verifyPasswordReset E email verification newPassword newPasswordVerification w
     = (Return (Status BAD_REQUEST), w))
  /\ (forall (request : ForgotPassword.t) (user : User.t),
        In request (forgots w) ->
        ForgotPassword.verification request = verification ->
        findOne (sat_user E) [User.by_email email] (users w) = Some user ->
        let salt := entropy E (drawn w) in
        let digest :=
          {| d_options := password_options;
             d_salt := entropy E (S (drawn w));
             d_raw := argon2_raw E password_options (entropy E (S (drawn w)))
                        (salt ++ newPassword) |} in
        let result :=
          verifyPasswordReset E email verification newPassword newPassword w in
        fst result = Return (Status OK)
        /\ users (snd result)
           = updateOne (sat_user E) [User.by_id (User._id user)]
               (User.assign (User.set_password digest)) (users w)
        /\ vaults (snd result)
           = updateOne (sat_vault E) [Vault.by_user (User._id user)]
               (fun v => {| Vault.user := Vault.user v; Vault.salt := salt |}) (vaults w)
        /\ account E (User._id user) (snd result)
           = option_map (User.assign (User.set_password digest))
               (account E (User._id user) w)).
Proof.
  split.
  { intros Hnone newPasswordVerification.
    assert (Hex : exists_ sat_forgot [ForgotPassword.by_verification verification]
                    (forgots w) = false).
    { unfold exists_. revert Hnone. generalize (forgots w). intros l.
      induction l as [|x l IH]; intros Hnone; [reflexivity|].
      cbn [existsb]. cbn [map In] in Hnone.
      rewrite IH by (intros Hin; apply Hnone; right; exact Hin).
      unfold matches. cbn.
      destruct (String.eqb (ForgotPassword.verification x) verification) eqn:Hx;
        [|reflexivity].
      apply String.eqb_eq in Hx. exfalso. apply Hnone. left. exact Hx. }
    unfold verifyPasswordReset. apply try_catch_return.
    rewrite (bind_run _ _ w w false)
      by (unfold forgotModel_exists, gets; rewrite Hex; reflexivity).
    reflexivity. }
  intros request user Hin Htok Hfind salt digest result.
  assert (Hex : exists_ sat_forgot [ForgotPassword.by_verification verification]
                  (forgots w) = true).
  { unfold exists_. apply existsb_exists. exists request. split; [exact Hin|].
    unfold matches. cbn. rewrite Htok, String_eqb_refl. reflexivity. }
  assert (Hrun : result =
    (Return (Status OK),
     with_vaults
       (updateOne (sat_vault E) [Vault.by_user (User._id user)]
          (fun v => {| Vault.user := Vault.user v; Vault.salt := salt |}))
       (with_users
          (updateOne (sat_user E) [User.by_id (User._id user)]
             (User.update [User.set_password digest]))
          (with_drawn (S (S (drawn w))) w)))).
  { subst result. unfold verifyPasswordReset.
    apply try_catch_return.
    rewrite (bind_run _ _ w w true) by (unfold forgotModel_exists, gets; rewrite Hex; reflexivity).
    rewrite String_eqb_refl.
    rewrite (bind_run _ _ w w (Some user))
      by (unfold userModel_findOne, gets; rewrite Hfind; reflexivity).
    rewrite (bind_run _ _ w (with_drawn (S (drawn w)) w) salt) by reflexivity.
    rewrite (bind_run _ _ _ _ _ (generatePassword_run E newPassword salt _)).
    reflexivity. }
  rewrite Hrun. cbn [fst snd users vaults with_vaults with_users with_drawn].
  repeat split.
  unfold account. cbn [users with_vaults with_users with_drawn].
  generalize (users w). intros l. induction l as [|x l IH]; [reflexivity|].
  cbn [updateOne]. rewrite matches_by_id. unfold findOne in *. cbn [find].
  rewrite !matches_by_id.
  destruct (Nat.eqb (User._id x) (User._id user)) eqn:Hx.
  - cbn [find]. rewrite matches_by_id.
    change (User._id (User.update [User.set_password digest] x)) with (User._id x).
    rewrite Hx. reflexivity.
  - cbn [find]. rewrite matches_by_id, Hx. exact IH.
Qed.

Lemma verifyPasswordReset_account_by_email_witness :
  let E := sample_env false both_tokens in
  let w := after (restPassword E "ip" "ua" "fp" "alice@example.org")
             (sample_world [alice; bob] 1000) in
  map ForgotPassword.email (forgots w) = ["alice@example.org"]
  /\ map ForgotPassword.verification (forgots w) = ["0"]
  /\ verifyPasswordReset E "alice@example.org" "1" "mallory" "mallory" w
     = (Return (Status BAD_REQUEST), w)
  /\ "alice@example.org" <> "bob@example.org"
  /\ fst (verifyPasswordReset E "bob@example.org" "0" "mallory" "mallory" w)
     = Return (Status OK)
  /\ option_map User.password
       (account E 2%nat (snd (verifyPasswordReset E "bob@example.org" "0" "mallory" "mallory" w)))
     = Some (sample_digest "2" "1" "mallory")
  /\ option_map User.password
       (account E 1%nat (snd (verifyPasswordReset E "bob@example.org" "0" "mallory" "mallory" w)))
     = Some (User.password alice).
Proof.
  cbv zeta. split; [reflexivity|]. split; [reflexivity|]. split.
  { apply (proj1 (verifyPasswordReset_account_by_email (sample_env false both_tokens)
                    "alice@example.org" "1" "mallory"
                    (after (restPassword (sample_env false both_tokens) "ip" "ua" "fp"
                              "alice@example.org")
                       (sample_world [alice; bob] 1000)))).
    intros [H|[]]. discriminate H. }
  split; [discriminate|].
  destruct (proj2 (verifyPasswordReset_account_by_email (sample_env false both_tokens)
                     "bob@example.org" "0" "mallory"
                     (after (restPassword (sample_env false both_tokens) "ip" "ua" "fp"
                               "alice@example.org")
                        (sample_world [alice; bob] 1000)))
              {| ForgotPassword.email := "alice@example.org";
                 ForgotPassword.verification := "0";
                 ForgotPassword.expires := 1000 + 3600000;
                 ForgotPassword.ipOfRequest := "ip";
                 ForgotPassword.browserOfRequest := "ua";
                 ForgotPassword.fingerprintOfRequest := "fp" |}
              bob (or_introl eq_refl) eq_refl eq_refl) as [Hok [Husers _]].
  split; [exact Hok|].
  unfold account. rewrite Husers. split; reflexivity.
Defined.

(** * Further properties *)

(** ** Collections, continued *)

Lemma exists_insert {Doc Cond : Type} (sat : Cond -> Doc -> bool) (q : list Cond)
  (l : list Doc) (x : Doc) :
  exists_ sat q (insert x l) = exists_ sat q l || matches sat q x.
Proof.
  unfold exists_, insert. rewrite existsb_app. cbn [existsb].
  rewrite orb_false_r. reflexivity.
Qed.

Lemma findOne_None {Doc Cond : Type} (sat : Cond -> Doc -> bool) (q : list Cond)
  (l : list Doc) :
  findOne sat q l = None <-> exists_ sat q l = false.
Proof.
  unfold findOne, exists_. induction l as [|d l IH]; cbn [find existsb]; [tauto|].
  destruct (matches sat q d); cbn [orb]; [split; discriminate|exact IH].
Qed.

Lemma findOne_insert_fresh {Doc Cond : Type} (sat : Cond -> Doc -> bool)
  (q : list Cond) (l : list Doc) (x : Doc) :
  exists_ sat q l = false ->
  findOne sat q (insert x l) = if matches sat q x then Some x else None.
Proof.
  unfold findOne, exists_, insert. induction l as [|d l IH]; cbn [find existsb app].
  - reflexivity.
  - destruct (matches sat q d); cbn [orb]; [discriminate|exact IH].
Qed.

Lemma updateOne_insert_fresh {Doc Cond : Type} (sat : Cond -> Doc -> bool)
  (q : list Cond) (f : Doc -> Doc) (l : list Doc) (x : Doc) :
  exists_ sat q l = false ->
  matches sat q x = true ->
  updateOne sat q f (insert x l) = insert (f x) l.
Proof.
  unfold exists_, insert. intros Hl Hx.
  induction l as [|d l IH]; cbn [updateOne existsb app] in *.
  - rewrite Hx. reflexivity.
  - destruct (matches sat q d); cbn [orb] in Hl; [discriminate|].
    rewrite (IH Hl). reflexivity.
Qed.

(** A filter that asks for more finds nothing where one that asks for less
    finds nothing. *)
Lemma exists_stronger {Doc C1 C2 : Type} (s1 : C1 -> Doc -> bool)
  (s2 : C2 -> Doc -> bool) (q1 : list C1) (q2 : list C2) (l : list Doc) :
  (forall d, matches s2 q2 d = true -> matches s1 q1 d = true) ->
  exists_ s1 q1 l = false -> exists_ s2 q2 l = false.
Proof.
  intros Himp. unfold exists_. induction l as [|d l IH]; cbn [existsb]; [auto|].
  intros H. apply orb_false_iff in H. destruct H as [Hd Hl].
  rewrite (IH Hl), orb_false_r.
  destruct (matches s2 q2 d) eqn:Hm; [|reflexivity].
  rewrite (Himp d Hm) in Hd. discriminate.
Qed.

Lemma updateOne_length {Doc Cond : Type} (sat : Cond -> Doc -> bool) (q : list Cond)
  (f : Doc -> Doc) (l : list Doc) :
  List.length (updateOne sat q f l) = List.length l.
Proof.
  induction l as [|d l IH]; [reflexivity|].
  cbn [updateOne]. destruct (matches sat q d); cbn [List.length]; congruence.
Qed.

(** An update that takes the document it changes out of the filter leaves
    one match less. *)
Lemma updateOne_consumes {Doc Cond : Type} (sat : Cond -> Doc -> bool)
  (q : list Cond) (f : Doc -> Doc) (l : list Doc) :
  (forall d, matches sat q (f d) = false) ->
  exists_ sat q l = true ->
  List.length (filter (matches sat q) l)
  = S (List.length (filter (matches sat q) (updateOne sat q f l))).
Proof.
  intros Hout. unfold exists_.
  induction l as [|d l IH]; cbn [existsb filter updateOne]; [discriminate|].
  destruct (matches sat q d) eqn:Hd; cbn [orb]; intros Hex.
  - cbn [filter]. rewrite Hout. reflexivity.
  - cbn [filter]. rewrite Hd. apply IH. exact Hex.
Qed.

Lemma filter_none_exists {Doc Cond : Type} (sat : Cond -> Doc -> bool)
  (q : list Cond) (l : list Doc) :
  List.length (filter (matches sat q) l) = 0%nat -> exists_ sat q l = false.
Proof.
  unfold exists_. induction l as [|d l IH]; cbn [filter existsb]; [auto|].
  destruct (matches sat q d); cbn [List.length orb]; [discriminate|exact IH].
Qed.

(** ** Registration *)

(** The probe reads the accounts and writes none of the collections. *)
Lemma validatePasswordUniqueness_keeps (E : Env) (fuel : nat) (password : string) :
  forall w,
    users (snd (_validatePasswordUniqueness E fuel password w)) = users w
    /\ vaults (snd (_validatePasswordUniqueness E fuel password w)) = vaults w
    /\ changes (snd (_validatePasswordUniqueness E fuel password w)) = changes w
    /\ forgots (snd (_validatePasswordUniqueness E fuel password w)) = forgots w
    /\ clock (snd (_validatePasswordUniqueness E fuel password w)) = clock w.
Proof.
  induction fuel as [|fuel IH]; intros w; [repeat split|].
  rewrite validatePasswordUniqueness_unroll. cbv zeta.
  destruct (counter w <=? MAXIMUM_PASSWORD_VALIDATIONS E); [|repeat split].
  destruct (exists_ _ _ (users w)); [|repeat split].
  specialize (IH (with_drawn (S (S (drawn w))) w)).
  destruct (_validatePasswordUniqueness E fuel password _) as [[v|e|] w''];
    exact IH.
Qed.

(** The [error] object of [register], field by field in the order the
    checks run. *)
Lemma register_error_fields (e u p t : bool) :
  (let error := if e then set_field "email" EMAIL_ALREADY_EXISTS [] else [] in
   let error := if u then set_field "username" USERNAME_ALREADY_EXISTS error else error in
   let error := if p then set_field "password" INVALID_PASSWORD error else error in
   if t then set_field "phoneNumber" TEL_NUM_ALREADY_EXISTS error else error)
  = ((if e then [("email", EMAIL_ALREADY_EXISTS)] else [])
     ++ (if u then [("username", USERNAME_ALREADY_EXISTS)] else [])
     ++ (if p then [("password", INVALID_PASSWORD)] else [])
     ++ (if t then [("phoneNumber", TEL_NUM_ALREADY_EXISTS)] else []))%list.
Proof. destruct e, u, p, t; reflexivity. Qed.

(** [register] up to the test of the [error] object. *)
Lemma register_checks (E : Env) (fuel : nat) (blank : User.t) (dto : SignUpDto)
  (w w1 : World) (unique : Verdict) :
  _validatePasswordUniqueness E fuel (su_password dto) w = (Return unique, w1) ->
  let error := register_error E dto unique w in
  register E fuel blank dto w =
    try_catch
      (if negb (_isEmpty error) then ret (plain (RpcException_fields error)) else
       if String.eqb (su_password dto) (su_passwordVerification dto)
       then
         salt <- draw E ;;
         password <- _generatePassword E (su_password dto) salt ;;
         let user :=
           User.update [User.set_email (su_email dto);
                        User.set_username (su_username dto);
                        User.set_phoneNumber (su_phoneNumber dto);
                        User.set_password password] blank in
         let vault := {| Vault.user := User._id user; Vault.salt := salt |} in
         verification <- draw E ;;
         let user := User.assign (User.set_verification verification) user in
         modify (with_users (insert user)) ;;
         modify (with_vaults (insert vault)) ;;
         client_send_user "add-welcome-chat" (User._id user) ;;
         sent <- client_send "verify" (User.verification user) (User.email user)
                   "VERIFY_EMAIL" ;;
         ret (plain sent)
       else ret (plain undefined))
      (fun e => ret (RpcException_caught e)) w1.
Proof.
  intros Hv error. subst error. unfold register_error.
  destruct (validatePasswordUniqueness_keeps E fuel (su_password dto) w) as [Hu _].
  rewrite Hv in Hu. cbn [snd] in Hu.
  rewrite <- register_error_fields.
  unfold register, try_catch.
  erewrite bind_run by reflexivity.
  erewrite bind_run by reflexivity.
  rewrite (bind_run _ _ _ _ _ Hv).
  erewrite bind_run by reflexivity.
  rewrite Hu. reflexivity.
Qed.

(** X1: when a check of [register] fails, the answer is one RpcException
    carrying a field for every check that failed, and no account and no
    vault is created. *)
Theorem register_conflict (E : Env) (fuel : nat) (blank : User.t) (dto : SignUpDto)
  (w w1 : World) (unique : Verdict) :
  _validatePasswordUniqueness E fuel (su_password dto) w = (Return unique, w1) ->
  register_error E dto unique w <> [] ->
  register E fuel blank dto w
  = (Return (plain (RpcException_fields (register_error E dto unique w))), w1)
  /\ users w1 = users w /\ vaults w1 = vaults w.
Proof.
  intros Hv Hne.
  destruct (validatePasswordUniqueness_keeps E fuel (su_password dto) w)
    as [Hu [Hva _]].
  rewrite Hv in Hu, Hva. cbn [snd] in Hu, Hva.
  rewrite (register_checks E fuel blank dto w w1 unique Hv). cbv zeta.
  destruct (register_error E dto unique w) as [|f error]; [contradiction|].
  auto.
Qed.

Lemma register_conflict_witness :
  let E := sample_env false both_tokens in
  let w := sample_world [alice; bob] 1000 in
  let dto := erin_as "alice@example.org" "erin-secret" in
  register_error E dto js_true w = [("email", EMAIL_ALREADY_EXISTS)]
  /\ register E 1 erin_blank dto w
     = (Return (plain (RpcException_fields [("email", EMAIL_ALREADY_EXISTS)])),
        probed E dto w)
  /\ users (probed E dto w) = [alice; bob].
Proof.
  cbv zeta. split; [reflexivity|].
  destruct (register_conflict (sample_env false both_tokens) 1 erin_blank
              (erin_as "alice@example.org" "erin-secret")
              (sample_world [alice; bob] 1000)
              (probed (sample_env false both_tokens)
                 (erin_as "alice@example.org" "erin-secret")
                 (sample_world [alice; bob] 1000))
              js_true eq_refl) as (Hrun & Husers & _).
  - vm_compute. discriminate.
  - split; [exact Hrun | exact Husers].
Defined.

(** X2: when every check passes and the password and its confirmation
    differ, [register] answers nothing, not an error, and creates no account
    and no vault. *)
Theorem register_confirmation_differs (E : Env) (fuel : nat) (blank : User.t)
  (dto : SignUpDto) (w w1 : World) (unique : Verdict) :
  _validatePasswordUniqueness E fuel (su_password dto) w = (Return unique, w1) ->
  register_error E dto unique w = [] ->
  su_password dto <> su_passwordVerification dto ->
  register E fuel blank dto w = (Return (plain undefined), w1)
  /\ users w1 = users w /\ vaults w1 = vaults w.
Proof.
  intros Hv Hnone Hdiff.
  destruct (validatePasswordUniqueness_keeps E fuel (su_password dto) w)
    as [Hu [Hva _]].
  rewrite Hv in Hu, Hva. cbn [snd] in Hu, Hva.
  rewrite (register_checks E fuel blank dto w w1 unique Hv). cbv zeta.
  rewrite Hnone. cbn [_isEmpty negb].
  rewrite (String_eqb_neq _ _ Hdiff). auto.
Qed.

Lemma register_confirmation_differs_witness :
  let E := sample_env false both_tokens in
  let w := sample_world [alice; bob] 1000 in
  let dto := erin_as "erin@example.org" "erin-secert" in
  su_password dto <> su_passwordVerification dto
  /\ register E 1 erin_blank dto w = (Return (plain undefined), probed E dto w)
  /\ users (probed E dto w) = [alice; bob].
Proof.
  cbv zeta. split; [discriminate|].
  destruct (register_confirmation_differs (sample_env false both_tokens) 1 erin_blank
              (erin_as "erin@example.org" "erin-secert")
              (sample_world [alice; bob] 1000)
              (probed (sample_env false both_tokens)
                 (erin_as "erin@example.org" "erin-secert")
                 (sample_world [alice; bob] 1000))
              js_true eq_refl eq_refl) as (Hrun & Husers & _).
  - discriminate.
  - split; [exact Hrun | exact Husers].
Defined.

(** What [register] leaves when every check passed and the confirmation
    agrees. *)
Lemma register_run (E : Env) (fuel : nat) (blank : User.t) (dto : SignUpDto)
  (w w1 : World) (unique : Verdict) :
  _validatePasswordUniqueness E fuel (su_password dto) w = (Return unique, w1) ->
  register_error E dto unique w = [] ->
  su_password dto = su_passwordVerification dto ->
  let salt := entropy E (drawn w1) in
  let token := entropy E (S (S (drawn w1))) in
  let digest :=
    {| d_options := password_options;
       d_salt := entropy E (S (drawn w1));
       d_raw := argon2_raw E password_options (entropy E (S (drawn w1)))
                  (salt ++ su_password dto) |} in
  let user :=
    User.update [User.set_email (su_email dto);
                 User.set_username (su_username dto);
                 User.set_phoneNumber (su_phoneNumber dto);
                 User.set_password digest;
                 User.set_verification token] blank in
  register E fuel blank dto w
  = (Return (plain (Sent "verify" token (su_email dto) "VERIFY_EMAIL")),
     with_vaults (insert {| Vault.user := User._id blank; Vault.salt := salt |})
       (with_users (insert user) (with_drawn (S (S (S (drawn w1)))) w1))).
Proof.
  intros Hv Hnone Hsame salt token digest user.
  rewrite (register_checks E fuel blank dto w w1 unique Hv). cbv zeta.
  rewrite Hnone. cbn [_isEmpty negb].
  rewrite <- Hsame, String_eqb_refl.
  unfold try_catch.
  erewrite bind_run by reflexivity.
  rewrite (bind_run _ _ _ _ _ (generatePassword_run E _ _ _)).
  erewrite bind_run by reflexivity.
  reflexivity.
Qed.

(** X3: when every check passes and the confirmation agrees, [register]
    appends one account and one vault.  The account is the schema's blank
    document with the email, username and phone number of the request, the
    digest of the password and a fresh verification token; the vault holds
    the salt under the account's [_id]; the token is sent to the email; and
    the stored digest verifies against the vault's salt before the
    password. *)
Theorem register_creates (E : Env) (fuel : nat) (blank : User.t) (dto : SignUpDto)
  (w w1 : World) (unique : Verdict) :
  _validatePasswordUniqueness E fuel (su_password dto) w = (Return unique, w1) ->
  register_error E dto unique w = [] ->
  su_password dto = su_passwordVerification dto ->
  let salt := entropy E (drawn w1) in
  let token := entropy E (S (S (drawn w1))) in
  let result := register E fuel blank dto w in
  exists digest,
    fst result = Return (plain (Sent "verify" token (su_email dto) "VERIFY_EMAIL"))
    /\ users (snd result)
       = insert (User.update [User.set_email (su_email dto);
                              User.set_username (su_username dto);
                              User.set_phoneNumber (su_phoneNumber dto);
                              User.set_password digest;
                              User.set_verification token] blank) (users w)
    /\ vaults (snd result)
       = insert {| Vault.user := User._id blank; Vault.salt := salt |} (vaults w)
    /\ argon2_verify E digest (salt ++ su_password dto) = true.
Proof.
  intros Hv Hnone Hsame salt token result.
  destruct (validatePasswordUniqueness_keeps E fuel (su_password dto) w)
    as [Hu [Hva _]].
  rewrite Hv in Hu, Hva. cbn [snd] in Hu, Hva.
  subst result. rewrite (register_run E fuel blank dto w w1 unique Hv Hnone Hsame).
  cbv zeta. cbn [fst snd users vaults with_users with_vaults with_drawn].
  rewrite Hu, Hva. eexists.
  split; [reflexivity|]. split; [reflexivity|]. split; [reflexivity|].
  unfold argon2_verify. cbn. apply String_eqb_refl.
Qed.

Lemma register_creates_witness :
  let E := sample_env false both_tokens in
  let w := sample_world [alice; bob] 1000 in
  exists digest,
    fst (register E 1 erin_blank erin w)
    = Return (plain (Sent "verify" "4" "erin@example.org" "VERIFY_EMAIL"))
    /\ vaults (after (register E 1 erin_blank erin) w)
       = insert {| Vault.user := 5%nat; Vault.salt := "2" |} (vaults w)
    /\ argon2_verify E digest ("2" ++ "erin-secret") = true.
Proof.
  cbv zeta.
  destruct (register_creates (sample_env false both_tokens) 1 erin_blank erin
              (sample_world [alice; bob] 1000)
              (probed (sample_env false both_tokens) erin
                 (sample_world [alice; bob] 1000))
              js_true eq_refl eq_refl eq_refl) as (digest & Hrun & _ & Hvault & Hverify).
  exists digest. split; [exact Hrun|]. split; [exact Hvault | exact Hverify].
Defined.

Lemma activate_not_pending (email verification : string) (u : User.t) :
  matches holds [registration_pending email verification] (activate u) = false.
Proof.
  unfold matches, holds, registration_pending. cbn.
  rewrite andb_false_r. reflexivity.
Qed.

Lemma verifyRegistration_run (email verification : string) (w : World) :
  verifyRegistration email verification w
  = if exists_ holds [registration_pending email verification] (users w)
    then (Return (plain undefined),
          with_users
            (updateOne holds [registration_pending email verification] activate) w)
    else (Return RpcException_USER_NOT_FOUND, w).
Proof.
  unfold verifyRegistration, try_catch, bind, gets.
  destruct (exists_ holds _ (users w)); reflexivity.
Qed.

(** X4: [verifyRegistration] for an email and token that no inactive account
    carries together answers USER_NOT_FOUND and writes nothing. *)
Theorem verifyRegistration_unknown (email verification : string) (w : World) :
  exists_ holds [registration_pending email verification] (users w) = false ->
  verifyRegistration email verification w = (Return RpcException_USER_NOT_FOUND, w).
Proof.
  intros Hnone. rewrite verifyRegistration_run, Hnone. reflexivity.
Qed.

Lemma verifyRegistration_unknown_witness :
  verifyRegistration "dave@example.org" "nekot" (sample_world [alice; dave] 1000)
  = (Return RpcException_USER_NOT_FOUND, sample_world [alice; dave] 1000).
Proof.
  apply (verifyRegistration_unknown "dave@example.org" "nekot"
           (sample_world [alice; dave] 1000)).
  reflexivity.
Defined.

(** X5: when an inactive account carries the email and the token,
    [verifyRegistration] activates the first such account, clears its token
    and answers nothing; one account less is left waiting under that pair,
    so when there was one, the same call again answers USER_NOT_FOUND. *)
Theorem verifyRegistration_activates (email verification : string) (w : World) :
  exists_ holds [registration_pending email verification] (users w) = true ->
  let result := verifyRegistration email verification w in
  let waiting w :=
    List.length (filter (matches holds [registration_pending email verification])
                   (users w)) in
  fst result = Return (plain undefined)
  /\ users (snd result)
     = updateOne holds [registration_pending email verification] activate (users w)
  /\ waiting w = S (waiting (snd result))
  /\ (waiting w = 1%nat ->
      verifyRegistration email verification (snd result)
      = (Return RpcException_USER_NOT_FOUND, snd result)).
Proof.
  intros Hsome result waiting.
  assert (Hrun : result =
    (Return (plain undefined),
     with_users (updateOne holds [registration_pending email verification] activate) w)).
  { subst result. rewrite verifyRegistration_run, Hsome. reflexivity. }
  rewrite Hrun. cbn [fst snd]. subst waiting. cbn [users with_users].
  pose proof (updateOne_consumes holds [registration_pending email verification]
                activate (users w) (activate_not_pending email verification) Hsome)
    as Hless.
  repeat split; [exact Hless|].
  intros Hone. rewrite verifyRegistration_run. cbn [users with_users].
  rewrite filter_none_exists; [reflexivity|].
  rewrite Hone in Hless. injection Hless as <-. reflexivity.
Qed.

Lemma verifyRegistration_activates_witness :
  let w := sample_world [alice; dave] 1000 in
  fst (verifyRegistration "dave@example.org" "token" w) = Return (plain undefined)
  /\ users (after (verifyRegistration "dave@example.org" "token") w)
     = [alice; activate dave]
  /\ verifyRegistration "dave@example.org" "token"
       (after (verifyRegistration "dave@example.org" "token") w)
     = (Return RpcException_USER_NOT_FOUND,
        after (verifyRegistration "dave@example.org" "token") w).
Proof.
  cbv zeta.
  destruct (verifyRegistration_activates "dave@example.org" "token"
              (sample_world [alice; dave] 1000) eq_refl)
    as (Hrun & Husers & _ & Honce).
  split; [exact Hrun|]. split; [exact Husers|]. exact (Honce eq_refl).
Defined.

(** ** login, continued *)

Lemma find_same {A : Type} (f g : A -> bool) (l : list A) :
  (forall a, f a = g a) -> find f l = find g l.
Proof.
  intros H. induction l as [|a l IH]; [reflexivity|].
  cbn [find]. rewrite H, IH. reflexivity.
Qed.

Lemma find_never {A : Type} (l : list A) : find (fun _ => false) l = None.
Proof. induction l as [|a l IH]; [reflexivity|exact IH]. Qed.

(** The look-up of lines 178-193 reads the first account that [identifies]
    accepts, and writes nothing. *)
Lemma login_resolve_run (E : Env) (dto : LoginDto) (w : World) :
  exists error,
    login_resolve E dto w = (Return (find (identifies dto) (users w), error), w)
    /\ (forall u, find (identifies dto) (users w) = Some u -> error = []).
Proof.
  assert (Hby : forall (c : User.cond) (p : User.t -> bool),
             (forall u, p u = sat_user E c u) ->
             find p (users w) = findOne (sat_user E) [c] (users w)).
  { intros c p Hp. unfold findOne. apply find_same. intros u.
    unfold matches. cbn [forallb]. rewrite andb_true_r. apply Hp. }
  unfold login_resolve.
  destruct (truthy (dto_username dto)) eqn:Hu;
    [|destruct (truthy (dto_phoneNumber dto)) eqn:Hp;
      [|destruct (truthy (dto_email dto)) eqn:He]].
  - rewrite (Hby (User.by_username (dto_username dto)) (identifies dto))
      by (intros u; unfold identifies; rewrite Hu; reflexivity).
    unfold bind, userModel_findOne, gets, ret.
    destruct (findOne _ _ (users w)); eexists; (split; [reflexivity|congruence]).
  - rewrite (Hby (User.by_phoneNumber (dto_phoneNumber dto)) (identifies dto))
      by (intros u; unfold identifies; rewrite Hu, Hp; reflexivity).
    unfold bind, userModel_findOne, gets, ret.
    destruct (findOne _ _ (users w)); eexists; (split; [reflexivity|congruence]).
  - rewrite (Hby (User.by_email (dto_email dto)) (identifies dto))
      by (intros u; unfold identifies; rewrite Hu, Hp, He; reflexivity).
    unfold bind, userModel_findOne, gets, ret.
    destruct (findOne _ _ (users w)); eexists; (split; [reflexivity|congruence]).
  - exists []. split; [|reflexivity].
    rewrite (find_same (identifies dto) (fun _ => false) (users w))
      by (intros u; unfold identifies; rewrite Hu, Hp, He; reflexivity).
    rewrite find_never. reflexivity.
Qed.

Lemma login_resolve_identified (E : Env) (dto : LoginDto) (w : World) (u : User.t) :
  find (identifies dto) (users w) = Some u ->
  login_resolve E dto w = (Return (Some u, []), w).
Proof.
  intros Hf. destruct (login_resolve_run E dto w) as [error [Hrun Hnil]].
  rewrite Hrun, Hf, (Hnil u Hf). reflexivity.
Qed.

(** [login] on an active, unblocked account whose secret verifies comes
    down to the tokens. *)
Lemma login_verified_run (E : Env) (ip userAgent fingerprint : string)
  (dto : LoginDto) (w : World) (user : User.t) (vault : Vault.t) :
  login_resolve E dto w = (Return (Some user, []), w) ->
  User.isActive user = true ->
  User.isBlocked user = false ->
  vault_of E (User._id user) w = Some vault ->
  argon2_verify E (User.password user) (Vault.salt vault ++ dto_password dto) = true ->
  login E ip userAgent fingerprint dto w
  = try_catch
      (login_session E (after_unblock (clock w) user)
         (session_data E (clock w) ip userAgent fingerprint dto))
      log_and_drop (snd (login_unblock E user w)).
Proof.
  intros Hres Hact Hblk Hvault Hver.
  destruct (after_unblock_keeps (clock w) user) as [Hid [Hpw [Hatt _]]].
  assert (Hnb : User.isActive user && User.isBlocked user = false)
    by (rewrite Hact, Hblk; reflexivity).
  rewrite (login_found _ _ _ _ _ _ _ Hres).
  unfold try_catch at 1. rewrite (login_account_checks _ _ _ _ _ _ Hnb Hvault).
  rewrite (bind_run _ _ _ _ _
             (login_secret_right E _ _ _ _ _ ltac:(rewrite Hpw; exact Hver))).
  rewrite Hact. cbn [_isEmpty negb]. unfold try_catch.
  destruct (login_session E _ _ _) as [[r|e|] w2]; reflexivity.
Qed.

Lemma find_by_cond (E : Env) (c : User.cond) (p : User.t -> bool) (l : list User.t) :
  (forall u, p u = sat_user E c u) ->
  find p l = findOne (sat_user E) [c] l.
Proof.
  intros Hp. unfold findOne. apply find_same. intros u.
  unfold matches. cbn [forallb]. rewrite andb_true_r. apply Hp.
Qed.

Lemma register_error_nil (E : Env) (dto : SignUpDto) (unique : Verdict) (w : World) :
  register_error E dto unique w = [] ->
  exists_ (sat_user E) [User.by_email (su_email dto)] (users w) = false
  /\ exists_ (sat_user E) [User.by_username (su_username dto)] (users w) = false
  /\ Verdict_truthy unique = true
  /\ exists_ (sat_user E) [User.by_phoneNumber (su_phoneNumber dto)] (users w) = false.
Proof.
  unfold register_error.
  destruct (exists_ _ [User.by_email _] _), (exists_ _ [User.by_username _] _),
    (Verdict_truthy unique), (exists_ _ [User.by_phoneNumber _] _);
    cbn; intros H; try discriminate H; auto.
Qed.

(** X6: an account just registered is answered NOT_ACTIVE at [login], with
    the right password too; after [verifyRegistration] with the token that
    was sent, the same [login] is answered with the tokens of a session.
    The schema is taken to make accounts inactive, unblocked and with no
    block expiry, under an [_id] no account and no vault has yet. *)
Theorem register_verify_login (E : Env) (fuel : nat) (blank : User.t)
  (dto : SignUpDto) (w w1 : World) (unique : Verdict)
  (ip userAgent fingerprint accessToken refreshToken : string) :
  _validatePasswordUniqueness E fuel (su_password dto) w = (Return unique, w1) ->
  register_error E dto unique w = [] ->
  su_password dto = su_passwordVerification dto ->
  truthy (su_username dto) = true ->
  User.isActive blank = false ->
  User.isBlocked blank = false ->
  User.blockExpires blank = 0 ->
  exists_ (sat_user E) [User.by_id (User._id blank)] (users w) = false ->
  exists_ (sat_vault E) [Vault.by_user (User._id blank)] (vaults w) = false ->
  let by_name :=
    {| rememberMe := false; dto_username := su_username dto;
       dto_phoneNumber := ""; dto_email := ""; dto_password := su_password dto |} in
  generateJWT E (User._id blank)
    (session_data E (clock w) ip userAgent fingerprint by_name)
  = Some (accessToken, refreshToken) ->
  truthy accessToken && truthy refreshToken = true ->
  let token := entropy E (S (S (drawn w1))) in
  let registered := after (register E fuel blank dto) w in
  let verified := after (verifyRegistration (su_email dto) token) registered in
  login E ip userAgent fingerprint by_name registered
  = (Return (RpcException_fields [("internalFailure", NOT_ACTIVE)]), registered)
  /\ fst (verifyRegistration (su_email dto) token registered) = Return (plain undefined)
  /\ exists view,
       fst (login E ip userAgent fingerprint by_name verified)
       = Return (Session view accessToken refreshToken)
       /\ ud_id view = User._id blank
       /\ ud_email view = su_email dto
       /\ ud_username view = su_username dto.
Proof.
  intros Hv Hnone Hsame Hname Hinactive Hunblocked Hnoexp Hfresh Hfreshv by_name
    Hjwt Htokens token registered verified.
  destruct (register_error_nil E dto unique w Hnone) as [Hemail [Husername [_ _]]].
  destruct (validatePasswordUniqueness_keeps E fuel (su_password dto) w)
    as [Hu [Hva [_ [_ Hclock]]]].
  rewrite Hv in Hu, Hva, Hclock. cbn [snd] in Hu, Hva, Hclock.
  pose proof (register_run E fuel blank dto w w1 unique Hv Hnone Hsame) as Hreg.
  cbv zeta in Hreg.
  set (digest := {| d_options := password_options;
                    d_salt := entropy E (S (drawn w1));
                    d_raw := _ |}) in Hreg.
  set (user := User.update _ blank) in Hreg.
  set (vault := {| Vault.user := User._id blank; Vault.salt := _ |}) in Hreg.
  assert (Hregistered : registered =
            with_vaults (insert vault)
              (with_users (insert user) (with_drawn (S (S (S (drawn w1)))) w1)))
    by (subst registered; unfold after; rewrite Hreg; reflexivity).
  assert (Husers : users registered = insert user (users w))
    by (rewrite Hregistered; cbn [users with_vaults with_users with_drawn];
        rewrite Hu; reflexivity).
  assert (Hvaults : vaults registered = insert vault (vaults w))
    by (rewrite Hregistered; cbn [vaults with_vaults with_users with_drawn];
        rewrite Hva; reflexivity).
  assert (Hclock2 : clock registered = clock w)
    by (rewrite Hregistered; cbn [clock with_vaults with_users with_drawn];
        exact Hclock).
  assert (Hidentifies : forall u, identifies by_name u
                                  = sat_user E (User.by_username (su_username dto)) u).
  { intros u. unfold identifies, by_name. cbn [dto_username]. rewrite Hname.
    reflexivity. }
  assert (Hverify : argon2_verify E digest (Vault.salt vault ++ su_password dto) = true).
  { unfold argon2_verify. subst digest vault. cbn. apply String_eqb_refl. }
  (* the account is found by its name, before and after verification *)
  assert (Hfound : forall (x : User.t) (ww : World),
             users ww = insert x (users w) ->
             User.username x = su_username dto ->
             login_resolve E by_name ww = (Return (Some x, []), ww)).
  { intros x ww Hww Hx. apply login_resolve_identified.
    rewrite (find_by_cond E _ _ _ Hidentifies), Hww.
    rewrite (findOne_insert_fresh _ _ _ _ Husername).
    unfold matches. cbn. rewrite Hx, String_eqb_refl. reflexivity. }
  assert (Hvault : forall ww, vaults ww = insert vault (vaults w) ->
                              vault_of E (User._id blank) ww = Some vault).
  { intros ww Hww. unfold vault_of. rewrite Hww.
    rewrite (findOne_insert_fresh _ _ _ _ Hfreshv).
    unfold matches. cbn. rewrite Nat.eqb_refl. reflexivity. }
  split.
  { apply (login_inactive_right_secret E ip userAgent fingerprint by_name
             registered user vault).
    - apply Hfound; [exact Husers|reflexivity].
    - exact Hinactive.
    - apply Hvault. exact Hvaults.
    - exact Hverify. }
  (* verification *)
  assert (Hpending : matches holds [registration_pending (su_email dto) token] user
                     = true).
  { unfold matches, holds, registration_pending. subst user. cbn.
    rewrite !String_eqb_refl, Hinactive. reflexivity. }
  assert (Hnopending : exists_ holds [registration_pending (su_email dto) token]
                         (users w) = false).
  { apply (exists_stronger (sat_user E) holds [User.by_email (su_email dto)]);
      [|exact Hemail].
    intros d. unfold matches, holds, registration_pending. cbn.
    destruct (String.eqb (User.email d) (su_email dto)); [reflexivity|].
    discriminate. }
  pose proof (verifyRegistration_run (su_email dto) token registered) as Hver.
  rewrite Husers, exists_insert, Hnopending, Hpending in Hver. cbn [orb] in Hver.
  split; [rewrite Hver; reflexivity|].
  assert (Husers3 : users verified = insert (activate user) (users w)).
  { subst verified. unfold after. rewrite Hver. cbn [snd users with_users].
    rewrite Husers. apply updateOne_insert_fresh; assumption. }
  assert (Hvaults3 : vaults verified = insert vault (vaults w))
    by (subst verified; unfold after; rewrite Hver; exact Hvaults).
  assert (Hclock3 : clock verified = clock w)
    by (subst verified; unfold after; rewrite Hver; exact Hclock2).
  assert (Hstale : stale_block (activate user) (clock verified) = false).
  { unfold stale_block. subst user. cbn. rewrite Hnoexp. reflexivity. }
  exists (userData (activate user)).
  rewrite (login_verified_run E ip userAgent fingerprint by_name verified
             (activate user) vault).
  - rewrite login_unblock_run. unfold after_unblock. rewrite Hstale. cbn [snd].
    rewrite login_session_run, Hclock3.
    change (User._id (activate user)) with (User._id blank).
    rewrite Hjwt, Htokens. repeat split.
  - apply Hfound; [exact Husers3|reflexivity].
  - reflexivity.
  - subst user. cbn. exact Hunblocked.
  - apply Hvault. exact Hvaults3.
  - exact Hverify.
Qed.

Lemma register_verify_login_witness :
  let E := sample_env false both_tokens in
  let w := sample_world [alice; bob] 1000 in
  let registered := after (register E 1 erin_blank erin) w in
  let verified := after (verifyRegistration "erin@example.org" "4") registered in
  login E "ip" "ua" "fp" (login_by_username "erin" "erin-secret") registered
  = (Return (RpcException_fields [("internalFailure", NOT_ACTIVE)]), registered)
  /\ exists view,
       fst (login E "ip" "ua" "fp" (login_by_username "erin" "erin-secret") verified)
       = Return (Session view "access" "refresh")
       /\ ud_email view = "erin@example.org".
Proof.
  cbv zeta.
  destruct (register_verify_login (sample_env false both_tokens) 1 erin_blank erin
              (sample_world [alice; bob] 1000)
              (probed (sample_env false both_tokens) erin
                 (sample_world [alice; bob] 1000))
              js_true "ip" "ua" "fp" "access" "refresh"
              eq_refl eq_refl eq_refl eq_refl eq_refl eq_refl eq_refl eq_refl eq_refl
              eq_refl eq_refl)
    as (Hbefore & _ & view & Hafter & _ & Hemail & _).
  split; [exact Hbefore|]. exists view. split; [exact Hafter | exact Hemail].
Defined.

(** ** Profile data *)

Lemma updateOne_then_find {Doc Cond : Type} (sat : Cond -> Doc -> bool)
  (q : list Cond) (f : Doc -> Doc) (l : list Doc) (d : Doc) :
  findOne sat q l = Some d ->
  matches sat q (f d) = true ->
  findOne sat q (updateOne sat q f l) = Some (f d).
Proof.
  unfold findOne. intros Hfind Hkeep.
  induction l as [|x l IH]; cbn [find updateOne] in *; [discriminate|].
  destruct (matches sat q x) eqn:Hx.
  - injection Hfind as ->. cbn [find]. rewrite Hkeep. reflexivity.
  - cbn [find]. rewrite Hx. apply IH. exact Hfind.
Qed.

Lemma updateOne_none {Doc Cond : Type} (sat : Cond -> Doc -> bool)
  (q : list Cond) (f : Doc -> Doc) (l : list Doc) :
  findOne sat q l = None -> updateOne sat q f l = l.
Proof.
  unfold findOne. induction l as [|x l IH]; cbn [find updateOne]; [reflexivity|].
  destruct (matches sat q x); [discriminate|].
  intros H. rewrite (IH H). reflexivity.
Qed.

(** X7: on an active account [addOrChangeOptionalData] stores the first
    name, last name and birthday the request has as own properties, keeps
    the stored value of each one it lacks, answers the public view of the
    account as stored, and leaves every other path of the account as it
    was, blocked or not. *)
Theorem addOrChangeOptionalData_active (E : Env) (userId : ObjectId)
  (dto : AddOrUpdateOptionalDataDto) (w : World) (user : User.t) :
  findOne (sat_user E) [User.by_id userId; User.by_isActive true] (users w) = Some user ->
  account E userId w = Some user ->
  let stored :=
    set_optional (given (od_firstName dto) (User.firstName user))
      (given (od_lastName dto) (User.lastName user))
      (given (od_birthday dto) (User.birthday user)) user in
  let result := addOrChangeOptionalData E userId dto w in
  fst result = Return (Data (userData stored))
  /\ account E userId (snd result) = Some stored
  /\ User.email stored = User.email user
  /\ User.username stored = User.username user
  /\ User.phoneNumber stored = User.phoneNumber user
  /\ User.password stored = User.password user
  /\ User.isBlocked stored = User.isBlocked user
  /\ User.loginAttempts stored = User.loginAttempts user
  /\ User.photo stored = User.photo user
  /\ vaults (snd result) = vaults w.
Proof.
  intros Hactive Hacc stored result.
  assert (Hmatch : matches (sat_user E) [User.by_id userId] stored = true)
    by (apply (findOne_In _ _ _ _ Hacc)).
  assert (Hown : forall own path ww,
             own_or own (Some user) path ww = (Return (given own (path user)), ww))
    by (intros [v|] path ww; reflexivity).
  assert (Hrun : result =
            (Return (Data (userData stored)),
             with_users (updateOne (sat_user E) [User.by_id userId]
                           (fun u => set_optional
                                       (given (od_firstName dto) (User.firstName user))
                                       (given (od_lastName dto) (User.lastName user))
                                       (given (od_birthday dto) (User.birthday user)) u))
               w)).
  { subst result. unfold addOrChangeOptionalData. apply try_catch_return.
    rewrite (bind_run _ _ w w (Some user))
      by (unfold userModel_findOne, gets; rewrite Hactive; reflexivity).
    rewrite (bind_run _ _ _ _ _ (Hown _ _ _)).
    rewrite (bind_run _ _ _ _ _ (Hown _ _ _)).
    rewrite (bind_run _ _ _ _ _ (Hown _ _ _)).
    erewrite bind_run by reflexivity.
    erewrite bind_run.
    2:{ unfold userModel_findOne, gets. cbn [users with_users].
        unfold account in Hacc.
        rewrite (updateOne_then_find _ _
                   (set_optional (given (od_firstName dto) (User.firstName user))
                      (given (od_lastName dto) (User.lastName user))
                      (given (od_birthday dto) (User.birthday user)))
                   _ _ Hacc Hmatch).
        reflexivity. }
    reflexivity. }
  rewrite Hrun. cbn [fst snd]. split; [reflexivity|]. split.
  - unfold account in *. cbn [users with_users].
    apply (updateOne_then_find _ _
             (set_optional (given (od_firstName dto) (User.firstName user))
                (given (od_lastName dto) (User.lastName user))
                (given (od_birthday dto) (User.birthday user)))
             _ _ Hacc Hmatch).
  - repeat split.
Qed.

Lemma addOrChangeOptionalData_active_witness :
  let E := sample_env false both_tokens in
  let w := sample_world [alice; bob] 1000 in
  let dto := {| od_firstName := Some "Alicia"; od_lastName := None;
                od_birthday := Some "2000-01-01" |} in
  exists stored,
    fst (addOrChangeOptionalData E 1%nat dto w) = Return (Data (userData stored))
    /\ account E 1%nat (after (addOrChangeOptionalData E 1%nat dto) w) = Some stored
    /\ User.firstName stored = "Alicia"
    /\ User.lastName stored = "A"
    /\ User.birthday stored = "2000-01-01"
    /\ User.password stored = User.password alice.
Proof.
  cbv zeta.
  destruct (addOrChangeOptionalData_active (sample_env false both_tokens) 1%nat
              {| od_firstName := Some "Alicia"; od_lastName := None;
                 od_birthday := Some "2000-01-01" |}
              (sample_world [alice; bob] 1000) alice eq_refl eq_refl)
    as (Hrun & Hstored & _ & _ & _ & Hpassword & _).
  eexists. split; [exact Hrun|]. split; [exact Hstored|].
  repeat split.
Defined.

(** X8: with no active account under [userId], [addOrChangeOptionalData]
    reads the missing document only for a property the request lacks: a
    request lacking one is answered nothing and writes nothing, while a
    request with all three is applied to the account under [userId], active
    or not. *)
Theorem addOrChangeOptionalData_not_active (E : Env) (userId : ObjectId)
  (dto : AddOrUpdateOptionalDataDto) (w : World) :
  findOne (sat_user E) [User.by_id userId; User.by_isActive true] (users w) = None ->
  (od_firstName dto = None \/ od_lastName dto = None \/ od_birthday dto = None ->
   addOrChangeOptionalData E userId dto w = (Return undefined, w))
  /\ (forall firstName lastName birthday user,
        dto = {| od_firstName := Some firstName; od_lastName := Some lastName;
                 od_birthday := Some birthday |} ->
        account E userId w = Some user ->
        fst (addOrChangeOptionalData E userId dto w)
        = Return (Data (userData (set_optional firstName lastName birthday user)))
        /\ account E userId (snd (addOrChangeOptionalData E userId dto w))
           = Some (set_optional firstName lastName birthday user)).
Proof.
  intros Hnone. split.
  - intros Hlacks. unfold addOrChangeOptionalData.
    rewrite (try_catch_throw _ _ w w TypeError); [reflexivity|].
    rewrite (bind_run _ _ w w None)
      by (unfold userModel_findOne, gets; rewrite Hnone; reflexivity).
    destruct dto as [[f|] [l|] [b|]]; cbn [od_firstName od_lastName od_birthday] in *;
      try reflexivity.
    destruct Hlacks as [H|[H|H]]; discriminate H.
  - intros firstName lastName birthday user -> Hacc.
    assert (Hmatch : matches (sat_user E) [User.by_id userId] user = true)
      by (apply (findOne_In _ _ _ _ Hacc)).
    assert (Hrun : addOrChangeOptionalData E userId
                     {| od_firstName := Some firstName; od_lastName := Some lastName;
                        od_birthday := Some birthday |} w
                   = (Return (Data (userData (set_optional firstName lastName birthday user))),
                      with_users (updateOne (sat_user E) [User.by_id userId]
                                    (set_optional firstName lastName birthday)) w)).
    { unfold addOrChangeOptionalData. apply try_catch_return.
      rewrite (bind_run _ _ w w None)
        by (unfold userModel_findOne, gets; rewrite Hnone; reflexivity).
      cbn [od_firstName od_lastName od_birthday own_or].
      erewrite bind_run by reflexivity.
      erewrite bind_run by reflexivity.
      erewrite bind_run by reflexivity.
      erewrite bind_run by reflexivity.
      erewrite bind_run.
      2:{ unfold userModel_findOne, gets. cbn [users with_users].
          unfold account in Hacc.
          rewrite (updateOne_then_find _ _ (set_optional firstName lastName birthday)
                     _ _ Hacc Hmatch).
          reflexivity. }
      reflexivity. }
    rewrite Hrun. cbn [fst snd]. split; [reflexivity|].
    unfold account in *. cbn [users with_users].
    apply (updateOne_then_find _ _ (set_optional firstName lastName birthday)
             _ _ Hacc Hmatch).
Qed.

Lemma addOrChangeOptionalData_not_active_witness :
  let E := sample_env false both_tokens in
  let w := sample_world [alice; dave] 1000 in
  let all := {| od_firstName := Some "David"; od_lastName := Some "D";
                od_birthday := Some "1990-01-01" |} in
  addOrChangeOptionalData E 2%nat
    {| od_firstName := Some "David"; od_lastName := None; od_birthday := None |} w
  = (Return undefined, w)
  /\ account E 2%nat (after (addOrChangeOptionalData E 2%nat all) w)
     = Some (set_optional "David" "D" "1990-01-01" dave).
Proof.
  cbv zeta. split.
  - apply (addOrChangeOptionalData_not_active (sample_env false both_tokens) 2%nat
             {| od_firstName := Some "David"; od_lastName := None; od_birthday := None |}
             (sample_world [alice; dave] 1000) eq_refl).
    right. left. reflexivity.
  - apply (proj2 (addOrChangeOptionalData_not_active (sample_env false both_tokens)
                    2%nat
                    {| od_firstName := Some "David"; od_lastName := Some "D";
                       od_birthday := Some "1990-01-01" |}
                    (sample_world [alice; dave] 1000) eq_refl)
             "David" "D" "1990-01-01" dave eq_refl eq_refl).
Defined.

(** X9: on an active account [changePhoto] stores the [secure_url] of the
    upload and answers the public view of the account as stored; when the
    upload resolves to nothing the stored photo stays; when it is rejected
    the answer is nothing and nothing is written. *)
Theorem changePhoto_active (E : Env) (upload : option (option string))
  (userId : ObjectId) (w : World) (user : User.t) :
  findOne (sat_user E) [User.by_id userId; User.by_isActive true] (users w) = Some user ->
  account E userId w = Some user ->
  let result := changePhoto E upload userId w in
  match upload with
  | Some (Some secure_url) =>
      fst result = Return (Data (userData (set_photo secure_url user)))
      /\ account E userId (snd result) = Some (set_photo secure_url user)
  | Some None =>
      fst result = Return (Data (userData user))
      /\ account E userId (snd result) = Some user
  | None => result = (Return undefined, w)
  end.
Proof.
  intros Hactive Hacc result.
  assert (Hmatch : forall photo,
             matches (sat_user E) [User.by_id userId] (set_photo photo user) = true)
    by (intros photo; apply (findOne_In _ _ _ _ Hacc)).
  assert (Hsame : set_photo (User.photo user) user = user) by (destruct user; reflexivity).
  subst result. unfold changePhoto.
  destruct upload as [[secure_url|]|].
  - erewrite try_catch_return.
    2:{ rewrite (bind_run _ _ w w (Some user))
          by (unfold userModel_findOne, gets; rewrite Hactive; reflexivity).
        erewrite bind_run by reflexivity.
        erewrite bind_run by reflexivity.
        erewrite bind_run by reflexivity.
        reflexivity. }
    cbn [fst snd]. split; [reflexivity|].
    unfold account in *. cbn [users with_users].
    apply (updateOne_then_find _ _ (set_photo secure_url) _ _ Hacc (Hmatch secure_url)).
  - erewrite try_catch_return.
    2:{ rewrite (bind_run _ _ w w (Some user))
          by (unfold userModel_findOne, gets; rewrite Hactive; reflexivity).
        erewrite bind_run by reflexivity.
        erewrite bind_run by reflexivity.
        erewrite bind_run by reflexivity.
        reflexivity. }
    cbn [fst snd]. rewrite Hsame. split; [reflexivity|].
    unfold account in *. cbn [users with_users].
    rewrite (updateOne_then_find _ _ (set_photo (User.photo user)) _ _ Hacc
               (Hmatch (User.photo user))).
    rewrite Hsame. reflexivity.
  - rewrite (try_catch_throw _ _ w w TypeError); [reflexivity|].
    rewrite (bind_run _ _ w w (Some user))
      by (unfold userModel_findOne, gets; rewrite Hactive; reflexivity).
    erewrite bind_run by reflexivity.
    reflexivity.
Qed.

Lemma changePhoto_active_witness :
  let E := sample_env false both_tokens in
  let w := sample_world [alice; bob] 1000 in
  fst (changePhoto E (Some (Some "https://cdn.example.org/alice.png")) 1%nat w)
  = Return (Data (userData (set_photo "https://cdn.example.org/alice.png" alice)))
  /\ account E 1%nat
       (after (changePhoto E (Some (Some "https://cdn.example.org/alice.png")) 1%nat) w)
     = Some (set_photo "https://cdn.example.org/alice.png" alice).
Proof.
  exact (changePhoto_active (sample_env false both_tokens)
           (Some (Some "https://cdn.example.org/alice.png")) 1%nat
           (sample_world [alice; bob] 1000) alice eq_refl eq_refl).
Defined.

(** ** [_isEmpty] *)

(** X10: [_isEmpty] answers the string "type is undefined or null" for
    every falsy value, the empty string and 0 included, so it never answers
    [true] for them.  For a truthy value it answers a boolean, and [true]
    exactly when the value is a plain object without own keys, a value whose
    [length] reads 0 (an empty array, a function without parameters, a plain
    object with an own [length] of 0, [new String("")], an instance of
    another class with such a [length]), or a string, wrapped or not, that
    trims to nothing.  On an [error] object with no field named [length]
    this is the test for no own keys that the methods of the service rely
    on. *)
Theorem isEmpty_value_cases (trim : string -> string) (obj : JsValue) :
  (JsValue_truthy obj = false -> _isEmpty_value trim obj = type_is_undefined_or_null)
  /\ (JsValue_truthy obj = true ->
      exists b, _isEmpty_value trim obj = is_empty b
                /\ (b = true <->
                    match obj with
                    | js_object own =>
                        own = no_property
                        \/ own_property "length" own = Some (js_number 0)
                    | js_array n | js_function n => n = 0%nat
                    | js_string s => trim s = ""
                    | js_String s => s = "" \/ trim s = ""
                    | js_instance _ length => length = js_number 0
                    | _ => False
                    end))
  /\ (forall value error,
        obj = error_object value error ->
        ~ In "length" (map fst error) ->
        _isEmpty_value trim obj = is_empty (_isEmpty error)).
Proof.
  assert (Hzero : forall v, is_0 v = true <-> v = js_number 0).
  { intros v. destruct v; cbn; try (split; [discriminate|congruence]).
    split; [intros H; apply Z.eqb_eq in H; congruence|].
    intros H. injection H as ->. reflexivity. }
  assert (Hblank : forall s, Nat.eqb (String.length s) 0 = true <-> s = "").
  { intros s. destruct s; cbn; split; congruence. }
  assert (Hnat : forall n, (Z.of_nat n =? 0) = true <-> n = 0%nat).
  { intros n. rewrite Z.eqb_eq. lia. }
  split; [|split].
  - intros Hf. unfold _isEmpty_value. rewrite Hf. reflexivity.
  - intros Ht. unfold _isEmpty_value. rewrite Ht.
    destruct obj as [| |b|z| |z|s| |own|n|n|s|z|keys len]; cbn in Ht;
      try discriminate Ht; cbn; rewrite ?andb_false_r, ?orb_false_r; cbn [orb andb].
    + eexists. split; [reflexivity|]. split; [discriminate|contradiction].
    + rewrite Ht. eexists. split; [reflexivity|]. split; [discriminate|contradiction].
    + eexists. split; [reflexivity|]. split; [discriminate|contradiction].
    + eexists. split; [reflexivity|].
      unfold truthy in Ht. apply negb_true_iff in Ht. rewrite Ht.
      assert (Hlen : (Z.of_nat (String.length s) =? 0) = false).
      { destruct s; [discriminate Ht|reflexivity]. }
      rewrite Hlen. cbn [orb andb]. apply (Hblank (trim s)).
    + eexists. split; [reflexivity|]. split; [discriminate|contradiction].
    + eexists. split; [reflexivity|].
      destruct own as [|k v own]; [cbn; split; auto|].
      cbn [own_keys List.length Nat.eqb andb orb].
      rewrite ?orb_false_r, Hzero. split.
      * intros H. right.
        destruct (own_property "length" (property k v own)) as [v'|];
          [rewrite H; reflexivity|discriminate H].
      * intros [H| ->]; [discriminate H|reflexivity].
    + eexists. split; [reflexivity|]. apply Hnat.
    + eexists. split; [reflexivity|]. apply Hnat.
    + eexists. split; [reflexivity|].
      rewrite orb_true_iff, Hnat, Hblank. split.
      * intros [H|H]; [left; destruct s; [reflexivity|discriminate H]|right; exact H].
      * intros [-> |H]; [left; reflexivity|right; exact H].
    + eexists. split; [reflexivity|]. split; [discriminate|contradiction].
    + eexists. split; [reflexivity|]. apply Hzero.
  - intros value error -> Hno. unfold _isEmpty_value, error_object.
    cbn [JsValue_truthy typeof_string instanceof_String typeof_number
         instanceof_Number is_0 is_empty_string orb andb negb text_of
         Object_keys_length constructor_is_Object length_of].
    assert (Hnone : forall l : ErrorFields, ~ In "length" (map fst l) ->
              own_property "length"
                (fold_right (fun f => property (fst f) (value (snd f))) no_property l)
              = None).
    { induction l as [|[k c] l IH]; intros Hl; [reflexivity|].
      cbn [fold_right own_property fst snd]. cbn [map fst In] in Hl.
      destruct (String.eqb k "length") eqn:Hk.
      - apply String.eqb_eq in Hk. exfalso. apply Hl. left. exact Hk.
      - apply IH. intros Hin. apply Hl. right. exact Hin. }
    rewrite (Hnone error Hno).
    destruct error as [|[k c] error]; reflexivity.
Qed.

Lemma isEmpty_value_cases_witness :
  let trim := fun s : string => if String.eqb s " " then "" else s in
  let code := fun _ : ErrorCode => js_string "code" in
  _isEmpty_value trim (js_string "") = type_is_undefined_or_null
  /\ _isEmpty_value trim (js_number 0) = type_is_undefined_or_null
  /\ _isEmpty_value trim (js_string " ") = is_empty true
  /\ _isEmpty_value trim (js_object (property "length" (js_number 0) no_property))
     = is_empty true
  /\ _isEmpty_value trim (js_function 0) = is_empty true
  /\ _isEmpty_value trim (error_object code []) = is_empty true
  /\ _isEmpty_value trim (error_object code [("email", INVALID_EMAIL)]) = is_empty false.
Proof.
  cbv zeta.
  pose (trim := fun s : string => if String.eqb s " " then "" else s).
  pose (code := fun _ : ErrorCode => js_string "code").
  split; [exact (proj1 (isEmpty_value_cases trim (js_string "")) eq_refl)|].
  split; [exact (proj1 (isEmpty_value_cases trim (js_number 0)) eq_refl)|].
  split.
  { destruct (proj1 (proj2 (isEmpty_value_cases trim (js_string " "))) eq_refl)
      as (b & Hrun & Hb).
    assert (Htrue : b = true) by (apply Hb; reflexivity).
    rewrite Htrue in Hrun. exact Hrun. }
  split.
  { destruct (proj1 (proj2 (isEmpty_value_cases trim
                              (js_object (property "length" (js_number 0)
                                            no_property)))) eq_refl)
      as (b & Hrun & Hb).
    assert (Htrue : b = true) by (apply Hb; right; reflexivity).
    rewrite Htrue in Hrun. exact Hrun. }
  split.
  { destruct (proj1 (proj2 (isEmpty_value_cases trim (js_function 0))) eq_refl)
      as (b & Hrun & Hb).
    assert (Htrue : b = true) by (apply Hb; reflexivity).
    rewrite Htrue in Hrun. exact Hrun. }
  split.
  - apply (proj2 (proj2 (isEmpty_value_cases trim (error_object code []))) code []
             eq_refl).
    intros [].
  - apply (proj2 (proj2 (isEmpty_value_cases trim
                           (error_object code [("email", INVALID_EMAIL)])))
             code [("email", INVALID_EMAIL)] eq_refl).
    intros [H|[]]. discriminate H.
Defined.

(** ** Changes of primary data, continued *)

Lemma findOne_exists {Doc C1 C2 : Type} (s1 : C1 -> Doc -> bool)
  (s2 : C2 -> Doc -> bool) (q1 : list C1) (q2 : list C2) (l : list Doc) (d : Doc) :
  findOne s1 q1 l = Some d -> matches s2 q2 d = true -> exists_ s2 q2 l = true.
Proof.
  intros Hfind Hd. apply findOne_In in Hfind. destruct Hfind as [Hin _].
  unfold exists_. apply existsb_exists. exists d. auto.
Qed.

(** An update under a filter that asks for more than the look-up and
    accepts the document the look-up finds changes that document. *)
Lemma updateOne_refined {Doc Cond : Type} (sat : Cond -> Doc -> bool)
  (q1 q2 : list Cond) (f : Doc -> Doc) (l : list Doc) (d : Doc) :
  findOne sat q1 l = Some d ->
  matches sat q2 d = true ->
  (forall x, matches sat q2 x = true -> matches sat q1 x = true) ->
  matches sat q1 (f d) = true ->
  findOne sat q1 (updateOne sat q2 f l) = Some (f d).
Proof.
  unfold findOne. intros Hfind Hd Himp Hkeep.
  induction l as [|x l IH]; cbn [find updateOne] in *; [discriminate|].
  destruct (matches sat q1 x) eqn:Hx.
  - injection Hfind as ->. rewrite Hd. cbn [find]. rewrite Hkeep. reflexivity.
  - destruct (matches sat q2 x) eqn:Hx2.
    + rewrite (Himp x Hx2) in Hx. discriminate.
    + cbn [find]. rewrite Hx. apply IH. exact Hfind.
Qed.

Lemma no_pending_count (E : Env) (i : ObjectId) (w : World) :
  unverified_requests i w = [] ->
  countDocuments (sat_change E)
    [ChangePrimaryData.by_user i; ChangePrimaryData.by_verified false] (changes w) = 0.
Proof. intros H. rewrite count_unverified, H. reflexivity. Qed.

(** A request with a piece of the caller's context empty is refused by the
    schema. *)
Lemma invalid_context (E : Env) (userId : ObjectId)
  (token ip userAgent fingerprint : string) (dataType : DataType) :
  truthy ip && truthy userAgent && truthy fingerprint = false ->
  ChangePrimaryData.valid
    (pending_request E userId token ip userAgent fingerprint dataType) = false.
Proof.
  unfold ChangePrimaryData.valid, pending_request.
  cbn [ChangePrimaryData.verification ChangePrimaryData.ipOfRequest
       ChangePrimaryData.browserOfRequest ChangePrimaryData.fingerprintOfRequest].
  destruct (truthy ip), (truthy userAgent), (truthy fingerprint);
    cbn [andb]; intros H; try discriminate H; rewrite ?andb_false_r; reflexivity.
Qed.

(** [changeEmail] by an unblocked account with no unverified request, for
    its own email and a free new one. *)
Lemma changeEmail_run (E : Env) (userId : ObjectId)
  (newEmail ip userAgent fingerprint : string) (w : World) (user : User.t) :
  findOne (sat_user E) [User.by_id userId; User.by_isActive true] (users w) = Some user ->
  exists_ (sat_user E) [User.by_email newEmail] (users w) = false ->
  User.isBlocked user = false ->
  unverified_requests userId w = [] ->
  let token := entropy E (drawn w) in
  let request := pending_request E userId token ip userAgent fingerprint dt_email in
  let blocked :=
    with_users
      (updateOne (sat_user E)
         [User.by_id userId; User.by_email (User.email user); User.by_isActive true]
         (User.update (pending_update E (User.set_email newEmail) (clock w) token)))
      (with_drawn (S (drawn w)) w) in
  changeEmail E userId (User.email user) newEmail ip userAgent fingerprint w
  = if ChangePrimaryData.valid request
    then (Return (Sent "verify" token newEmail "VERIFY_EMAIL_CHANGE"),
          with_changes (insert request) blocked)
    else (Return undefined, blocked).
Proof.
  intros Hfind Hfree Hblk Hnone token request blocked.
  assert (Hold : exists_ (sat_user E) [User.by_email (User.email user)] (users w) = true).
  { apply (findOne_exists _ _ _ _ _ _ Hfind). unfold matches. cbn.
    rewrite String_eqb_refl. reflexivity. }
  unfold changeEmail, try_catch.
  rewrite (bind_run _ _ w w true)
    by (unfold _isExistingEmail, userModel_exists, gets; rewrite Hold; reflexivity).
  rewrite (bind_run _ _ w w false)
    by (unfold _isExistingEmail, userModel_exists, gets; rewrite Hfree; reflexivity).
  cbn [negb _isEmpty].
  rewrite (bind_run _ _ w w (Some user))
    by (unfold userModel_findOne, gets; rewrite Hfind; reflexivity).
  rewrite (bind_run _ _ w w 0)
    by (unfold changeModel_countDocuments, gets;
        rewrite (no_pending_count E userId w Hnone); reflexivity).
  rewrite (bind_run _ _ w w user) by reflexivity.
  rewrite Hblk. cbn [orb negb Z.eqb].
  rewrite (bind_run _ _ w (with_drawn (S (drawn w)) w) token) by reflexivity.
  unfold bind, Date_now, gets, userModel_updateOne, modify, change_save.
  fold request. destruct (ChangePrimaryData.valid request); reflexivity.
Qed.

(** The account [changeEmail] leaves, as the next look-up finds it. *)
Lemma changeEmail_blocks (E : Env) (userId : ObjectId) (newEmail token : string)
  (l : list User.t) (now : Z) (user : User.t) :
  findOne (sat_user E) [User.by_id userId; User.by_isActive true] l = Some user ->
  findOne (sat_user E) [User.by_id userId; User.by_isActive true]
    (updateOne (sat_user E)
       [User.by_id userId; User.by_email (User.email user); User.by_isActive true]
       (User.update (pending_update E (User.set_email newEmail) now token)) l)
  = Some (User.update (pending_update E (User.set_email newEmail) now token) user).
Proof.
  intros Hfind.
  pose proof (proj2 (findOne_In _ _ _ _ Hfind)) as Hm.
  unfold matches in Hm. cbn in Hm.
  apply andb_true_iff in Hm. destruct Hm as [Hid Hact].
  apply updateOne_refined.
  - exact Hfind.
  - unfold matches. cbn. rewrite Hid, String_eqb_refl. exact Hact.
  - intros x. unfold matches. cbn. intros Hx.
    apply andb_true_iff in Hx. destruct Hx as [Hxid Hx].
    apply andb_true_iff in Hx. destruct Hx as [_ Hxact].
    rewrite Hxid. exact Hxact.
  - unfold matches. cbn. rewrite Hid. exact Hact.
Qed.

(** X11: an unblocked account with no unverified request that asks to
    change its own email to a free one gets exactly one unverified request,
    carrying the token that is sent to the new address; the account is
    stored with the new email, blocked, with block and verification expiring
    HOURS_TO_VERIFY from now and the same token; its credential is not
    touched. *)
Theorem changeEmail_accepted (E : Env) (userId : ObjectId)
  (newEmail ip userAgent fingerprint : string) (w : World) (user : User.t) :
  findOne (sat_user E) [User.by_id userId; User.by_isActive true] (users w) = Some user ->
  exists_ (sat_user E) [User.by_email newEmail] (users w) = false ->
  User.isBlocked user = false ->
  unverified_requests userId w = [] ->
  let token := entropy E (drawn w) in
  let request := pending_request E userId token ip userAgent fingerprint dt_email in
  ChangePrimaryData.valid request = true ->
  let result :=
    changeEmail E userId (User.email user) newEmail ip userAgent fingerprint w in
  fst result = Return (Sent "verify" token newEmail "VERIFY_EMAIL_CHANGE")
  /\ unverified_requests userId (snd result) = [request]
  /\ ChangePrimaryData.verification request = token
  /\ exists stored,
       findOne (sat_user E) [User.by_id userId; User.by_isActive true]
         (users (snd result)) = Some stored
       /\ User.email stored = newEmail
       /\ User.isBlocked stored = true
       /\ User.blockExpires stored = clock w + HOURS_TO_VERIFY E
       /\ User.verificationExpires stored = clock w + HOURS_TO_VERIFY E
       /\ User.verification stored = token
       /\ User.password stored = User.password user.
Proof.
  intros Hfind Hfree Hblk Hnone token request Hvalid result.
  subst result.
  rewrite (changeEmail_run E userId newEmail ip userAgent fingerprint w user
             Hfind Hfree Hblk Hnone).
  cbv zeta. fold token. fold request. rewrite Hvalid. cbn [fst snd].
  split; [reflexivity|]. split.
  - unfold unverified_requests in *.
    cbn [changes with_changes with_users with_drawn]. unfold insert.
    rewrite filter_app, Hnone. cbn [filter app].
    subst request. cbn. rewrite Nat.eqb_refl. reflexivity.
  - split; [reflexivity|].
    eexists. split.
    + cbn [users with_changes with_users with_drawn].
      apply changeEmail_blocks. exact Hfind.
    + repeat split.
Qed.

Lemma changeEmail_accepted_witness :
  let E := sample_env false both_tokens in
  let w := sample_world [alice; bob] 1000 in
  let result :=
    changeEmail E 1%nat "alice@example.org" "alice@example.com" "ip" "ua" "fp" w in
  fst result = Return (Sent "verify" "0" "alice@example.com" "VERIFY_EMAIL_CHANGE")
  /\ unverified_requests 1%nat (snd result)
     = [pending_request E 1%nat "0" "ip" "ua" "fp" dt_email]
  /\ exists stored,
       account E 1%nat (snd result) = Some stored
       /\ User.email stored = "alice@example.com"
       /\ User.isBlocked stored = true
       /\ User.blockExpires stored = 1000 + 3600000.
Proof.
  cbv zeta.
  destruct (changeEmail_accepted (sample_env false both_tokens) 1%nat
              "alice@example.com" "ip" "ua" "fp" (sample_world [alice; bob] 1000) alice
              eq_refl eq_refl eq_refl eq_refl eq_refl)
    as (Hrun & Hrequests & _ & stored & Hstored & Hemail & Hblocked & Hexpires & _).
  split; [exact Hrun|]. split; [exact Hrequests|].
  exists stored. split; [|split; [exact Hemail|split; [exact Hblocked|exact Hexpires]]].
  vm_compute in Hstored. injection Hstored as <-. reflexivity.
Defined.

(** X12: the same request with a piece of the caller's context empty: the
    account is stored blocked under the new email all the same, the request
    is refused by its schema and not saved, and the answer is nothing; the
    account is left blocked with no request to redeem. *)
Theorem changeEmail_context_missing (E : Env) (userId : ObjectId)
  (newEmail ip userAgent fingerprint : string) (w : World) (user : User.t) :
  findOne (sat_user E) [User.by_id userId; User.by_isActive true] (users w) = Some user ->
  exists_ (sat_user E) [User.by_email newEmail] (users w) = false ->
  User.isBlocked user = false ->
  unverified_requests userId w = [] ->
  truthy ip && truthy userAgent && truthy fingerprint = false ->
  let result :=
    changeEmail E userId (User.email user) newEmail ip userAgent fingerprint w in
  fst result = Return undefined
  /\ changes (snd result) = changes w
  /\ exists stored,
       findOne (sat_user E) [User.by_id userId; User.by_isActive true]
         (users (snd result)) = Some stored
       /\ User.email stored = newEmail
       /\ User.isBlocked stored = true.
Proof.
  intros Hfind Hfree Hblk Hnone Hctx result.
  subst result.
  rewrite (changeEmail_run E userId newEmail ip userAgent fingerprint w user
             Hfind Hfree Hblk Hnone).
  cbv zeta.
  assert (Hinvalid : ChangePrimaryData.valid
                       (pending_request E userId (entropy E (drawn w)) ip userAgent
                          fingerprint dt_email) = false).
  { apply invalid_context. exact Hctx. }
  rewrite Hinvalid. cbn [fst snd]. split; [reflexivity|]. split; [reflexivity|].
  eexists. split.
  - cbn [users with_users with_drawn]. apply changeEmail_blocks. exact Hfind.
  - split; reflexivity.
Qed.

Lemma changeEmail_context_missing_witness :
  let E := sample_env false both_tokens in
  let w := sample_world [alice; bob] 1000 in
  let result :=
    changeEmail E 1%nat "alice@example.org" "alice@example.com" "" "ua" "fp" w in
  fst result = Return undefined
  /\ changes (snd result) = []
  /\ exists stored,
       findOne (sat_user E) [User.by_id 1%nat; User.by_isActive true]
         (users (snd result)) = Some stored
       /\ User.email stored = "alice@example.com"
       /\ User.isBlocked stored = true.
Proof.
  exact (changeEmail_context_missing (sample_env false both_tokens) 1%nat
           "alice@example.com" "" "ua" "fp" (sample_world [alice; bob] 1000) alice
           eq_refl eq_refl eq_refl eq_refl eq_refl).
Defined.

(** X13: [changeUsername] saves the request before it updates the account:
    with a piece of the caller's context empty nothing is written, the
    account keeps its name and is not blocked, and the answer is nothing. *)
Theorem changeUsername_context_missing (E : Env) (userId : ObjectId)
  (oldUsername newUsername ip userAgent fingerprint : string) (w : World)
  (user : User.t) :
  exists_ (sat_user E) [User.by_username oldUsername] (users w) = true ->
  exists_ (sat_user E) [User.by_username newUsername] (users w) = false ->
  findOne (sat_user E) [User.by_id userId; User.by_isActive true] (users w) = Some user ->
  User.isBlocked user = false ->
  unverified_requests userId w = [] ->
  truthy ip && truthy userAgent && truthy fingerprint = false ->
  let result :=
    changeUsername E userId oldUsername newUsername ip userAgent fingerprint w in
  fst result = Return undefined
  /\ users (snd result) = users w
  /\ changes (snd result) = changes w.
Proof.
  intros Hold Hfree Hfind Hblk Hnone Hctx result.
  assert (Hinvalid : ChangePrimaryData.valid
                       (pending_request E userId (entropy E (drawn w)) ip userAgent
                          fingerprint dt_username) = false).
  { apply invalid_context. exact Hctx. }
  assert (Hrun : result = (Return undefined, with_drawn (S (drawn w)) w)).
  { subst result. unfold changeUsername.
    rewrite (try_catch_throw _ _ w (with_drawn (S (drawn w)) w) ValidationError);
      [reflexivity|].
    rewrite (bind_run _ _ w w true)
      by (unfold _isExistingUsername, userModel_exists, gets; rewrite Hold; reflexivity).
    rewrite (bind_run _ _ w w false)
      by (unfold _isExistingUsername, userModel_exists, gets; rewrite Hfree; reflexivity).
    cbn [negb _isEmpty].
    rewrite (bind_run _ _ w w (Some user))
      by (unfold userModel_findOne, gets; rewrite Hfind; reflexivity).
    rewrite (bind_run _ _ w w 0)
      by (unfold changeModel_countDocuments, gets;
          rewrite (no_pending_count E userId w Hnone); reflexivity).
    rewrite (bind_run _ _ w w user) by reflexivity.
    rewrite Hblk. cbn [orb negb Z.eqb].
    rewrite (bind_run _ _ w (with_drawn (S (drawn w)) w) (entropy E (drawn w)))
      by reflexivity.
    apply bind_throw. unfold change_save. rewrite Hinvalid. reflexivity. }
  rewrite Hrun. repeat split.
Qed.

Lemma changeUsername_context_missing_witness :
  let E := sample_env false both_tokens in
  let w := sample_world [alice; bob] 1000 in
  let result := changeUsername E 1%nat "alice" "alicia" "ip" "ua" "" w in
  fst result = Return undefined
  /\ users (snd result) = [alice; bob]
  /\ changes (snd result) = [].
Proof.
  exact (changeUsername_context_missing (sample_env false both_tokens) 1%nat
           "alice" "alicia" "ip" "ua" "" (sample_world [alice; bob] 1000) alice
           eq_refl eq_refl eq_refl eq_refl eq_refl eq_refl).
Defined.

Lemma updateOne_keeps_others {Doc Cond : Type} (sat : Cond -> Doc -> bool)
  (q : list Cond) (f : Doc -> Doc) (l : list Doc) (x : Doc) :
  In x l -> matches sat q x = false -> In x (updateOne sat q f l).
Proof.
  intros Hin Hx. induction l as [|d l IH]; [destruct Hin|].
  cbn [updateOne]. destruct Hin as [->|Hin].
  - rewrite Hx. left. reflexivity.
  - destruct (matches sat q d); right; auto.
Qed.

(** X14: [changePhoneNumber] tests the new number against the emails of the
    accounts, not against their phone numbers: an unblocked account whose
    request is let through by the count of unverified requests is given the
    new number whether or not another account has it, and that other
    account keeps it. *)
Theorem changePhoneNumber_number_in_use (E : Env) (userId : ObjectId)
  (newPhoneNumber ip userAgent fingerprint : string) (w : World)
  (user other : User.t) :
  findOne (sat_user E) [User.by_id userId; User.by_isActive true] (users w) = Some user ->
  User.isBlocked user = false ->
  countDocuments (sat_change E)
    [ChangePrimaryData.no_path "userId"; ChangePrimaryData.by_verified false]
    (changes w) = 0 ->
  exists_ (sat_user E) [User.by_email newPhoneNumber] (users w) = false ->
  In other (users w) ->
  User.phoneNumber other = newPhoneNumber ->
  User._id other <> userId ->
  let token := entropy E (drawn w) in
  ChangePrimaryData.valid
    (pending_request E userId token ip userAgent fingerprint dt_phone) = true ->
  let result :=
    changePhoneNumber E userId (User.phoneNumber user) newPhoneNumber
      ip userAgent fingerprint w in
  fst result = Return (Sent "verify" token (User.email user) "VERIFY_PHONE_CHANGE")
  /\ In other (users (snd result))
  /\ exists stored,
       findOne (sat_user E) [User.by_id userId; User.by_isActive true]
         (users (snd result)) = Some stored
       /\ User.phoneNumber stored = newPhoneNumber
       /\ User.isBlocked stored = true.
Proof.
  intros Hfind Hblk Hcount Hfree Hin Hother Hdiff token Hvalid result.
  pose proof (proj2 (findOne_In _ _ _ _ Hfind)) as Hm.
  unfold matches in Hm. cbn in Hm.
  apply andb_true_iff in Hm. destruct Hm as [Hid Hact].
  assert (Hold : exists_ (sat_user E) [User.by_phoneNumber (User.phoneNumber user)]
                   (users w) = true).
  { apply (findOne_exists _ _ _ _ _ _ Hfind). unfold matches. cbn.
    rewrite String_eqb_refl. reflexivity. }
  assert (Hrun : result =
    (Return (Sent "verify" token (User.email user) "VERIFY_PHONE_CHANGE"),
     with_changes
       (insert (pending_request E userId token ip userAgent fingerprint dt_phone))
       (with_users
          (updateOne (sat_user E)
             [User.by_id userId; User.by_phoneNumber (User.phoneNumber user);
              User.by_isActive true]
             (User.update (pending_update E (User.set_phoneNumber newPhoneNumber)
                             (clock w) token)))
          (with_drawn (S (drawn w)) w)))).
  { subst result. unfold changePhoneNumber. apply try_catch_return.
    rewrite (bind_run _ _ w w true)
      by (unfold _isExistingPhone, userModel_exists, gets; rewrite Hold; reflexivity).
    rewrite (bind_run _ _ w w false)
      by (unfold _isExistingEmail, userModel_exists, gets; rewrite Hfree; reflexivity).
    cbn [negb _isEmpty].
    rewrite (bind_run _ _ w w (Some user))
      by (unfold userModel_findOne, gets; rewrite Hfind; reflexivity).
    rewrite (bind_run _ _ w w 0)
      by (unfold changeModel_countDocuments, gets; rewrite Hcount; reflexivity).
    rewrite (bind_run _ _ w w user) by reflexivity.
    rewrite Hblk. cbn [orb negb Z.eqb].
    rewrite (bind_run _ _ w (with_drawn (S (drawn w)) w) token) by reflexivity.
    unfold bind, Date_now, gets, userModel_updateOne, modify, change_save.
    rewrite Hvalid. reflexivity. }
  rewrite Hrun. cbn [fst snd users with_changes with_users with_drawn].
  split; [reflexivity|]. split.
  - apply updateOne_keeps_others; [exact Hin|].
    unfold matches. cbn.
    apply Nat.eqb_neq in Hdiff. rewrite Hdiff. reflexivity.
  - eexists. split.
    + apply updateOne_refined.
      * exact Hfind.
      * unfold matches. cbn. rewrite Hid, String_eqb_refl. exact Hact.
      * intros x. unfold matches. cbn. intros Hx.
        apply andb_true_iff in Hx. destruct Hx as [Hxid Hx].
        apply andb_true_iff in Hx. destruct Hx as [_ Hxact].
        rewrite Hxid. exact Hxact.
      * unfold matches. cbn. rewrite Hid. exact Hact.
    + split; reflexivity.
Qed.

Lemma changePhoneNumber_number_in_use_witness :
  let E := sample_env false both_tokens in
  let w := sample_world [alice; bob] 1000 in
  let result := changePhoneNumber E 1%nat "111" "222" "ip" "ua" "fp" w in
  User.phoneNumber bob = "222"
  /\ fst result = Return (Sent "verify" "0" "alice@example.org" "VERIFY_PHONE_CHANGE")
  /\ In bob (users (snd result))
  /\ exists stored,
       findOne (sat_user E) [User.by_id 1%nat; User.by_isActive true]
         (users (snd result)) = Some stored
       /\ User.phoneNumber stored = "222"
       /\ User.isBlocked stored = true.
Proof.
  cbv zeta. split; [reflexivity|].
  apply (changePhoneNumber_number_in_use (sample_env false both_tokens) 1%nat
           "222" "ip" "ua" "fp" (sample_world [alice; bob] 1000) alice bob
           eq_refl eq_refl eq_refl eq_refl).
  - right. left. reflexivity.
  - reflexivity.
  - discriminate.
  - reflexivity.
Defined.

(** ** Forgotten passwords, continued *)

(** A look-up and an update that first accept the same document: the
    update changes the document the look-up finds. *)
Lemma updateOne_same_first {Doc Cond : Type} (p : Doc -> bool)
  (sat : Cond -> Doc -> bool) (q : list Cond) (f : Doc -> Doc) (l : list Doc)
  (d : Doc) :
  find p l = Some d ->
  findOne sat q l = Some d ->
  p (f d) = true ->
  find p (updateOne sat q f l) = Some (f d).
Proof.
  unfold findOne. intros Hp Hq Hkeep.
  assert (Hpd : p d = true) by (apply (find_some _ _ Hp)).
  assert (Hqd : matches sat q d = true) by (apply (find_some _ _ Hq)).
  induction l as [|x l IH]; cbn [find updateOne] in *; [discriminate|].
  destruct (p x) eqn:Hx, (matches sat q x) eqn:Hx2.
  - injection Hp as ->. cbn [find]. rewrite Hkeep. reflexivity.
  - injection Hp as ->. rewrite Hqd in Hx2. discriminate.
  - injection Hq as ->. rewrite Hpd in Hx. discriminate.
  - cbn [find]. rewrite Hx. apply IH; assumption.
Qed.

(** An update that keeps what a test reads keeps whether some document
    passes the test. *)
Lemma updateOne_existsb {Doc Cond : Type} (p : Doc -> bool)
  (sat : Cond -> Doc -> bool) (q : list Cond) (f : Doc -> Doc) (l : list Doc) :
  (forall d, p (f d) = p d) ->
  existsb p (updateOne sat q f l) = existsb p l.
Proof.
  intros Hp. induction l as [|x l IH]; [reflexivity|].
  cbn [updateOne]. destruct (matches sat q x); cbn [existsb].
  - rewrite Hp. reflexivity.
  - rewrite IH. reflexivity.
Qed.

Lemma restPassword_run (E : Env) (ip userAgent fingerprint email : string) (w : World) :
  restPassword E ip userAgent fingerprint email w
  = if exists_ (sat_user E) [User.by_email email; User.by_isActive true] (users w)
    then (Return (Sent "reset-password" (entropy E (drawn w)) email "RESET_PASSWORD"),
          with_forgots
            (insert {| ForgotPassword.email := email;
                       ForgotPassword.verification := entropy E (drawn w);
                       ForgotPassword.expires := clock w + HOURS_TO_VERIFY E;
                       ForgotPassword.ipOfRequest := ip;
                       ForgotPassword.browserOfRequest := userAgent;
                       ForgotPassword.fingerprintOfRequest := fingerprint |})
            (with_drawn (S (drawn w)) w))
    else (Return (Status BAD_REQUEST), w).
Proof.
  unfold restPassword, bind, userModel_exists, gets, try_catch.
  destruct (exists_ (sat_user E) _ (users w)); reflexivity.
Qed.

Lemma verifyPasswordReset_run (E : Env)
  (email verification newPassword newPasswordVerification : string) (w : World) :
  verifyPasswordReset E email verification newPassword newPasswordVerification w
  = if exists_ sat_forgot [ForgotPassword.by_verification verification] (forgots w)
    then
      if String.eqb newPassword newPasswordVerification
      then
        let salt := entropy E (drawn w) in
        let digest :=
          {| d_options := password_options;
             d_salt := entropy E (S (drawn w));
             d_raw := argon2_raw E password_options (entropy E (S (drawn w)))
                        (salt ++ newPassword) |} in
        match findOne (sat_user E) [User.by_email email] (users w) with
        | Some user =>
            (Return (Status OK),
             with_vaults
               (updateOne (sat_vault E) [Vault.by_user (User._id user)]
                  (fun v => {| Vault.user := Vault.user v; Vault.salt := salt |}))
               (with_users
                  (updateOne (sat_user E) [User.by_id (User._id user)]
                     (User.update [User.set_password digest]))
                  (with_drawn (S (S (drawn w))) w)))
        | None => (Return undefined, with_drawn (S (S (drawn w))) w)
        end
      else (Return (RpcException_key PASSWORDS_DOES_NOT_MATCH
                      (value_of PASSWORDS_DOES_NOT_MATCH)), w)
    else (Return (Status BAD_REQUEST), w).
Proof.
  unfold verifyPasswordReset, try_catch.
  unfold bind at 1, forgotModel_exists, gets.
  destruct (exists_ sat_forgot _ (forgots w)); [|reflexivity].
  destruct (String.eqb newPassword newPasswordVerification); [|reflexivity].
  unfold bind at 1, userModel_findOne, gets.
  rewrite (bind_run _ _ w (with_drawn (S (drawn w)) w) (entropy E (drawn w)))
    by reflexivity.
  rewrite (bind_run _ _ _ _ _ (generatePassword_run E _ _ _)).
  destruct (findOne (sat_user E) _ (users w)) as [user|]; reflexivity.
Qed.

(** X15: a reset token is checked for existence only.  [verifyPasswordReset]
    answers the same at every time of the clock, so the expiry stored with
    the request is never applied; it leaves the requests as they are; and a
    token that has reset a password resets it again, with any other
    password. *)
Theorem verifyPasswordReset_token_stays (E : Env)
  (email verification newPassword newPasswordVerification : string) (w : World) :
  (forall now,
     fst (verifyPasswordReset E email verification newPassword newPasswordVerification
            (at_time now w))
     = fst (verifyPasswordReset E email verification newPassword newPasswordVerification w))
  /\ forgots (snd (verifyPasswordReset E email verification newPassword
                     newPasswordVerification w)) = forgots w
  /\ (fst (verifyPasswordReset E email verification newPassword newPassword w)
      = Return (Status OK) ->
      forall another,
        fst (verifyPasswordReset E email verification another another
               (snd (verifyPasswordReset E email verification newPassword newPassword w)))
        = Return (Status OK)).
Proof.
  split; [|split].
  - intros now. rewrite !verifyPasswordReset_run. cbv zeta.
    cbn [forgots users drawn at_time].
    destruct (exists_ sat_forgot _ (forgots w)); [|reflexivity].
    destruct (String.eqb newPassword newPasswordVerification); [|reflexivity].
    destruct (findOne (sat_user E) _ (users w)); reflexivity.
  - rewrite verifyPasswordReset_run. cbv zeta.
    destruct (exists_ sat_forgot _ (forgots w)); [|reflexivity].
    destruct (String.eqb newPassword newPasswordVerification); [|reflexivity].
    destruct (findOne (sat_user E) _ (users w)); reflexivity.
  - rewrite verifyPasswordReset_run. cbv zeta. rewrite String_eqb_refl.
    destruct (exists_ sat_forgot _ (forgots w)) eqn:Htoken; [|discriminate].
    destruct (findOne (sat_user E) [User.by_email email] (users w)) as [user|] eqn:Hfind;
      [|discriminate].
    intros _ another. cbn [snd].
    rewrite verifyPasswordReset_run. cbv zeta. rewrite String_eqb_refl.
    cbn [forgots users with_vaults with_users with_drawn]. rewrite Htoken.
    destruct (findOne (sat_user E) [User.by_email email] (updateOne _ _ _ (users w)))
      eqn:Hagain; [reflexivity|].
    apply findOne_None in Hagain.
    pose proof (findOne_exists _ (sat_user E) _ [User.by_email email] _ _ Hfind
                  (proj2 (findOne_In _ _ _ _ Hfind))) as Hstill.
    unfold exists_ in Hagain, Hstill.
    rewrite updateOne_existsb in Hagain by (intros d; reflexivity).
    rewrite Hstill in Hagain. discriminate.
Qed.

Lemma verifyPasswordReset_token_stays_witness :
  let E := sample_env false both_tokens in
  let w := after (restPassword E "ip" "ua" "fp" "alice@example.org")
             (sample_world [alice; bob] 1000) in
  let once := verifyPasswordReset E "alice@example.org" "0" "first-secret" "first-secret" in
  fst (once w) = Return (Status OK)
  /\ fst (once (at_time 9000000000 w)) = Return (Status OK)
  /\ fst (verifyPasswordReset E "alice@example.org" "0" "other-secret" "other-secret"
            (after once w))
     = Return (Status OK).
Proof.
  cbv zeta.
  destruct (verifyPasswordReset_token_stays (sample_env false both_tokens)
              "alice@example.org" "0" "first-secret" "first-secret"
              (after (restPassword (sample_env false both_tokens) "ip" "ua" "fp"
                        "alice@example.org")
                 (sample_world [alice; bob] 1000)))
    as (Hclock & _ & Hagain).
  split; [reflexivity|]. split.
  - rewrite (Hclock 9000000000). reflexivity.
  - exact (Hagain eq_refl "other-secret").
Defined.

(** X16: for an active account that its email finds first, a reset requested
    with [restPassword] and redeemed with the token sent, the email and a
    password given twice answers OK, and the account can then log in with
    that password: its stored digest verifies against the salt now in its
    vault, and [login] by that email and password is answered with the
    tokens of a session. *)
Theorem reset_then_login (E : Env) (ip userAgent fingerprint email password : string)
  (w : World) (user : User.t) (vault : Vault.t) (accessToken refreshToken : string) :
  findOne (sat_user E) [User.by_email email] (users w) = Some user ->
  account E (User._id user) w = Some user ->
  User.isActive user = true ->
  User.isBlocked user = false ->
  vault_of E (User._id user) w = Some vault ->
  truthy email = true ->
  let by_email :=
    {| rememberMe := false; dto_username := ""; dto_phoneNumber := "";
       dto_email := email; dto_password := password |} in
  generateJWT E (User._id user)
    (session_data E (clock w) ip userAgent fingerprint by_email)
  = Some (accessToken, refreshToken) ->
  truthy accessToken && truthy refreshToken = true ->
  let token := entropy E (drawn w) in
  let requested := after (restPassword E ip userAgent fingerprint email) w in
  let redeemed := after (verifyPasswordReset E email token password password) requested in
  fst (restPassword E ip userAgent fingerprint email w)
  = Return (Sent "reset-password" token email "RESET_PASSWORD")
  /\ fst (verifyPasswordReset E email token password password requested)
     = Return (Status OK)
  /\ (exists stored salted,
        account E (User._id user) redeemed = Some stored
        /\ vault_of E (User._id user) redeemed = Some salted
        /\ argon2_verify E (User.password stored) (Vault.salt salted ++ password) = true)
  /\ exists view,
       fst (login E ip userAgent fingerprint by_email redeemed)
       = Return (Session view accessToken refreshToken)
       /\ ud_email view = email.
Proof.
  intros Hfind Hacc Hact Hblk Hvault Hemail by_email Hjwt Htokens token requested
    redeemed.
  pose proof (findOne_In _ _ _ _ Hfind) as [Hin Hm].
  assert (Huemail : User.email user = email).
  { unfold matches in Hm. cbn in Hm. rewrite andb_true_r in Hm.
    apply String.eqb_eq. exact Hm. }
  assert (Hactive : exists_ (sat_user E) [User.by_email email; User.by_isActive true]
                      (users w) = true).
  { apply (findOne_exists _ _ _ _ _ _ Hfind). unfold matches. cbn.
    rewrite Huemail, String_eqb_refl, Hact. reflexivity. }
  pose proof (restPassword_run E ip userAgent fingerprint email w) as Hrest.
  rewrite Hactive in Hrest. fold token in Hrest.
  split; [rewrite Hrest; reflexivity|].
  assert (Hrequested : users requested = users w /\ vaults requested = vaults w
                       /\ clock requested = clock w
                       /\ exists_ sat_forgot [ForgotPassword.by_verification token]
                            (forgots requested) = true).
  { subst requested. unfold after. rewrite Hrest.
    cbn [snd users vaults clock forgots with_forgots with_drawn].
    repeat split. rewrite exists_insert. unfold matches. cbn.
    rewrite String_eqb_refl. apply orb_true_r. }
  destruct Hrequested as [Hu [Hv [Hc Htoken]]].
  pose proof (verifyPasswordReset_run E email token password password requested) as Hred.
  cbv zeta in Hred. rewrite Htoken, String_eqb_refl, Hu, Hfind in Hred.
  set (salt := entropy E (drawn requested)) in Hred.
  set (digest := {| d_options := password_options; d_salt := _; d_raw := _ |}) in Hred.
  split; [rewrite Hred; reflexivity|].
  assert (Hverify : argon2_verify E digest (salt ++ password) = true).
  { unfold argon2_verify. subst digest. cbn. apply String_eqb_refl. }
  assert (Hstored : account E (User._id user) redeemed
                    = Some (User.update [User.set_password digest] user)).
  { subst redeemed. unfold after, account. rewrite Hred.
    cbn [snd users with_vaults with_users with_drawn]. rewrite Hu.
    apply (updateOne_then_find _ _ (User.update [User.set_password digest]) _ _ Hacc).
    apply (findOne_In _ _ _ _ Hacc). }
  assert (Hsalted : vault_of E (User._id user) redeemed
                    = Some {| Vault.user := Vault.user vault; Vault.salt := salt |}).
  { subst redeemed. unfold after, vault_of. rewrite Hred.
    cbn [snd vaults with_vaults]. cbn [vaults with_users with_drawn]. rewrite Hv.
    apply (updateOne_then_find _ _
             (fun v => {| Vault.user := Vault.user v; Vault.salt := salt |})
             _ _ Hvault).
    apply (findOne_In _ _ _ _ Hvault). }
  split.
  { eexists. eexists. split; [exact Hstored|]. split; [exact Hsalted|]. exact Hverify. }
  assert (Hresolve : login_resolve E by_email redeemed
                     = (Return (Some (User.update [User.set_password digest] user), []),
                        redeemed)).
  { apply login_resolve_identified.
    subst redeemed. unfold after. rewrite Hred.
    cbn [snd users with_vaults with_users with_drawn]. rewrite Hu.
    apply updateOne_same_first.
    - rewrite (find_by_cond E (User.by_email email)); [exact Hfind|].
      intros u. unfold identifies, by_email. cbn [dto_username dto_phoneNumber dto_email].
      rewrite Hemail. reflexivity.
    - exact Hacc.
    - unfold identifies, by_email. cbn [dto_username dto_phoneNumber dto_email].
      rewrite Hemail. cbn. rewrite Huemail. apply String_eqb_refl. }
  assert (Hclock : clock redeemed = clock w).
  { subst redeemed. unfold after. rewrite Hred. exact Hc. }
  rewrite (login_verified_run E ip userAgent fingerprint by_email redeemed
             (User.update [User.set_password digest] user)
             {| Vault.user := Vault.user vault; Vault.salt := salt |}
             Hresolve Hact Hblk Hsalted Hverify).
  rewrite login_session_run.
  destruct (after_unblock_keeps (clock redeemed)
              (User.update [User.set_password digest] user)) as [Hid _].
  rewrite Hid, Hclock.
  change (User._id (User.update [User.set_password digest] user)) with (User._id user).
  rewrite Hjwt, Htokens. cbn [fst]. eexists. split; [reflexivity|].
  unfold after_unblock. destruct (stale_block _ _); cbn; exact Huemail.
Qed.

Lemma reset_then_login_witness :
  let E := sample_env false both_tokens in
  let w := sample_world [alice; bob] 1000 in
  let requested := after (restPassword E "ip" "ua" "fp" "alice@example.org") w in
  let redeemed :=
    after (verifyPasswordReset E "alice@example.org" "0" "new-secret" "new-secret")
      requested in
  fst (verifyPasswordReset E "alice@example.org" "0" "new-secret" "new-secret" requested)
  = Return (Status OK)
  /\ exists view,
       fst (login E "ip" "ua" "fp" (login_by_email "alice@example.org" "new-secret")
              redeemed)
       = Return (Session view "access" "refresh")
       /\ ud_email view = "alice@example.org".
Proof.
  cbv zeta.
  destruct (reset_then_login (sample_env false both_tokens) "ip" "ua" "fp"
              "alice@example.org" "new-secret" (sample_world [alice; bob] 1000) alice
              {| Vault.user := 1%nat; Vault.salt := "salt-a" |} "access" "refresh"
              eq_refl eq_refl eq_refl eq_refl eq_refl eq_refl eq_refl eq_refl)
    as (_ & Hredeem & _ & Hlogin).
  split; [exact Hredeem | exact Hlogin].
Defined.

(** ** login: what it leaves alone *)

Lemma accounts_only_refl (w : World) : accounts_only w w.
Proof. repeat split. Qed.

Lemma accounts_only_trans (w1 w2 w3 : World) :
  accounts_only w1 w2 -> accounts_only w2 w3 -> accounts_only w1 w3.
Proof.
  unfold accounts_only. intros H12 H23.
  destruct H12 as [? [? [? [? [? [? ?]]]]]].
  destruct H23 as [? [? [? [? [? [? ?]]]]]].
  repeat split; congruence.
Qed.

Lemma save_accounts_only (E : Env) (user : User.t) (w : World) :
  accounts_only w
    (with_users (updateOne (sat_user E) [User.by_id (User._id user)] (fun _ => user)) w).
Proof.
  unfold accounts_only. cbn [users vaults changes forgots counter clock drawn with_users].
  repeat split.
  induction (users w) as [|d l IH]; [reflexivity|].
  cbn [updateOne]. rewrite matches_by_id.
  destruct (Nat.eqb (User._id d) (User._id user)) eqn:Hd; cbn [map].
  - apply Nat.eqb_eq in Hd. rewrite Hd. reflexivity.
  - rewrite IH. reflexivity.
Qed.

Lemma login_unblock_accounts_only (E : Env) (user : User.t) (w : World) :
  accounts_only w (snd (login_unblock E user w)).
Proof.
  rewrite login_unblock_run. cbn [snd].
  destruct (stale_block user (clock w)); [|apply accounts_only_refl].
  rewrite <- (after_unblock_keeps_id (clock w) user).
  apply save_accounts_only.
Qed.

Lemma login_account_accounts_only (E : Env) (user : User.t) (sd : SessionData)
  (dto : LoginDto) (w : World) :
  exists r,
    fst (try_catch (login_account E user [] sd dto) log_and_drop w) = Return r
    /\ accounts_only w (snd (try_catch (login_account E user [] sd dto) log_and_drop w)).
Proof.
  destruct (User.isActive user && User.isBlocked user) eqn:Hnb.
  { unfold try_catch, login_account. rewrite Hnb.
    eexists. split; [reflexivity|apply accounts_only_refl]. }
  pose proof (login_unblock_accounts_only E user w) as Hunb.
  destruct (after_unblock_keeps (clock w) user) as [Hid [Hpw [Hatt Hact]]].
  destruct (vault_of E (User._id user) w) as [vault|] eqn:Hvault.
  2:{ (* no vault: the salt of [null] *)
      unfold login_account. rewrite Hnb.
      erewrite try_catch_throw.
      2:{ erewrite bind_run by (rewrite login_unblock_run; reflexivity).
          erewrite bind_run.
          2:{ unfold vaultModel_findOne, gets. rewrite Hid.
              unfold vault_of in Hvault.
              replace (vaults _) with (vaults w).
              - rewrite Hvault. reflexivity.
              - destruct (stale_block user (clock w)); reflexivity. }
          apply bind_throw. reflexivity. }
      eexists. split; [reflexivity|].
      cbn [snd log_and_drop ret].
      rewrite login_unblock_run in Hunb. exact Hunb. }
  unfold try_catch. rewrite (login_account_checks _ _ _ _ _ _ Hnb Hvault).
  set (w1 := snd (login_unblock E user w)) in *.
  set (user1 := after_unblock (clock w) user) in *.
  destruct (argon2_verify E (User.password user1) (Vault.salt vault ++ dto_password dto))
    eqn:Hver.
  - rewrite (bind_run _ _ _ _ _ (login_secret_right E _ _ _ _ _ Hver)).
    destruct (User.isActive user); cbn [_isEmpty negb].
    + pose proof (login_session_run E user1 sd w1) as Hs. unfold try_catch in Hs.
      destruct (login_session E user1 sd w1) as [[r|e|] w2] eqn:Hsession;
        destruct (generateJWT E (User._id user1) sd) as [[a t]|];
        try destruct (truthy a && truthy t);
        inversion Hs; subst; eexists; (split; [reflexivity|]); cbn [snd];
        try exact Hunb.
      * eapply accounts_only_trans; [exact Hunb|].
        rewrite <- (assign_keeps_id (User.set_loginAttempts 0) user1).
        apply save_accounts_only.
    + eexists. split; [reflexivity|exact Hunb].
  - unfold bind. rewrite (login_secret_wrong E _ _ _ _ _ Hver). cbv zeta.
    assert (Hcounted : forall u w0,
               User._id u = User._id user1 ->
               accounts_only w0
                 (with_users (updateOne (sat_user E) [User.by_id (User._id user1)]
                                (fun _ => u)) w0)).
    { intros u w0 Hu. rewrite <- Hu. apply save_accounts_only. }
    destruct (LOGIN_ATTEMPTS_TO_BLOCK E <=? User.loginAttempts user1 + 1).
    + eexists. split; [reflexivity|]. cbn [snd].
      eapply accounts_only_trans; [exact Hunb|].
      eapply accounts_only_trans; apply Hcounted; reflexivity.
    + assert (Hne : forall e, negb (_isEmpty (set_field "password" INVALID_PASSWORD e))
                              = true).
      { intros [|[k v] e]; cbn [set_field]; [reflexivity|].
        destruct (String.eqb "password" k); reflexivity. }
      rewrite Hne. eexists. split; [reflexivity|]. cbn [snd ret].
      eapply accounts_only_trans; [exact Hunb|]. apply Hcounted. reflexivity.
Qed.

(** X17: [login] always answers, and whatever it answers it has written
    nothing but accounts: the vaults, the requests, the clock and the
    entropy drawn are as they were, and the accounts are the same in number
    and order of [_id]. *)
Theorem login_accounts_only (E : Env) (ip userAgent fingerprint : string)
  (dto : LoginDto) (w : World) :
  (exists r, fst (login E ip userAgent fingerprint dto w) = Return r)
  /\ accounts_only w (snd (login E ip userAgent fingerprint dto w)).
Proof.
  destruct (login_resolve_run E dto w) as [error [Hres Hnil]].
  destruct (find (identifies dto) (users w)) as [user|] eqn:Hfind.
  - rewrite (Hnil user eq_refl) in Hres.
    rewrite (login_found _ _ _ _ _ _ _ Hres).
    destruct (login_account_accounts_only E user
                (session_data E (clock w) ip userAgent fingerprint dto) dto w)
      as [r [Hr Hframe]].
    split; [exists r; exact Hr|exact Hframe].
  - unfold login, try_catch.
    erewrite bind_run by reflexivity.
    rewrite (bind_run _ _ _ _ _ Hres).
    destruct (negb (_isEmpty error)); cbn [fst snd ret];
      (split; [eexists; reflexivity|apply accounts_only_refl]).
Qed.

(** X18: when the look-up finds no account [login] writes nothing and
    answers by the first identifier the request has: INVALID_USERNAME for a
    username, INVALID_TEL_NUM, under the field username too, for a phone
    number, INVALID_EMAIL for an email, and BAD_REQUEST for a request with
    none. *)
Theorem login_no_account (E : Env) (ip userAgent fingerprint : string)
  (dto : LoginDto) (w : World) :
  find (identifies dto) (users w) = None ->
  login E ip userAgent fingerprint dto w = (Return (no_account dto), w).
Proof.
  intros Hnone. unfold login, try_catch, no_account.
  erewrite bind_run by reflexivity.
  assert (Hby : forall c, (forall u, identifies dto u = sat_user E c u) ->
                          findOne (sat_user E) [c] (users w) = None).
  { intros c Hc. rewrite <- (find_by_cond E c _ _ Hc). exact Hnone. }
  unfold login_resolve.
  destruct (truthy (dto_username dto)) eqn:Hu;
    [|destruct (truthy (dto_phoneNumber dto)) eqn:Hp;
      [|destruct (truthy (dto_email dto)) eqn:He]].
  - erewrite bind_run.
    2:{ erewrite bind_run; [reflexivity|].
        unfold userModel_findOne, gets.
        rewrite (Hby (User.by_username (dto_username dto)))
          by (intros u; unfold identifies; rewrite Hu; reflexivity).
        reflexivity. }
    reflexivity.
  - erewrite bind_run.
    2:{ erewrite bind_run; [reflexivity|].
        unfold userModel_findOne, gets.
        rewrite (Hby (User.by_phoneNumber (dto_phoneNumber dto)))
          by (intros u; unfold identifies; rewrite Hu, Hp; reflexivity).
        reflexivity. }
    reflexivity.
  - erewrite bind_run.
    2:{ erewrite bind_run; [reflexivity|].
        unfold userModel_findOne, gets.
        rewrite (Hby (User.by_email (dto_email dto)))
          by (intros u; unfold identifies; rewrite Hu, Hp, He; reflexivity).
        reflexivity. }
    reflexivity.
  - erewrite bind_run by reflexivity. reflexivity.
Qed.

Lemma login_no_account_witness :
  let E := sample_env false both_tokens in
  let w := sample_world [alice; bob] 1000 in
  login E "ip" "ua" "fp" (login_by_email "zoe@example.org" "guess") w
  = (Return (RpcException_fields [("email", INVALID_EMAIL)]), w).
Proof.
  exact (login_no_account (sample_env false both_tokens) "ip" "ua" "fp"
           (login_by_email "zoe@example.org" "guess") (sample_world [alice; bob] 1000)
           eq_refl).
Defined.

(** ** login: the lockout *)

Lemma first_by_id_found (E : Env) (p : User.t -> bool) (u : User.t) (l : list User.t) :
  first_by_id p u l ->
  find p l = Some u /\ findOne (sat_user E) [User.by_id (User._id u)] l = Some u.
Proof.
  unfold findOne. induction l as [|d l IH]; cbn [first_by_id find]; [contradiction|].
  rewrite matches_by_id.
  intros [[-> Hp]|[Hid [Hd Hrest]]].
  - rewrite Hp, Nat.eqb_refl. auto.
  - rewrite Hd, Hid. apply IH. exact Hrest.
Qed.

Lemma first_by_id_saved (E : Env) (p : User.t -> bool) (u u' : User.t)
  (l : list User.t) :
  first_by_id p u l ->
  p u' = true ->
  User._id u' = User._id u ->
  first_by_id p u'
    (updateOne (sat_user E) [User.by_id (User._id u)] (fun _ => u') l).
Proof.
  intros Hfirst Hp Hid.
  induction l as [|d l IH]; cbn [first_by_id updateOne] in *; [contradiction|].
  rewrite matches_by_id.
  destruct Hfirst as [[-> Hpu]|[Hd [Hpd Hrest]]].
  - rewrite Nat.eqb_refl. cbn [first_by_id]. left. auto.
  - rewrite Hd. cbn [first_by_id]. right. rewrite Hid. auto.
Qed.

(** [login] on an account with no stale block whose secret does not
    verify. *)
Lemma login_wrong_secret_run (E : Env) (ip userAgent fingerprint : string)
  (dto : LoginDto) (w : World) (user : User.t) (vault : Vault.t) :
  login_resolve E dto w = (Return (Some user, []), w) ->
  User.isActive user = true ->
  User.isBlocked user = false ->
  User.blockExpires user = 0 ->
  vault_of E (User._id user) w = Some vault ->
  argon2_verify E (User.password user) (Vault.salt vault ++ dto_password dto) = false ->
  let counted := User.assign (User.set_loginAttempts (User.loginAttempts user + 1)) user in
  let blocked :=
    User.update [User.set_blockExpires (clock w + HOURS_TO_BLOCK E);
                 User.set_isBlocked true; User.set_loginAttempts 0] counted in
  let save u := with_users (updateOne (sat_user E) [User.by_id (User._id user)] (fun _ => u)) in
  login E ip userAgent fingerprint dto w
  = if LOGIN_ATTEMPTS_TO_BLOCK E <=? User.loginAttempts user + 1
    then (Return (RpcException_key USER_HAS_BEEN_BLOCKED blocked_for_HOURS_TO_BLOCK),
          save blocked (save counted w))
    else (Return (RpcException_fields [("password", INVALID_PASSWORD)]),
          save counted w).
Proof.
  intros Hres Hact Hblk Hnoexp Hvault Hver counted blocked save.
  assert (Hnb : User.isActive user && User.isBlocked user = false)
    by (rewrite Hact, Hblk; reflexivity).
  assert (Hstale : stale_block user (clock w) = false)
    by (unfold stale_block; rewrite Hnoexp; rewrite andb_false_r; reflexivity).
  rewrite (login_found _ _ _ _ _ _ _ Hres).
  unfold try_catch. rewrite (login_account_checks _ _ _ _ _ _ Hnb Hvault).
  rewrite login_unblock_run. unfold after_unblock. rewrite Hstale. cbn [snd].
  unfold bind. rewrite (login_secret_wrong E _ _ _ _ _ Hver). cbv zeta.
  rewrite Hact.
  destruct (LOGIN_ATTEMPTS_TO_BLOCK E <=? User.loginAttempts user + 1); reflexivity.
Qed.

Lemma identifies_with_password (password : string) (dto : LoginDto) (u : User.t) :
  identifies (with_password password dto) u = identifies dto u.
Proof. reflexivity. Qed.

Lemma last_cons {A : Type} (l : list A) (x d : A) : last (x :: l) d = last l x.
Proof.
  revert x d. induction l as [|y l IH]; intros x d; [reflexivity|].
  change (last (x :: y :: l) d) with (last (y :: l) d).
  rewrite (IH y d), (IH y x). reflexivity.
Qed.

(** The lockout, by induction on the attempts after the first. *)
Lemma logins_lock (E : Env) (ip userAgent fingerprint : string) (dto : LoginDto)
  (vault : Vault.t) (later : list Z) :
  forall (first : Z) (w : World) (user : User.t),
    first_by_id (identifies dto) user (users w) ->
    User.isActive user = true ->
    User.isBlocked user = false ->
    User.blockExpires user = 0 ->
    vault_of E (User._id user) w = Some vault ->
    argon2_verify E (User.password user) (Vault.salt vault ++ dto_password dto) = false ->
    User.loginAttempts user + Z.of_nat (List.length (first :: later))
    = LOGIN_ATTEMPTS_TO_BLOCK E ->
    exists stored,
      first_by_id (identifies dto) stored
        (users (logins E ip userAgent fingerprint dto (first :: later) w))
      /\ User._id stored = User._id user
      /\ User.isActive stored = true
      /\ User.isBlocked stored = true
      /\ User.loginAttempts stored = 0
      /\ User.blockExpires stored = last later first + HOURS_TO_BLOCK E.
Proof.
  induction later as [|second later IH];
    intros first w user Hfirst Hact Hblk Hnoexp Hvault Hver Hsum.
  - (* the last attempt *)
    cbn [logins List.length] in *. unfold after.
    destruct (first_by_id_found E _ _ _ Hfirst) as [Hfind _].
    rewrite (login_wrong_secret_run E ip userAgent fingerprint dto (at_time first w)
               user vault
               (login_resolve_identified E dto (at_time first w) user Hfind)
               Hact Hblk Hnoexp Hvault Hver).
    cbv zeta.
    replace (LOGIN_ATTEMPTS_TO_BLOCK E <=? User.loginAttempts user + 1) with true
      by (symmetry; apply Z.leb_le; lia).
    cbn [snd users with_users at_time clock last].
    assert (Hp : identifies dto user = true) by (apply (find_some _ _ Hfind)).
    set (counted := User.assign (User.set_loginAttempts (User.loginAttempts user + 1)) user).
    set (blocked := User.update _ counted).
    exists blocked. split; [|repeat split; exact Hact].
    apply (first_by_id_saved E (identifies dto) counted blocked).
    + apply (first_by_id_saved E (identifies dto) user counted);
        [exact Hfirst|exact Hp|reflexivity].
    + exact Hp.
    + reflexivity.
  - (* an attempt that only counts *)
    change (logins E ip userAgent fingerprint dto (first :: second :: later) w)
      with (logins E ip userAgent fingerprint dto (second :: later)
              (after (login E ip userAgent fingerprint dto) (at_time first w))).
    destruct (first_by_id_found E _ _ _ Hfirst) as [Hfind _].
    assert (Hp : identifies dto user = true) by (apply (find_some _ _ Hfind)).
    unfold after at 1.
    rewrite (login_wrong_secret_run E ip userAgent fingerprint dto (at_time first w)
               user vault
               (login_resolve_identified E dto (at_time first w) user Hfind)
               Hact Hblk Hnoexp Hvault Hver).
    cbv zeta.
    replace (LOGIN_ATTEMPTS_TO_BLOCK E <=? User.loginAttempts user + 1) with false
      by (symmetry; apply Z.leb_gt; cbn [List.length] in Hsum; lia).
    cbn [snd].
    set (counted := User.assign (User.set_loginAttempts (User.loginAttempts user + 1)) user).
    destruct (IH second
                (with_users (updateOne (sat_user E) [User.by_id (User._id user)]
                               (fun _ => counted)) (at_time first w))
                counted) as [stored Hstored].
    + cbn [users with_users at_time]. apply first_by_id_saved; [exact Hfirst|exact Hp|reflexivity].
    + exact Hact.
    + exact Hblk.
    + exact Hnoexp.
    + exact Hvault.
    + exact Hver.
    + subst counted. cbn [User.loginAttempts User.assign].
      cbn [List.length] in *. lia.
    + exists stored. rewrite last_cons. exact Hstored.
Qed.

(** X19: an active, unblocked account is given wrong passwords at the given
    times, as many as bring its count of attempts to LOGIN_ATTEMPTS_TO_BLOCK.
    The account is then stored blocked until HOURS_TO_BLOCK after the last
    of them with the count back at 0, and from then on every [login] that
    names it is answered USER_HAS_BEEN_BLOCKED and writes nothing, whatever
    the password and the time. *)
Theorem login_lockout (E : Env) (ip userAgent fingerprint : string) (dto : LoginDto)
  (vault : Vault.t) (first : Z) (later : list Z) (w : World) (user : User.t) :
  first_by_id (identifies dto) user (users w) ->
  User.isActive user = true ->
  User.isBlocked user = false ->
  User.blockExpires user = 0 ->
  vault_of E (User._id user) w = Some vault ->
  argon2_verify E (User.password user) (Vault.salt vault ++ dto_password dto) = false ->
  User.loginAttempts user + Z.of_nat (List.length (first :: later))
  = LOGIN_ATTEMPTS_TO_BLOCK E ->
  let locked := logins E ip userAgent fingerprint dto (first :: later) w in
  (exists stored,
     account E (User._id user) locked = Some stored
     /\ User.isBlocked stored = true
     /\ User.loginAttempts stored = 0
     /\ User.blockExpires stored = last later first + HOURS_TO_BLOCK E)
  /\ forall now password,
       login E ip userAgent fingerprint (with_password password dto) (at_time now locked)
       = (Return (RpcException_key USER_HAS_BEEN_BLOCKED (value_of USER_HAS_BEEN_BLOCKED)),
          at_time now locked).
Proof.
  intros Hfirst Hact Hblk Hnoexp Hvault Hver Hsum locked.
  destruct (logins_lock E ip userAgent fingerprint dto vault later first w user
              Hfirst Hact Hblk Hnoexp Hvault Hver Hsum)
    as [stored [Hstored [Hid [Hsact [Hsblk [Hsatt Hsexp]]]]]].
  fold locked in Hstored.
  destruct (first_by_id_found E _ _ _ Hstored) as [Hfind Hacc].
  split.
  - exists stored. unfold account. rewrite <- Hid. auto.
  - intros now password.
    apply (login_blocked_account E ip userAgent fingerprint
             (with_password password dto) (at_time now locked) stored).
    + apply login_resolve_identified. cbn [users at_time].
      rewrite (find_same _ (identifies dto) _ (identifies_with_password password dto)).
      exact Hfind.
    + rewrite Hsact, Hsblk. reflexivity.
Qed.

Lemma login_lockout_witness :
  let E := sample_env false both_tokens in
  let w := sample_world [alice_after 3; bob] 1000 in
  let locked := logins E "ip" "ua" "fp" (login_by_username "alice" "guess") [2000; 3000] w in
  (exists stored,
     account E 1%nat locked = Some stored
     /\ User.isBlocked stored = true
     /\ User.loginAttempts stored = 0
     /\ User.blockExpires stored = 3000 + 86400000)
  /\ login E "ip" "ua" "fp" (login_by_username "alice" "alice-secret")
       (at_time 4000 locked)
     = (Return (RpcException_key USER_HAS_BEEN_BLOCKED (value_of USER_HAS_BEEN_BLOCKED)),
        at_time 4000 locked).
Proof.
  cbv zeta.
  destruct (login_lockout (sample_env false both_tokens) "ip" "ua" "fp"
              (login_by_username "alice" "guess")
              {| Vault.user := 1%nat; Vault.salt := "salt-a" |} 2000 [3000]
              (sample_world [alice_after 3; bob] 1000) (alice_after 3))
    as (Hlocked & Hlater).
  - vm_compute. auto.
  - reflexivity.
  - reflexivity.
  - reflexivity.
  - reflexivity.
  - reflexivity.
  - reflexivity.
  - split; [exact Hlocked | exact (Hlater 4000 "alice-secret")].
Defined.

Lemma findOne_refine {Doc Cond : Type} (sat : Cond -> Doc -> bool)
  (q1 q2 : list Cond) (l : list Doc) (d : Doc) :
  findOne sat q1 l = Some d ->
  matches sat q2 d = true ->
  (forall x, matches sat q2 x = true -> matches sat q1 x = true) ->
  findOne sat q2 l = Some d.
Proof.
  unfold findOne. intros Hfind Hd Himp.
  induction l as [|x l IH]; cbn [find] in *; [discriminate|].
  destruct (matches sat q1 x) eqn:Hx.
  - injection Hfind as ->. rewrite Hd. reflexivity.
  - destruct (matches sat q2 x) eqn:Hx2.
    + rewrite (Himp x Hx2) in Hx. discriminate.
    + apply IH. exact Hfind.
Qed.

Lemma existsb_ext_same {A : Type} (f g : A -> bool) (l : list A) :
  (forall a, f a = g a) -> existsb f l = existsb g l.
Proof.
  intros H. induction l as [|a l IH]; [reflexivity|].
  cbn [existsb]. rewrite H, IH. reflexivity.
Qed.

(** A test no document passes finds, after an update, the document the
    update made pass. *)
Lemma updateOne_new_match {Doc Cond : Type} (p : Doc -> bool)
  (sat : Cond -> Doc -> bool) (q : list Cond) (f : Doc -> Doc) (l : list Doc)
  (d : Doc) :
  existsb p l = false ->
  findOne sat q l = Some d ->
  p (f d) = true ->
  find p (updateOne sat q f l) = Some (f d).
Proof.
  unfold findOne. intros Hnone Hfind Hkeep.
  induction l as [|x l IH]; cbn [find updateOne existsb] in *; [discriminate|].
  apply orb_false_iff in Hnone. destruct Hnone as [Hx Hl].
  destruct (matches sat q x).
  - injection Hfind as ->. cbn [find]. rewrite Hkeep. reflexivity.
  - cbn [find]. rewrite Hx. apply IH; assumption.
Qed.

(** X20: once a change of email is accepted, every [login] under the new
    email is answered USER_HAS_BEEN_BLOCKED and writes nothing, whatever the
    password and however long after. *)
Theorem changeEmail_then_login (E : Env) (userId : ObjectId)
  (newEmail ip userAgent fingerprint : string) (w : World) (user : User.t) :
  findOne (sat_user E) [User.by_id userId; User.by_isActive true] (users w) = Some user ->
  exists_ (sat_user E) [User.by_email newEmail] (users w) = false ->
  User.isBlocked user = false ->
  unverified_requests userId w = [] ->
  ChangePrimaryData.valid
    (pending_request E userId (entropy E (drawn w)) ip userAgent fingerprint dt_email)
  = true ->
  truthy newEmail = true ->
  forall now password ip' userAgent' fingerprint',
    let changed :=
      at_time now
        (after (changeEmail E userId (User.email user) newEmail ip userAgent fingerprint)
           w) in
    login E ip' userAgent' fingerprint'
      {| rememberMe := false; dto_username := ""; dto_phoneNumber := "";
         dto_email := newEmail; dto_password := password |} changed
    = (Return (RpcException_key USER_HAS_BEEN_BLOCKED (value_of USER_HAS_BEEN_BLOCKED)),
       changed).
Proof.
  intros Hfind Hfree Hblk Hnone Hvalid Hemail now password ip' userAgent' fingerprint'
    changed.
  pose proof (proj2 (findOne_In _ _ _ _ Hfind)) as Hm.
  unfold matches in Hm. cbn in Hm.
  apply andb_true_iff in Hm. destruct Hm as [Hid Hact].
  rewrite andb_true_r in Hact. apply Bool.eqb_prop in Hact.
  set (stored := User.update (pending_update E (User.set_email newEmail) (clock w)
                                (entropy E (drawn w))) user).
  assert (Husers : users changed
                   = updateOne (sat_user E)
                       [User.by_id userId; User.by_email (User.email user);
                        User.by_isActive true]
                       (User.update (pending_update E (User.set_email newEmail) (clock w)
                                       (entropy E (drawn w)))) (users w)).
  { subst changed. unfold after.
    rewrite (changeEmail_run E userId newEmail ip userAgent fingerprint w user
               Hfind Hfree Hblk Hnone).
    cbv zeta. rewrite Hvalid. reflexivity. }
  apply (login_blocked_account E ip' userAgent' fingerprint' _ changed stored).
  - apply login_resolve_identified. rewrite Husers.
    apply updateOne_new_match.
    + rewrite <- Hfree. unfold exists_. apply existsb_ext_same. intros u.
      unfold identifies, matches. cbn. rewrite Hemail, andb_true_r. reflexivity.
    + apply (findOne_refine _ _ _ _ _ Hfind).
      * unfold matches. cbn. rewrite Hid, String_eqb_refl, Hact. reflexivity.
      * intros x. unfold matches. cbn. intros Hx.
        apply andb_true_iff in Hx. destruct Hx as [Hxid Hx].
        apply andb_true_iff in Hx. destruct Hx as [_ Hxact].
        rewrite Hxid. exact Hxact.
    + unfold identifies. cbn. rewrite Hemail. apply String_eqb_refl.
  - subst stored. cbn. rewrite Hact. reflexivity.
Qed.

Lemma changeEmail_then_login_witness :
  let E := sample_env false both_tokens in
  let w := sample_world [alice; bob] 1000 in
  let changed :=
    at_time 9000000
      (after (changeEmail E 1%nat "alice@example.org" "alice@example.com" "ip" "ua" "fp")
         w) in
  login E "ip" "ua" "fp" (login_by_email "alice@example.com" "alice-secret") changed
  = (Return (RpcException_key USER_HAS_BEEN_BLOCKED (value_of USER_HAS_BEEN_BLOCKED)),
     changed).
Proof.
  exact (changeEmail_then_login (sample_env false both_tokens) 1%nat
           "alice@example.com" "ip" "ua" "fp" (sample_world [alice; bob] 1000) alice
           eq_refl eq_refl eq_refl eq_refl eq_refl eq_refl
           9000000 "alice-secret" "ip" "ua" "fp").
Defined.
